(** * ultimate_pipeline.py: parser, diagnostics, report and command runner

    A shallow embedding of the core classes of [ultimate_pipeline.py]
    ([CommandRunner], [TestParser], [DiagnosticsEngine], [ReportGenerator])
    and the properties of the specification that concern them.

    Conventions.
    - A Python [str] is a [string]; one [ascii] stands for one code point
      in the range 0..255, so the character classes below are the
      restrictions of Python's to that range.
    - A Python [int] is a [Z].
    - Code that can raise returns a [result]; the exception is a value.
    - The external world (the child process, the clock, the file system)
      is an explicit argument of the function that consults it. *)

From Stdlib Require Import ZArith QArith Floats String Ascii List Bool Lia.
From Stdlib Require Import DecimalString.
Import ListNotations.

Open Scope string_scope.
Open Scope Z_scope.

(* ================================================================= *)
(** ** Python runtime: exceptions *)

Module Py.

Inductive exn : Type :=
| ValueError (msg : string)
| ZeroDivisionError (msg : string)
| OSError (errno : Z) (strerror : string) (filename : option string)
| UnicodeDecodeError (msg : string)
| Exception (msg : string).

Inductive result (A : Type) : Type :=
| Ok (a : A)
| Raise (e : exn).

Arguments Ok {A} a.
Arguments Raise {A} e.

Definition bind {A B : Type} (r : result A) (k : A -> result B) : result B :=
  match r with
  | Ok a => k a
  | Raise e => Raise e
  end.

Definition is_ok {A : Type} (r : result A) : bool :=
  match r with Ok _ => true | Raise _ => false end.

Definition exn_message (e : exn) : string :=
  match e with
  | ValueError msg => msg
  | ZeroDivisionError msg => msg
  | OSError _ strerror _ => strerror
  | UnicodeDecodeError msg => msg
  | Exception msg => msg
  end.

End Py.

Import Py.

Notation "x <- r ;; k" := (Py.bind r (fun x => k))
  (at level 61, r at next level, right associativity).

(* ================================================================= *)
(** ** Python runtime: characters and [str] methods *)

Module Str.

Definition code (c : ascii) : N := N_of_ascii c.

Definition in_range (lo hi : N) (c : ascii) : bool :=
  ((lo <=? code c) && (code c <=? hi))%N.

(** [\d] of the [re] module, on code points below 256. *)
Definition is_digit (c : ascii) : bool := in_range 48 57 c.

(** [str.isspace] on one code point below 256: TAB..CR, FS..US, SPACE,
    NEL and NBSP. *)
Definition is_space (c : ascii) : bool :=
  in_range 9 13 c || in_range 28 32 c
  || (code c =? 133)%N || (code c =? 160)%N.

(** [str.lower] on one code point below 256. *)
Definition lower_char (c : ascii) : ascii :=
  if in_range 65 90 c
     || (in_range 192 222 c && negb (code c =? 215)%N)
  then ascii_of_N (code c + 32)
  else c.

Fixpoint lower (s : string) : string :=
  match s with
  | EmptyString => EmptyString
  | String c s' => String (lower_char c) (lower s')
  end.

(** [str.upper] is only applied to the texts of a status or a severity;
    on code points below 256 two of them have no upper case in range
    (U+00B5 and U+00FF map above 255) or a longer one (U+00DF); they are
    left as they are. *)
Definition upper_char (c : ascii) : ascii :=
  if in_range 97 122 c
     || (in_range 224 254 c && negb (code c =? 247)%N)
  then ascii_of_N (code c - 32)
  else c.

Fixpoint upper (s : string) : string :=
  match s with
  | EmptyString => EmptyString
  | String c s' => String (upper_char c) (upper s')
  end.

(** [s.startswith(p)], returning what follows the prefix. *)
Fixpoint strip_prefix (p s : string) : option string :=
  match p with
  | EmptyString => Some s
  | String a p' =>
      match s with
      | EmptyString => None
      | String b s' => if Ascii.eqb a b then strip_prefix p' s' else None
      end
  end.

Definition startswith (p s : string) : bool :=
  match strip_prefix p s with Some _ => true | None => false end.

(** [sub in s]. *)
Fixpoint contains (sub s : string) : bool :=
  startswith sub s
  || match s with
     | EmptyString => false
     | String _ s' => contains sub s'
     end.

(** [s.count(sub)]: occurrences that do not overlap, leftmost first.
    [skip] is the number of characters of the last occurrence still to
    pass over. *)
Fixpoint count_from (sub : string) (skip : nat) (s : string) : nat :=
  match skip with
  | S k =>
      match s with
      | EmptyString => 0%nat
      | String _ s' => count_from sub k s'
      end
  | O =>
      if startswith sub s
      then S (match s with
              | EmptyString => 0%nat
              | String _ s' => count_from sub (Nat.pred (String.length sub)) s'
              end)
      else match s with
           | EmptyString => 0%nat
           | String _ s' => count_from sub 0 s'
           end
  end.

Definition count (sub s : string) : nat := count_from sub 0 s.

(** [s.split(c)] for a separator of one character. *)
Fixpoint split (c : ascii) (s : string) : list string :=
  match s with
  | EmptyString => [EmptyString]
  | String a s' =>
      if Ascii.eqb a c then EmptyString :: split c s'
      else match split c s' with
           | h :: t => String a h :: t
           | [] => [String a EmptyString]
           end
  end.

(** [sep.join(parts)]. *)
Fixpoint join (sep : string) (parts : list string) : string :=
  match parts with
  | [] => EmptyString
  | [p] => p
  | p :: ps => p ++ sep ++ join sep ps
  end.

Fixpoint lstrip (s : string) : string :=
  match s with
  | EmptyString => EmptyString
  | String c s' => if is_space c then lstrip s' else s
  end.

Fixpoint rstrip (s : string) : string :=
  match s with
  | EmptyString => EmptyString
  | String c s' =>
      match rstrip s' with
      | EmptyString => if is_space c then EmptyString else String c EmptyString
      | r => String c r
      end
  end.

(** [s.strip()]. *)
Definition strip (s : string) : string := rstrip (lstrip s).

(** [str(n)] for an [int]. *)
Definition str_of_Z (z : Z) : string := NilZero.string_of_int (Z.to_int z).

Definition digit_value (c : ascii) : Z := Z.of_N (code c) - 48.

Fixpoint int_acc (acc : Z) (s : string) : Z :=
  match s with
  | EmptyString => acc
  | String c s' => int_acc (10 * acc + digit_value c) s'
  end.

(** [int(s)] on a text of decimal digits (what [\d+] captures).  The
    value has no bound; an interpreter that limits the length of the
    text it converts (CPython 3.11 and later, 4300 digits unless the
    limit is lifted) raises [ValueError] beyond it, which is not
    modelled. *)
Definition int_of_digits (s : string) : Z := int_acc 0 s.

Fixpoint all_chars (p : ascii -> bool) (s : string) : bool :=
  match s with
  | EmptyString => true
  | String c s' => p c && all_chars p s'
  end.

Fixpoint count_char (p : ascii -> bool) (s : string) : nat :=
  match s with
  | EmptyString => 0%nat
  | String c s' => ((if p c then 1 else 0) + count_char p s')%nat
  end.

Definition is_dot (c : ascii) : bool := Ascii.eqb c ".".

(** [repr(s)] of a text.  The text stands between single quotes, or
    between double quotes when it holds a single quote and no double
    one; the quote used and the backslash are escaped, as are the
    characters that are not printable. *)
Definition squote : ascii := ascii_of_nat 39.
Definition dquote : ascii := ascii_of_nat 34.
Definition backslash : ascii := ascii_of_nat 92.

Definition has_char (c : ascii) (s : string) : bool :=
  negb (all_chars (fun a => negb (Ascii.eqb a c)) s).

(** [c.isprintable()] on one code point below 256. *)
Definition is_printable (c : ascii) : bool :=
  in_range 32 126 c || (in_range 161 255 c && negb (code c =? 173)%N).

Definition hex_digit (n : N) : ascii :=
  if (n <? 10)%N then ascii_of_N (48 + n) else ascii_of_N (87 + n).

Definition repr_char (quote c : ascii) : string :=
  if Ascii.eqb c quote || Ascii.eqb c backslash
  then String backslash (String c EmptyString)
  else if (code c =? 9)%N then String backslash "t"
  else if (code c =? 10)%N then String backslash "n"
  else if (code c =? 13)%N then String backslash "r"
  else if is_printable c then String c EmptyString
  else String backslash
         (String "x" (String (hex_digit (code c / 16))
                        (String (hex_digit (code c mod 16)) EmptyString))).

Fixpoint repr_chars (quote : ascii) (s : string) : string :=
  match s with
  | EmptyString => String quote EmptyString
  | String c s' => repr_char quote c ++ repr_chars quote s'
  end.

Definition repr (s : string) : string :=
  let quote :=
    if has_char squote s && negb (has_char dquote s) then dquote else squote in
  String quote (repr_chars quote s).

Fixpoint before_dot (s : string) : string :=
  match s with
  | EmptyString => EmptyString
  | String c s' => if is_dot c then EmptyString else String c (before_dot s')
  end.

Fixpoint after_dot (s : string) : string :=
  match s with
  | EmptyString => EmptyString
  | String c s' => if is_dot c then s' else after_dot s'
  end.

Fixpoint pow10 (n : nat) : positive :=
  match n with
  | O => 1%positive
  | S k => (10 * pow10 k)%positive
  end.

(** [float(s)] on a text of digits and dots (what [[\d.]+] captures).
    Python accepts it when it holds at most one dot and at least one
    digit, and raises [ValueError] otherwise.  The value is kept as the
    exact decimal fraction written in the text; Python rounds it to the
    nearest double. *)
Definition float_of_text (s : string) : result Q :=
  if all_chars (fun c => is_digit c || is_dot c) s
     && (count_char is_dot s <=? 1)%nat
     && (1 <=? count_char is_digit s)%nat
  then
    let ip := before_dot s in
    let fp := after_dot s in
    Ok (Qred (Qmake (int_of_digits (ip ++ fp)) (pow10 (String.length fp))))
  else Raise (ValueError ("could not convert string to float: '" ++ s ++ "'")).

End Str.

(* ================================================================= *)
(** ** The [re] module, for the patterns of [TestParser]

    A pattern is a sequence of items; an item is an atom, possibly
    wrapped in a capturing group.  The matcher backtracks as [re] does:
    a greedy repetition tries the longest run first, a lazy one the
    shortest, an alternation its branches from left to right. *)

Module Re.

Inductive atom : Type :=
| Lit (text : string)
| Opt (c : ascii)
| Alt (alts : list string)
| Star (cls : ascii -> bool) (greedy : bool)
| Plus (cls : ascii -> bool).

Record item : Type := { it_atom : atom; it_group : bool }.

Definition plain (a : atom) : item := {| it_atom := a; it_group := false |}.
Definition group (a : atom) : item := {| it_atom := a; it_group := true |}.

Definition pattern : Type := list item.

Section Backtracking.
Context {R : Type}.

(** The continuation [k taken rest] matches what follows the atom,
    [taken] being the text the atom consumed. *)
Definition cont : Type := string -> string -> option R.

Definition or_else (a : option R) (b : option R) : option R :=
  match a with Some x => Some x | None => b end.

Fixpoint star_greedy (cls : ascii -> bool) (k : cont) (s : string) : option R :=
  match s with
  | String c s' =>
      if cls c
      then or_else (star_greedy cls (fun t r => k (String c t) r) s')
                   (k EmptyString s)
      else k EmptyString s
  | EmptyString => k EmptyString s
  end.

Fixpoint star_lazy (cls : ascii -> bool) (k : cont) (s : string) : option R :=
  or_else (k EmptyString s)
    match s with
    | String c s' =>
        if cls c then star_lazy cls (fun t r => k (String c t) r) s' else None
    | EmptyString => None
    end.

Definition plus_greedy (cls : ascii -> bool) (k : cont) (s : string) : option R :=
  match s with
  | String c s' =>
      if cls c then star_greedy cls (fun t r => k (String c t) r) s' else None
  | EmptyString => None
  end.

Fixpoint first_alt (alts : list string) (k : cont) (s : string) : option R :=
  match alts with
  | [] => None
  | a :: alts' =>
      or_else
        match Str.strip_prefix a s with
        | Some r => k a r
        | None => None
        end
        (first_alt alts' k s)
  end.

Definition match_atom (a : atom) (k : cont) (s : string) : option R :=
  match a with
  | Lit l =>
      match Str.strip_prefix l s with
      | Some r => k l r
      | None => None
      end
  | Opt c =>
      match s with
      | String a s' =>
          if Ascii.eqb a c
          then or_else (k (String c EmptyString) s') (k EmptyString s)
          else k EmptyString s
      | EmptyString => k EmptyString s
      end
  | Alt alts => first_alt alts k s
  | Star cls true => star_greedy cls k s
  | Star cls false => star_lazy cls k s
  | Plus cls => plus_greedy cls k s
  end.
End Backtracking.

(** A match at the start of [s]: the captured groups, in order, and the
    text after the match. *)
Fixpoint match_here (p : pattern) (s : string) : option (list string * string) :=
  match p with
  | [] => Some ([], s)
  | it :: p' =>
      match_atom (it_atom it)
        (fun taken rest =>
           match match_here p' rest with
           | Some (gs, after) =>
               Some (if it_group it then taken :: gs else gs, after)
           | None => None
           end)
        s
  end.

(** [re.search(p, s)]: the leftmost match. *)
Fixpoint search (p : pattern) (s : string) : option (list string) :=
  match match_here p s with
  | Some (gs, _) => Some gs
  | None =>
      match s with
      | EmptyString => None
      | String _ s' => search p s'
      end
  end.

(** [re.finditer(p, s)]: the matches from left to right, the scan
    resuming where the previous match ended.  [skip] counts the
    characters of the previous match still to pass over. *)
Fixpoint finditer_from (p : pattern) (skip : nat) (s : string) : list (list string) :=
  match skip with
  | S k =>
      match s with
      | EmptyString => []
      | String _ s' => finditer_from p k s'
      end
  | O =>
      match match_here p s with
      | Some (gs, after) =>
          gs :: match s with
                | EmptyString => []
                | String _ s' =>
                    finditer_from p
                      (String.length s - String.length after - 1)%nat s'
                end
      | None =>
          match s with
          | EmptyString => []
          | String _ s' => finditer_from p 0 s'
          end
      end
  end.

Definition finditer (p : pattern) (s : string) : list (list string) :=
  finditer_from p 0 s.

(** [match.group(n)] for [n >= 1]. *)
Definition group_of (n : nat) (gs : list string) : string :=
  nth (Nat.pred n) gs EmptyString.

End Re.

(* ================================================================= *)
(** ** Data classes *)

(** [duration] is the exact value of the text parsed (see
    [Str.float_of_text]). *)
Record TestResult : Type := {
  name : string;
  status : string;
  duration : Q
}.

Record DiagnosticIssue : Type := {
  category : string;
  severity : string;
  message : string;
  file : option string;
  line : option Z
}.

(** The field [name] of the source is [project_name] here, [name] being
    the field of [TestResult]. *)
Record ProjectConfig : Type := {
  path : string;
  project_name : string;
  project_file : string;
  scheme : string;
  is_workspace : bool;
  bundle_id : option string
}.

(* ================================================================= *)
(** ** class TestParser *)

Module TestParser.

Definition not_newline (c : ascii) : bool := negb (Str.code c =? 10)%N.
Definition digit_or_dot (c : ascii) : bool := Str.is_digit c || Str.is_dot c.

(** [r"Test Case '(.*?)' (passed|failed) \(([\d.]+) seconds\)"] *)
Definition pattern : Re.pattern :=
  [ Re.plain (Re.Lit "Test Case '");
    Re.group (Re.Star not_newline false);
    Re.plain (Re.Lit "' ");
    Re.group (Re.Alt ["passed"; "failed"]);
    Re.plain (Re.Lit " (");
    Re.group (Re.Plus digit_or_dot);
    Re.plain (Re.Lit " seconds)") ].

(** [r"Executed (\d+) tests?, with (\d+) failures?"] *)
Definition summary_pattern : Re.pattern :=
  [ Re.plain (Re.Lit "Executed ");
    Re.group (Re.Plus Str.is_digit);
    Re.plain (Re.Lit " test");
    Re.plain (Re.Opt "s");
    Re.plain (Re.Lit ", with ");
    Re.group (Re.Plus Str.is_digit);
    Re.plain (Re.Lit " failure");
    Re.plain (Re.Opt "s") ].

(** Lines 242-245: the name kept for a matched identifier. *)
Definition normalize_name (test_name : string) : string :=
  if Str.contains "." test_name then
    let parts := Str.split "." test_name in
    if (2 <=? List.length parts)%nat
    then nth (List.length parts - 2) parts EmptyString
         ++ "." ++ nth (List.length parts - 1) parts EmptyString
    else test_name
  else test_name.

(** Lines 238-251: the body of the loop over the matches. *)
Definition test_of_match (m : list string) : result TestResult :=
  let test_name := Re.group_of 1 m in
  let status := Re.group_of 2 m in
  duration <- Str.float_of_text (Re.group_of 3 m) ;;
  Ok {| name := normalize_name test_name;
        status := status;
        duration := duration |}.

Fixpoint collect (ms : list (list string)) (tests : list TestResult)
  : result (list TestResult) :=
  match ms with
  | [] => Ok tests
  | m :: ms' =>
      t <- test_of_match m ;;
      collect ms' (tests ++ [t])
  end.

(** [sum(1 for t in tests if t.status == st)] *)
Definition count_status (st : string) (tests : list TestResult) : Z :=
  Z.of_nat (List.length (filter (fun t => String.eqb (status t) st) tests)).

Definition parse_results (output : string)
  : result (list TestResult * Z * Z * Z) :=
  tests <- collect (Re.finditer pattern output) [] ;;
  let summary_match := Re.search summary_pattern output in
  match summary_match with
  | Some m =>
      let total := Str.int_of_digits (Re.group_of 1 m) in
      let failed := Str.int_of_digits (Re.group_of 2 m) in
      let passed := total - failed in
      Ok (tests, total, passed, failed)
  | None =>
      match tests with
      | _ :: _ =>
          let total := Z.of_nat (List.length tests) in
          let passed := count_status "passed" tests in
          let failed := count_status "failed" tests in
          Ok (tests, total, passed, failed)
      | [] => Ok (tests, 0, 0, 0)
      end
  end.

End TestParser.

(* ================================================================= *)
(** ** class DiagnosticsEngine *)

Module DiagnosticsEngine.

Definition newline : ascii := ascii_of_nat 10.

Definition build_error (line : string) : DiagnosticIssue :=
  {| category := "Build Error"; severity := "critical";
     message := Str.strip line; file := None; line := None |}.

Definition build_warning (line : string) : DiagnosticIssue :=
  {| category := "Build Warning"; severity := "warning";
     message := Str.strip line; file := None; line := None |}.

(** Lines 276-287: the body of the loop over the lines; [issues] is the
    list the loop appends to. *)
Definition scan_line (issues : list DiagnosticIssue) (line : string)
  : list DiagnosticIssue :=
  if Str.contains "error:" (Str.lower line)
  then issues ++ [build_error line]
  else if Str.contains "warning:" (Str.lower line)
  then issues ++ [build_warning line]
  else issues.

Definition analyze_build_output (output : string) : list DiagnosticIssue :=
  fold_left scan_line (Str.split newline output) [].

(** One entry of [list(path.rglob("*.swift"))]: the file's name, its
    path as [str(swift_file)] gives it, and what [read_text()] does. *)
Record SwiftFile : Type := {
  file_name : string;
  file_path : string;
  read_text : result string
}.

Definition quality (sev msg : string) (f : SwiftFile) : DiagnosticIssue :=
  {| category := "Code Quality"; severity := sev; message := msg;
     file := Some (file_path f); line := None |}.

Definition force_try_issue (f : SwiftFile) : DiagnosticIssue :=
  quality "warning" ("Force try detected in " ++ file_name f) f.

Definition unwrap_issue (f : SwiftFile) (exclamation_count : nat) : DiagnosticIssue :=
  quality "info"
    ("Excessive force unwrapping in " ++ file_name f ++ " ("
       ++ Str.str_of_Z (Z.of_nat exclamation_count) ++ " instances)") f.

Definition print_issue (f : SwiftFile) : DiagnosticIssue :=
  quality "info" ("Multiple debug print statements in " ++ file_name f) f.

Definition long_file_issue (f : SwiftFile) (line_count : nat) : DiagnosticIssue :=
  quality "info"
    ("Very long file: " ++ file_name f ++ " ("
       ++ Str.str_of_Z (Z.of_nat line_count) ++ " lines)") f.

(** Lines 299-333: the body of the [try].  It returns the list as the
    body leaves it together with the exception that ended it, if any:
    what was appended before a raise stays appended. *)
Definition scan_file (issues : list DiagnosticIssue) (f : SwiftFile)
  : list DiagnosticIssue * option exn :=
  match read_text f with
  | Raise e => (issues, Some e)
  | Ok content =>
      let issues :=
        if Str.contains "try!" content || Str.contains "force try!" content
        then (issues ++ [force_try_issue f])%list else issues in
      let exclamation_count := Str.count "!" content in
      let issues :=
        if (15 <? exclamation_count)%nat
        then (issues ++ [unwrap_issue f exclamation_count])%list else issues in
      let issues :=
        if Str.contains "print(" content && (5 <? Str.count "print(" content)%nat
        then (issues ++ [print_issue f])%list else issues in
      let line_count := List.length (Str.split newline content) in
      let issues :=
        if (500 <? line_count)%nat
        then (issues ++ [long_file_issue f line_count])%list else issues in
      (issues, None)
  end.

(** Lines 298-335: [try: ... except Exception: pass]. *)
Definition scan_step (issues : list DiagnosticIssue) (f : SwiftFile)
  : list DiagnosticIssue :=
  fst (scan_file issues f).

Definition analyze_source_code (swift_files : list SwiftFile)
  : list DiagnosticIssue :=
  fold_left scan_step swift_files [].

End DiagnosticsEngine.

(* ================================================================= *)
(** ** class ReportGenerator *)

Module ReportGenerator.

(** A Python number: the success-rate expression is an [int] on one
    branch and a [float] on the other. *)
Inductive number : Type :=
| PyInt (z : Z)
| PyFloat (f : float).

(** [float(z)], exact for [0 <= z < 2^53]; the counts of a report are
    lengths of lists held in memory. *)
Definition float_of_Z (z : Z) : float := PrimFloat.of_uint63 (Uint63.of_Z z).

(** [a / b] on two [int]s. *)
Definition truediv (a b : Z) : result float :=
  if b =? 0 then Raise (ZeroDivisionError "division by zero")
  else Ok (PrimFloat.div (float_of_Z a) (float_of_Z b)).

(** [(passed/total*100) if total > 0 else 0] *)
Definition success_rate (passed total : Z) : result number :=
  if 0 <? total
  then q <- truediv passed total ;;
       Ok (PyFloat (PrimFloat.mul q (float_of_Z 100)))
  else Ok (PyInt 0).

(** [num/den] rounded to the nearest integer, ties to even
    ([0 <= num], [0 < den]). *)
Definition round_half_even (num den : Z) : Z :=
  let q := num / den in
  let r := num mod den in
  if 2 * r <? den then q
  else if den <? 2 * r then q + 1
  else if Z.even q then q else q + 1.

(** The sign of [f] and [|f| * 10] rounded to an integer, from the exact
    binary value of [f]. *)
Definition tenths (f : float) : option (bool * Z) :=
  match Prim2SF f with
  | S754_zero s => Some (s, 0)
  | S754_finite s m e =>
      if 0 <=? e
      then Some (s, Z.pos m * 10 * 2 ^ e)
      else Some (s, round_half_even (Z.pos m * 10) (2 ^ (- e)))
  | S754_infinity _ => None
  | S754_nan => None
  end.

(** [format(f, ".1f")] for a [float]. *)
Definition format_float_1f (f : float) : string :=
  match tenths f with
  | Some (s, n) =>
      (if s then "-" else "")
        ++ Str.str_of_Z (n / 10) ++ "." ++ Str.str_of_Z (n mod 10)
  | None =>
      match Prim2SF f with
      | S754_infinity s => if s then "-inf" else "inf"
      | _ => "nan"
      end
  end.

(** [format(x, ".1f")]: an [int] is converted to [float] first. *)
Definition format_1f (x : number) : string :=
  match x with
  | PyInt z => format_float_1f (float_of_Z z)
  | PyFloat f => format_float_1f f
  end.

(** The two readings of [datetime.now()], already formatted. *)
Record Clock : Type := {
  generated_on : string;
  year : string
}.

(** The values interpolated into the first chunk (lines 352-760). *)
Record Head : Type := {
  h_title_name : string;
  h_generated_on : string;
  h_name : string;
  h_type : string;
  h_scheme : string;
  h_bundle_id : string;
  h_badge : string;
  h_build_status : string;
  h_passed : Z;
  h_total : Z;
  h_failed : Z;
  h_success_rate : string;
  h_issues_found : Z;
  h_progress_width : number
}.

Inductive emoji : Type := CheckMark | CrossMark.

(** The document is built by appending chunks of text to [html].  A
    fragment records which chunk is appended and the values interpolated
    into it; the fixed markup around them is not reproduced. *)
Inductive fragment : Type :=
| Header (h : Head)
| TestItem (status_class : string) (status_emoji : emoji) (test_name : string)
           (badge : string) (status_upper : string) (test_duration : Q)
| MoreTests (n : Z)
| TestsEnd
| IssuesBegin
| IssueItem (item_class : string) (issue_category issue_message : string)
            (file_line : option string) (badge : string) (badge_text : string)
| MoreIssues (n : Z)
| IssuesEnd
| Footer (year_text : string).

(** [x or default] on an optional text. *)
Definition or_default (x : option string) (default : string) : string :=
  match x with
  | Some EmptyString => default
  | Some t => t
  | None => default
  end.

(** The text shown under [if issue.file]. *)
Definition truthy (x : option string) : option string :=
  match x with
  | Some EmptyString => None
  | other => other
  end.

(** Lines 763-773. *)
Definition test_item (test : TestResult) : fragment :=
  let is_passed := String.eqb (status test) "passed" in
  let status_class := if is_passed then "passed" else "failed" in
  let status_emoji := if is_passed then CheckMark else CrossMark in
  TestItem status_class status_emoji (name test)
           (if is_passed then "success" else "error")
           (Str.upper (status test)) (duration test).

(** Lines 795-806. *)
Definition issue_item (issue : DiagnosticIssue) : fragment :=
  IssueItem (severity issue) (category issue) (message issue)
            (truthy (file issue)) (severity issue) (Str.upper (severity issue)).

(** [sum(1 for i in issues if i.severity == sev)] *)
Definition count_severity (sev : string) (issues : list DiagnosticIssue) : Z :=
  Z.of_nat (List.length (filter (fun i => String.eqb (severity i) sev) issues)).

Definition len {A : Type} (l : list A) : Z := Z.of_nat (List.length l).

Definition append_each {A : Type} (render : A -> fragment)
  (html : list fragment) (items : list A) : list fragment :=
  fold_left (fun html x => (html ++ [render x])%list) items html.

Definition generate_html (clock : Clock) (project_config : ProjectConfig)
  (tests : list TestResult) (issues : list DiagnosticIssue)
  (build_success : bool) : result (list fragment) :=
  let passed := TestParser.count_status "passed" tests in
  let failed := TestParser.count_status "failed" tests in
  let total := len tests in
  let critical_issues := count_severity "critical" issues in
  let warning_issues := count_severity "warning" issues in
  let info_issues := count_severity "info" issues in
  rate <- success_rate passed total ;;
  width <- success_rate passed total ;;
  let html :=
    [ Header
        {| h_title_name := project_name project_config;
           h_generated_on := generated_on clock;
           h_name := project_name project_config;
           h_type := if is_workspace project_config then "Workspace" else "Project";
           h_scheme := scheme project_config;
           h_bundle_id := or_default (bundle_id project_config) "N/A";
           h_badge := if build_success then "success" else "error";
           h_build_status := if build_success then "SUCCESS" else "FAILED";
           h_passed := passed;
           h_total := total;
           h_failed := failed;
           h_success_rate := format_1f rate;
           h_issues_found := len issues;
           h_progress_width := width |} ] in
  let html := append_each test_item html (firstn 50 tests) in
  let html :=
    if 50 <? len tests
    then (html ++ [MoreTests (len tests - 50)])%list else html in
  let html := (html ++ [TestsEnd])%list in
  let html :=
    match issues with
    | _ :: _ =>
        let html := (html ++ [IssuesBegin])%list in
        let html := append_each issue_item html (firstn 100 issues) in
        let html :=
          if 100 <? len issues
          then (html ++ [MoreIssues (len issues - 100)])%list else html in
        (html ++ [IssuesEnd])%list
    | [] => html
    end in
  Ok (html ++ [Footer (year clock)])%list.

End ReportGenerator.

(* ================================================================= *)
(** ** class CommandRunner *)

Module CommandRunner.

(** What [subprocess.Popen] hands back: the successive results of
    [process.stdout.readline()] (after the last one the stream is at its
    end and [readline] returns the empty text) and the result of
    [process.wait()], which sets [returncode]. *)
Record Process : Type := {
  readline : list (result string);
  wait : result Z
}.

Section Run.
(** The state the line sink writes to. *)
Context {S : Type}.

(** The sink: the state it leaves and the exception it raised, if any. *)
Definition sink : Type := string -> S -> S * option exn.

(** Lines 216-222: the loop over [iter(process.stdout.readline, '')]. *)
Fixpoint read_lines (callback : option sink) (reads : list (result string))
  (output_lines : list string) (st : S) : result (list string) * S :=
  match reads with
  | [] => (Ok output_lines, st)
  | Raise e :: _ => (Raise e, st)
  | Ok EmptyString :: _ => (Ok output_lines, st)
  | Ok line :: reads' =>
      let output_lines := (output_lines ++ [line])%list in
      match callback with
      | None => read_lines callback reads' output_lines st
      | Some cb =>
          match cb line st with
          | (st', None) => read_lines callback reads' output_lines st'
          | (st', Some e) => (Raise e, st')
          end
      end
  end.

(** The value of [str(e)].  An [OSError] of the system shows its number
    and its message, and then the [repr] of the file name when it has
    one; the other exceptions show their message, which can be empty. *)
Definition str_of_exn (e : exn) : string :=
  match e with
  | OSError errno strerror (Some filename) =>
      "[Errno " ++ Str.str_of_Z errno ++ "] " ++ strerror
        ++ ": " ++ Str.repr filename
  | OSError errno strerror None =>
      "[Errno " ++ Str.str_of_Z errno ++ "] " ++ strerror
  | other => exn_message other
  end.

Definition run (popen : list string -> string -> result Process)
  (cmd : list string) (cwd : string) (callback : option sink) (st : S)
  : (bool * string * string) * S :=
  match popen cmd cwd with
  | Raise e => ((false, "", str_of_exn e), st)
  | Ok process =>
      match read_lines callback (readline process) [] st with
      | (Raise e, st') => ((false, "", str_of_exn e), st')
      | (Ok output_lines, st') =>
          match wait process with
          | Raise e => ((false, "", str_of_exn e), st')
          | Ok returncode =>
              let output := Str.join "" output_lines in
              ((returncode =? 0, output, ""), st')
          end
      end
  end.
End Run.

End CommandRunner.

(* ================================================================= *)
(** * Vocabulary of the specification *)

(** A line mentions a marker, whatever the case of its letters. *)
Definition mentions (marker line : string) : Prop :=
  exists pre mid post, line = pre ++ mid ++ post /\ Str.lower mid = marker.

(** An identifier, or a component of one, without a dot. *)
Definition dotless (s : string) : Prop := Str.contains "." s = false.

(** The records one file adds to an empty list. *)
Definition file_records (f : DiagnosticsEngine.SwiftFile) : list DiagnosticIssue :=
  DiagnosticsEngine.scan_step [] f.

(** The four heuristics, each on the content of a file. *)
Definition force_try_records (f : DiagnosticsEngine.SwiftFile) (content : string)
  : list DiagnosticIssue :=
  if Str.contains "try!" content
  then [DiagnosticsEngine.force_try_issue f] else [].

Definition unwrap_records (f : DiagnosticsEngine.SwiftFile) (content : string)
  : list DiagnosticIssue :=
  if (15 <? Str.count "!" content)%nat
  then [DiagnosticsEngine.unwrap_issue f (Str.count "!" content)] else [].

Definition print_records (f : DiagnosticsEngine.SwiftFile) (content : string)
  : list DiagnosticIssue :=
  if (5 <? Str.count "print(" content)%nat
  then [DiagnosticsEngine.print_issue f] else [].

Definition long_file_records (f : DiagnosticsEngine.SwiftFile) (content : string)
  : list DiagnosticIssue :=
  let n := List.length (Str.split DiagnosticsEngine.newline content) in
  if (500 <? n)%nat then [DiagnosticsEngine.long_file_issue f n] else [].

(** The texts an atom can consume. *)
Definition atom_text (a : Re.atom) (t : string) : Prop :=
  match a with
  | Re.Lit l => t = l
  | Re.Opt c => t = "" \/ t = String c ""
  | Re.Alt alts => In t alts
  | Re.Star cls _ => Str.all_chars cls t = true
  | Re.Plus cls => Str.all_chars cls t = true /\ t <> ""
  end.

(** [matches p m gs]: the text [m] is the concatenation of one text for
    each item of [p], and [gs] are the texts of the groups. *)
Inductive matches : Re.pattern -> string -> list string -> Prop :=
| matches_nil : matches [] "" []
| matches_cons (it : Re.item) (p : Re.pattern) (t u : string) (gs : list string) :
    atom_text (Re.it_atom it) t ->
    matches p u gs ->
    matches (it :: p) (t ++ u) (if Re.it_group it then t :: gs else gs).

(** A count: a text of one decimal digit or more. *)
Definition is_count (d : string) : Prop :=
  Str.all_chars Str.is_digit d = true /\ d <> "".

(** A plural mark: nothing or "s". *)
Definition plural (s : string) : Prop := s = "" \/ s = "s".

(** "Executed N tests, with F failures", singular or plural. *)
Definition summary_text (d1 pl1 d2 pl2 : string) : string :=
  "Executed " ++ d1 ++ " test" ++ pl1 ++ ", with " ++ d2 ++ " failure" ++ pl2.

(** A summary of [N] tests and [F] failures starts the text [s]. *)
Definition summary_at (s : string) (N F : Z) : Prop :=
  exists d1 pl1 d2 pl2 rest,
    s = summary_text d1 pl1 d2 pl2 ++ rest
    /\ is_count d1 /\ plural pl1 /\ is_count d2 /\ plural pl2
    /\ N = Str.int_of_digits d1 /\ F = Str.int_of_digits d2.

(** The text holds a summary somewhere. *)
Definition has_summary (output : string) : Prop :=
  exists pre rest N F, output = pre ++ rest /\ summary_at rest N F.

(** The first summary of the text is one of [N] tests and [F] failures:
    no summary starts before it. *)
Definition first_summary (output : string) (N F : Z) : Prop :=
  exists pre rest,
    output = pre ++ rest
    /\ summary_at rest N F
    /\ forall pre1 pre2 N' F',
         pre = pre1 ++ pre2 -> pre2 <> "" -> ~ summary_at (pre2 ++ rest) N' F'.

(** A test-case line starts the text [s]. *)
Definition test_case_at (s : string) : Prop :=
  exists m gs rest, s = m ++ rest /\ matches TestParser.pattern m gs.

(** The text holds a test-case line somewhere. *)
Definition has_test_case (output : string) : Prop :=
  exists pre rest, output = pre ++ rest /\ test_case_at rest.

(** The status of a record is one of the two the pattern admits. *)
Definition known_status (t : TestResult) : Prop :=
  status t = "passed" \/ status t = "failed".

(** The duration text of a match is one [float] accepts. *)
Definition good_duration (m : list string) : Prop :=
  Py.is_ok (Str.float_of_text (Re.group_of 3 m)) = true.

(** The process was launched, its output was read to its end and
    [wait] returned [returncode]. *)
Definition completed {S : Type}
  (popen : list string -> string -> result CommandRunner.Process)
  (cmd : list string) (cwd : string) (callback : option CommandRunner.sink)
  (st : S) (output_lines : list string) (returncode : Z) : Prop :=
  exists process st',
    popen cmd cwd = Ok process
    /\ CommandRunner.read_lines callback (CommandRunner.readline process) [] st
       = (Ok output_lines, st')
    /\ CommandRunner.wait process = Ok returncode.

(** The successive results of [readline] start with the lines [lines],
    none of them empty. *)
Definition gives_lines (reads : list (result string)) (lines : list string)
  (rest : list (result string)) : Prop :=
  reads = (map Ok lines ++ rest)%list /\ Forall (fun l => l <> "") lines.

(** The process prints the lines [lines] and its stream ends: [readline]
    gives them and then the empty text, or nothing more. *)
Definition prints (process : CommandRunner.Process) (lines : list string) : Prop :=
  exists rest,
    gives_lines (CommandRunner.readline process) lines rest
    /\ (rest = [] \/ exists rest', rest = Ok "" :: rest').

(** The sink, if there is one, is handed the lines one by one and
    returns each time; it takes the state from [st] to [st']. *)
Inductive accepted {S : Type} :
  option CommandRunner.sink -> list string -> S -> S -> Prop :=
| accepted_none (lines : list string) (st : S) : accepted None lines st st
| accepted_nil (cb : CommandRunner.sink) (st : S) : accepted (Some cb) [] st st
| accepted_cons (cb : CommandRunner.sink) (l : string) (lines : list string)
    (st st1 st' : S) :
    cb l st = (st1, None) ->
    accepted (Some cb) lines st1 st' ->
    accepted (Some cb) (l :: lines) st st'.

(** The four ways an exception ends a call, with the state the sink has
    reached: the launch fails; a read fails after the lines [lines]; the
    sink raises on the line that follows them; [wait] fails once the
    stream has ended. *)
Definition launch_fails {S : Type}
  (popen : list string -> string -> result CommandRunner.Process)
  (cmd : list string) (cwd : string) (st : S) (e : exn) (st' : S) : Prop :=
  popen cmd cwd = Raise e /\ st' = st.

Definition read_fails {S : Type}
  (popen : list string -> string -> result CommandRunner.Process)
  (cmd : list string) (cwd : string) (callback : option CommandRunner.sink)
  (st : S) (e : exn) (st' : S) : Prop :=
  exists process lines rest,
    popen cmd cwd = Ok process
    /\ gives_lines (CommandRunner.readline process) lines (Raise e :: rest)
    /\ accepted callback lines st st'.

Definition sink_fails {S : Type}
  (popen : list string -> string -> result CommandRunner.Process)
  (cmd : list string) (cwd : string) (callback : option CommandRunner.sink)
  (st : S) (e : exn) (st' : S) : Prop :=
  exists process lines l rest cb st1,
    popen cmd cwd = Ok process
    /\ callback = Some cb
    /\ gives_lines (CommandRunner.readline process) lines (Ok l :: rest)
    /\ l <> ""
    /\ accepted callback lines st st1
    /\ cb l st1 = (st', Some e).

Definition wait_fails {S : Type}
  (popen : list string -> string -> result CommandRunner.Process)
  (cmd : list string) (cwd : string) (callback : option CommandRunner.sink)
  (st : S) (e : exn) (st' : S) : Prop :=
  exists process lines,
    popen cmd cwd = Ok process
    /\ prints process lines
    /\ accepted callback lines st st'
    /\ CommandRunner.wait process = Raise e.

(** The process ran to its end: it was launched, it printed [lines], the
    sink took them all and [wait] gave the exit status. *)
Definition ran {S : Type}
  (popen : list string -> string -> result CommandRunner.Process)
  (cmd : list string) (cwd : string) (callback : option CommandRunner.sink)
  (st : S) (lines : list string) (returncode : Z) (st' : S) : Prop :=
  exists process,
    popen cmd cwd = Ok process
    /\ prints process lines
    /\ accepted callback lines st st'
    /\ CommandRunner.wait process = Ok returncode.

(** A test-case line of the log. *)
Definition test_case_line (ident st dur : string) : string :=
  "Test Case '" ++ ident ++ "' " ++ st ++ " (" ++ dur ++ " seconds)".

(** An identifier the pattern reads whole, whatever follows the line: it
    holds no single quote and no line feed. *)
Definition plain_identifier (ident : string) : Prop :=
  Str.all_chars (fun c => negb (Ascii.eqb c Str.squote) && TestParser.not_newline c)
                ident = true.

(** [kept] is what the specification keeps of the identifier [ident]:
    the identifier itself when it holds no dot, its last two
    dot-separated components joined by a dot when it holds one. *)
Definition last_two_of (ident kept : string) : Prop :=
  (dotless ident /\ kept = ident)
  \/ exists components suite case,
       ident = Str.join "." (components ++ [suite; case])
       /\ Forall dotless components /\ dotless suite /\ dotless case
       /\ kept = suite ++ "." ++ case.

(** The success rate as a number: the quotient of the two counts as a
    [float], times 100, and the [int] 0 when there is no test. *)
Definition rate_of (passed total : Z) : ReportGenerator.number :=
  if 0 <? total
  then ReportGenerator.PyFloat
         (PrimFloat.mul
            (PrimFloat.div (ReportGenerator.float_of_Z passed)
                           (ReportGenerator.float_of_Z total))
            (ReportGenerator.float_of_Z 100))
  else ReportGenerator.PyInt 0.

(** What a document shows. *)
Definition shown_success_rate (doc : list ReportGenerator.fragment) : option string :=
  match doc with
  | ReportGenerator.Header h :: _ => Some (ReportGenerator.h_success_rate h)
  | _ => None
  end.

Definition shown_issues_found (doc : list ReportGenerator.fragment) : option Z :=
  match doc with
  | ReportGenerator.Header h :: _ => Some (ReportGenerator.h_issues_found h)
  | _ => None
  end.

Definition is_issue_part (x : ReportGenerator.fragment) : bool :=
  match x with
  | ReportGenerator.IssueItem _ _ _ _ _ _ => true
  | ReportGenerator.MoreIssues _ => true
  | _ => false
  end.

Definition is_test_part (x : ReportGenerator.fragment) : bool :=
  match x with
  | ReportGenerator.TestItem _ _ _ _ _ _ => true
  | ReportGenerator.MoreTests _ => true
  | _ => false
  end.

(** The entries of the issue list of a document, and of its test grid,
    in the order of the document. *)
Definition shown_issues (doc : list ReportGenerator.fragment)
  : list ReportGenerator.fragment := filter is_issue_part doc.

Definition shown_tests (doc : list ReportGenerator.fragment)
  : list ReportGenerator.fragment := filter is_test_part doc.

(** The head of the document, with the rate computed over all tests. *)
Definition head_of (clock : ReportGenerator.Clock) (project_config : ProjectConfig)
  (tests : list TestResult) (issues : list DiagnosticIssue) (build_success : bool)
  : ReportGenerator.Head :=
  let rate := rate_of (TestParser.count_status "passed" tests)
                      (ReportGenerator.len tests) in
  {| ReportGenerator.h_title_name := project_name project_config;
     ReportGenerator.h_generated_on := ReportGenerator.generated_on clock;
     ReportGenerator.h_name := project_name project_config;
     ReportGenerator.h_type :=
       if is_workspace project_config then "Workspace" else "Project";
     ReportGenerator.h_scheme := scheme project_config;
     ReportGenerator.h_bundle_id :=
       ReportGenerator.or_default (bundle_id project_config) "N/A";
     ReportGenerator.h_badge := if build_success then "success" else "error";
     ReportGenerator.h_build_status := if build_success then "SUCCESS" else "FAILED";
     ReportGenerator.h_passed := TestParser.count_status "passed" tests;
     ReportGenerator.h_total := ReportGenerator.len tests;
     ReportGenerator.h_failed := TestParser.count_status "failed" tests;
     ReportGenerator.h_success_rate := ReportGenerator.format_1f rate;
     ReportGenerator.h_issues_found := ReportGenerator.len issues;
     ReportGenerator.h_progress_width := rate |}.

Definition tests_section (tests : list TestResult) : list ReportGenerator.fragment :=
  (map ReportGenerator.test_item (firstn 50 tests)
     ++ (if 50 <? ReportGenerator.len tests
         then [ReportGenerator.MoreTests (ReportGenerator.len tests - 50)]
         else [])
     ++ [ReportGenerator.TestsEnd])%list.

Definition issues_section (issues : list DiagnosticIssue)
  : list ReportGenerator.fragment :=
  match issues with
  | [] => []
  | _ :: _ =>
      ([ReportGenerator.IssuesBegin]
         ++ map ReportGenerator.issue_item (firstn 100 issues)
         ++ (if 100 <? ReportGenerator.len issues
             then [ReportGenerator.MoreIssues (ReportGenerator.len issues - 100)]
             else [])
         ++ [ReportGenerator.IssuesEnd])%list
  end.

(** Sample inputs. *)
Module Sample.

Definition a_swift : DiagnosticsEngine.SwiftFile :=
  {| DiagnosticsEngine.file_name := "A.swift";
     DiagnosticsEngine.file_path := "/p/A.swift";
     DiagnosticsEngine.read_text := Ok "let x = try! load()" |}.

Definition b_swift : DiagnosticsEngine.SwiftFile :=
  {| DiagnosticsEngine.file_name := "B.swift";
     DiagnosticsEngine.file_path := "/p/B.swift";
     DiagnosticsEngine.read_text :=
       Raise (UnicodeDecodeError "'utf-8' codec can't decode byte 0xff") |}.

Definition c_swift : DiagnosticsEngine.SwiftFile :=
  {| DiagnosticsEngine.file_name := "C.swift";
     DiagnosticsEngine.file_path := "/p/C.swift";
     DiagnosticsEngine.read_text :=
       Ok "print(1);print(2);print(3);print(4);print(5);print(6)" |}.

(** A tool that prints two lines and exits with status 65. *)
Definition failing_build : CommandRunner.Process :=
  {| CommandRunner.readline :=
       [Ok ("error: no such module" ++ String (ascii_of_nat 10) "");
        Ok ("** BUILD FAILED **" ++ String (ascii_of_nat 10) "")];
     CommandRunner.wait := Ok 65 |}.

Definition popen_failing (cmd : list string) (cwd : string)
  : result CommandRunner.Process := Ok failing_build.

Definition popen_missing (cmd : list string) (cwd : string)
  : result CommandRunner.Process :=
  Raise (OSError 2 "No such file or directory" (Some (hd "" cmd))).

Definition clock : ReportGenerator.Clock :=
  {| ReportGenerator.generated_on := "November 03, 2026 at 10:45 AM";
     ReportGenerator.year := "2026" |}.

Definition project : ProjectConfig :=
  {| path := "/p"; project_name := "MyApp"; project_file := "MyApp.xcodeproj";
     scheme := "MyApp"; is_workspace := false; bundle_id := None |}.

Definition issue (sev : string) : DiagnosticIssue :=
  {| category := "Build Error"; severity := sev; message := "error: x";
     file := None; line := None |}.

Definition test (st : string) : TestResult :=
  {| name := "LoginTests.testValidLogin"; status := st; duration := 1 # 2 |}.

(** 120 records, and two lists of 101 records that differ in the severity
    of the last one only. *)
Definition issues_120 : list DiagnosticIssue := repeat (issue "warning") 120.

Definition issues_101_critical : list DiagnosticIssue :=
  (repeat (issue "warning") 100 ++ [issue "critical"])%list.

Definition issues_101_info : list DiagnosticIssue :=
  (repeat (issue "warning") 100 ++ [issue "info"])%list.

Definition tests_3_of_4 : list TestResult :=
  [test "passed"; test "passed"; test "failed"; test "passed"].

Definition nl : string := String (ascii_of_nat 10) "".

(** Five test-case lines and a summary of twelve tests. *)
Definition log_with_summary : string :=
  "Test Suite 'LoginTests' started at 2026-11-03 10:45:00.000" ++ nl ++
  "Test Case '-[MyAppTests.LoginTests testValidLogin]' passed (0.123 seconds)." ++ nl ++
  "Test Case '-[MyAppTests.LoginTests testEmptyPassword]' failed (1.5 seconds)." ++ nl ++
  "Test Case 'MyAppTests.CartTests.testAdd' passed (0.004 seconds)" ++ nl ++
  "Test Case 'MyAppTests.CartTests.testRemove' passed (2 seconds)" ++ nl ++
  "Test Case 'testSomething' failed (.25 seconds)" ++ nl ++
  "Test Case 'truncated' passed (0.1 sec" ++ nl ++
  "     Executed 12 tests, with 3 failures (0 unexpected) in 4.2 (4.3) seconds" ++ nl.

(** Four test-case lines, three passed and one failed, and no summary. *)
Definition log_without_summary : string :=
  "Test Case 'A.B.test1' passed (0.1 seconds)" ++ nl ++
  "Test Case 'A.B.test2' passed (0.2 seconds)" ++ nl ++
  "Test Case 'A.B.test3' failed (0.3 seconds)" ++ nl ++
  "Test Case 'A.B.test4' passed (0.4 seconds)" ++ nl.

(** A sink that raises an exception without a message, as
    [raise AssertionError()] does. *)
Definition refusing_sink : CommandRunner.sink (S := unit) :=
  fun _ st => (st, Some (Exception "")).

(** A test-case line whose duration holds two dots. *)
Definition log_bad_duration : string :=
  "Test Case 'A.B.test1' passed (1.2.3 seconds)".

Definition tests_with_summary : list TestResult :=
  [ {| name := "-[MyAppTests.LoginTests testValidLogin]"; status := "passed";
       duration := 123 # 1000 |};
    {| name := "-[MyAppTests.LoginTests testEmptyPassword]"; status := "failed";
       duration := 3 # 2 |};
    {| name := "CartTests.testAdd"; status := "passed"; duration := 1 # 250 |};
    {| name := "CartTests.testRemove"; status := "passed"; duration := 2 # 1 |};
    {| name := "testSomething"; status := "failed"; duration := 1 # 4 |} ].

Definition tests_without_summary : list TestResult :=
  [ {| name := "B.test1"; status := "passed"; duration := 1 # 10 |};
    {| name := "B.test2"; status := "passed"; duration := 1 # 5 |};
    {| name := "B.test3"; status := "failed"; duration := 3 # 10 |};
    {| name := "B.test4"; status := "passed"; duration := 2 # 5 |} ].

End Sample.

(* ================================================================= *)
(** * The rest of the program: project and target discovery

    [XcodeDetector] asks the tool chain and the file system; what they
    answer is an argument of the model: the result of [subprocess.run],
    the names a directory holds, the content of a file, the value
    [json.loads] returns. *)

(** ** More methods of [str], [pathlib] and [os.path] *)

Module Text.

Definition quote : ascii := ascii_of_nat 34.
Definition is_quote (c : ascii) : bool := Ascii.eqb c quote.

(** The line boundaries of [str.splitlines] below 256: LF, VT, FF, CR,
    FS, GS, RS and NEL. *)
Definition is_linebreak (c : ascii) : bool :=
  Str.in_range 10 13 c || Str.in_range 28 30 c || (Str.code c =? 133)%N.

Definition is_cr (c : ascii) : bool := (Str.code c =? 13)%N.
Definition is_lf (c : ascii) : bool := (Str.code c =? 10)%N.

(** [s.splitlines()]: the lines without their boundaries; CR LF is one
    boundary; no empty line is added after a final boundary. *)
Fixpoint splitlines (s : string) : list string :=
  match s with
  | EmptyString => []
  | String c s' =>
      if is_linebreak c
      then EmptyString
             :: match s' with
                | String d s'' =>
                    if is_cr c && is_lf d then splitlines s'' else splitlines s'
                | EmptyString => []
                end
      else match splitlines s' with
           | h :: t => String c h :: t
           | [] => [String c EmptyString]
           end
  end.

(** [s.endswith(suffix)]. *)
Fixpoint endswith (suffix s : string) : bool :=
  String.eqb suffix s
  || match s with
     | EmptyString => false
     | String _ s' => endswith suffix s'
     end.

(** [s.replace(c, "")] for a text [c] of one character. *)
Fixpoint remove_char (c : ascii) (s : string) : string :=
  match s with
  | EmptyString => EmptyString
  | String a s' =>
      if Ascii.eqb a c then remove_char c s' else String a (remove_char c s')
  end.

Fixpoint lstrip_by (p : ascii -> bool) (s : string) : string :=
  match s with
  | EmptyString => EmptyString
  | String c s' => if p c then lstrip_by p s' else s
  end.

Fixpoint rstrip_by (p : ascii -> bool) (s : string) : string :=
  match s with
  | EmptyString => EmptyString
  | String c s' =>
      match rstrip_by p s' with
      | EmptyString => if p c then EmptyString else String c EmptyString
      | r => String c r
      end
  end.

(** [s.strip(chars)], [p] telling the characters of [chars]. *)
Definition strip_by (p : ascii -> bool) (s : string) : string :=
  rstrip_by p (lstrip_by p s).

(** [s[:n]]. *)
Fixpoint take (n : nat) (s : string) : string :=
  match n, s with
  | S k, String c s' => String c (take k s')
  | _, _ => EmptyString
  end.

(** [s.rfind(c)] for a text [c] of one character; [None] stands for -1. *)
Fixpoint rfind (c : ascii) (s : string) : option nat :=
  match s with
  | EmptyString => None
  | String a s' =>
      match rfind c s' with
      | Some i => Some (S i)
      | None => if Ascii.eqb a c then Some O else None
      end
  end.

(** [PurePosixPath(s).name]: the last component of the path, the empty
    components and the components "." being dropped. *)
Definition path_name (s : string) : string :=
  last (filter (fun x => negb (String.eqb x "") && negb (String.eqb x "."))
               (Str.split "/" s))
       EmptyString.

(** The stem of a name: the name without its last suffix; the last dot
    of the name starts the suffix unless it is the first or the last
    character of the name. *)
Definition stem_of_name (name : string) : string :=
  match rfind "." name with
  | Some i =>
      if (0 <? i)%nat && (i <? String.length name - 1)%nat
      then take i name else name
  | None => name
  end.

(** [Path(s).stem]. *)
Definition path_stem (s : string) : string := stem_of_name (path_name s).

(** [os.path.basename(p)] of [posixpath]: what follows the last slash. *)
Definition basename (p : string) : string := last (Str.split "/" p) EmptyString.

End Text.

(** ** Values of dynamic type: what [json.loads] returns *)

Module Json.

#[warnings="-register-all"]
Inductive value : Type :=
| Null
| Bool (b : bool)
| Int (z : Z)
| Float (f : float)
| Str (s : string)
| Arr (items : list value)
| Obj (fields : list (string * value)).

(** A [dict] with text keys, in insertion order; the keys are distinct. *)
Definition dict : Type := list (string * value).

(** The exceptions the operations below raise. *)
Inductive exn : Type :=
| KeyError (key : string)
| TypeError (msg : string)
| AttributeError (msg : string)
| JSONDecodeError (msg : string)
| Other (e : Py.exn).

Inductive res (A : Type) : Type :=
| Return (a : A)
| Throw (e : exn).

Arguments Return {A} a.
Arguments Throw {A} e.

Definition bind {A B : Type} (r : res A) (k : A -> res B) : res B :=
  match r with
  | Return a => k a
  | Throw e => Throw e
  end.

Fixpoint lookup (key : string) (d : dict) : option value :=
  match d with
  | [] => None
  | (k, v) :: d' => if String.eqb k key then Some v else lookup key d'
  end.

(** [bool(v)]. *)
Definition truthy (v : value) : bool :=
  match v with
  | Null => false
  | Bool b => b
  | Int z => negb (z =? 0)
  | Float f => negb (PrimFloat.eqb f PrimFloat.zero)
  | Str s => negb (String.eqb s "")
  | Arr items => match items with [] => false | _ => true end
  | Obj fields => match fields with [] => false | _ => true end
  end.

(** [v.get(key, default)]: only a [dict] has the method. *)
Definition get (v : value) (key : string) (default : value) : res value :=
  match v with
  | Obj d =>
      match lookup key d with
      | Some x => Return x
      | None => Return default
      end
  | _ => Throw (AttributeError "object has no attribute 'get'")
  end.

(** [v.items()]: only a [dict] has the method. *)
Definition items (v : value) : res (list (string * value)) :=
  match v with
  | Obj d => Return d
  | _ => Throw (AttributeError "object has no attribute 'items'")
  end.

Definition is_text (x : string) (v : value) : bool :=
  match v with
  | Str s => String.eqb s x
  | _ => false
  end.

Fixpoint chars (s : string) : list value :=
  match s with
  | EmptyString => []
  | String c s' => Str (String c EmptyString) :: chars s'
  end.

(** [v[key]] for a text [key].  On a list or a text the index must be an
    integer; the other values have no subscript. *)
Definition subscript (v : value) (key : string) : res value :=
  match v with
  | Obj d =>
      match lookup key d with
      | Some x => Return x
      | None => Throw (KeyError key)
      end
  | Arr _ => Throw (TypeError "list indices must be integers or slices, not str")
  | Str _ => Throw (TypeError "string indices must be integers, not 'str'")
  | _ => Throw (TypeError "object is not subscriptable")
  end.

(** [x in v] for a text [x]: a part of a text, an item of a list, a key
    of a [dict]. *)
Definition text_in (x : string) (v : value) : res bool :=
  match v with
  | Str s => Return (Str.contains x s)
  | Arr l => Return (existsb (is_text x) l)
  | Obj d => Return (match lookup x d with Some _ => true | None => false end)
  | _ => Throw (TypeError "argument is not iterable")
  end.

(** [for x in v]: the items of a list, the keys of a [dict], the
    characters of a text. *)
Definition iterate (v : value) : res (list value) :=
  match v with
  | Arr l => Return l
  | Obj d => Return (map (fun kv => Str (fst kv)) d)
  | Str s => Return (chars s)
  | _ => Throw (TypeError "object is not iterable")
  end.

(** [d[key] = v] on a [dict]: the value of a key that is there is
    replaced in place, a new key comes last. *)
Fixpoint set (key : string) (v : value) (d : dict) : dict :=
  match d with
  | [] => [(key, v)]
  | (k, x) :: d' =>
      if String.eqb k key then (k, v) :: d' else (k, x) :: set key v d'
  end.

(** [str(v)], as a formatted text literal takes it: a text is itself;
    [repr] gives the text of a float, a list and a [dict]. *)
Definition str_of (repr : value -> string) (v : value) : string :=
  match v with
  | Str s => s
  | Int z => Str.str_of_Z z
  | Bool true => "True"
  | Bool false => "False"
  | Null => "None"
  | other => repr other
  end.

End Json.

Notation "x <-- r ;;; k" := (Json.bind r (fun x => k))
  (at level 61, r at next level, right associativity).

(** ** [subprocess.run] *)

Module Subprocess.

(** The [CompletedProcess] of [subprocess.run(..., capture_output=True,
    text=True)]: the exit status and the standard output. *)
Record CompletedProcess : Type := {
  returncode : Z;
  stdout : string
}.

(** [subprocess.run(cmd, cwd=cwd, capture_output=True, text=True,
    timeout=30)]: the completed process, or the exception raised (the
    tool is missing, the time is out, the output is not text). *)
Definition run_fn : Type :=
  list string -> option string -> Py.result CompletedProcess.

End Subprocess.

(** ** class XcodeDetector *)

Module XcodeDetector.

(** Lines 104-110: the loop over the lines of the listing; [None] when
    the loop ends without returning. *)
Fixpoint scan_schemes (lines : list string) (in_schemes : bool) : option string :=
  match lines with
  | [] => None
  | l :: lines' =>
      let l := Str.strip l in
      if Str.contains "Schemes:" l then scan_schemes lines' true
      else if in_schemes && negb (String.eqb l "")
              && negb (Str.startswith "Build Configurations" l)
      then Some l
      else scan_schemes lines' in_schemes
  end.

Definition list_command (project_file : string) (is_workspace : bool) : list string :=
  (["xcodebuild"; "-list"]
     ++ (if is_workspace then ["-workspace"; project_file]
         else ["-project"; project_file]))%list.

Definition _detect_scheme (run : Subprocess.run_fn)
  (directory project_file : string) (is_workspace : bool) : string :=
  let cmd := list_command project_file is_workspace in
  match run cmd (Some directory) with
  | Py.Raise _ => Text.path_stem project_file
  | Py.Ok result =>
      if Subprocess.returncode result =? 0
      then match scan_schemes
                   (Str.split DiagnosticsEngine.newline (Subprocess.stdout result))
                   false with
           | Some l => l
           | None => Text.path_stem project_file
           end
      else Text.path_stem project_file
  end.

Definition not_semicolon (c : ascii) : bool := negb (Ascii.eqb c ";").

(** [r'PRODUCT_BUNDLE_IDENTIFIER = ([^;]+);'] *)
Definition bundle_pattern : Re.pattern :=
  [ Re.plain (Re.Lit "PRODUCT_BUNDLE_IDENTIFIER = ");
    Re.group (Re.Plus not_semicolon);
    Re.plain (Re.Lit ";") ].

(** [pbxproj] is what the file system holds at
    [project_path / "project.pbxproj"]: nothing, or a file and what
    [read_text()] does on it. *)
Definition _detect_bundle_id (pbxproj : option (Py.result string)) : option string :=
  match pbxproj with
  | Some (Py.Ok content) =>
      match Re.search bundle_pattern content with
      | Some m =>
          Some (Text.strip_by Text.is_quote (Str.strip (Re.group_of 1 m)))
      | None => None
      end
  | Some (Py.Raise _) => None
  | None => None
  end.

(** [list(path.glob("*" + suffix))] on a directory holding [entries], in
    the order the directory is scanned. *)
Definition glob (suffix : string) (entries : list string) : list string :=
  filter (Text.endswith suffix) entries.

Definition find_project (run : Subprocess.run_fn) (entries : list string)
  (pbxproj : string -> option (Py.result string)) (directory : string)
  : option ProjectConfig :=
  match glob ".xcworkspace" entries with
  | workspace :: _ =>
      Some {| path := directory;
              project_name := Text.stem_of_name workspace;
              project_file := workspace;
              scheme := _detect_scheme run directory workspace true;
              is_workspace := true;
              bundle_id := None |}
  | [] =>
      match glob ".xcodeproj" entries with
      | project :: _ =>
          let bundle_id := _detect_bundle_id (pbxproj project) in
          Some {| path := directory;
                  project_name := Text.stem_of_name project;
                  project_file := project;
                  scheme := _detect_scheme run directory project false;
                  is_workspace := false;
                  bundle_id := bundle_id |}
      | [] => None
      end
  end.

(** The [dict] appended for a simulator (lines 149-154). *)
Definition simulator (device_name udid state : Json.value) (runtime : string)
  : Json.dict :=
  [ ("name", device_name); ("uuid", udid); ("state", state);
    ("runtime", Json.Str (last (Str.split "." runtime) EmptyString)) ].

(** Lines 148-154: the body of the loop over the devices of a runtime. *)
Definition scan_simulator (runtime : string) (simulators : list Json.dict)
  (device : Json.value) : Json.res (list Json.dict) :=
  available <-- Json.get device "isAvailable" (Json.Bool false) ;;;
  if Json.truthy available then
    device_name <-- Json.subscript device "name" ;;;
    is_iphone <-- Json.text_in "iPhone" device_name ;;;
    if is_iphone then
      device_name <-- Json.subscript device "name" ;;;
      udid <-- Json.subscript device "udid" ;;;
      state <-- Json.get device "state" (Json.Str "Shutdown") ;;;
      Json.Return (simulators ++ [simulator device_name udid state runtime])%list
    else Json.Return simulators
  else Json.Return simulators.

Fixpoint scan_simulators (runtime : string) (devices : list Json.value)
  (simulators : list Json.dict) : Json.res (list Json.dict) :=
  match devices with
  | [] => Json.Return simulators
  | device :: devices' =>
      simulators <-- scan_simulator runtime simulators device ;;;
      scan_simulators runtime devices' simulators
  end.

(** Lines 145-154: the loop over the runtimes. *)
Fixpoint scan_runtimes (runtimes : list (string * Json.value))
  (simulators : list Json.dict) : Json.res (list Json.dict) :=
  match runtimes with
  | [] => Json.Return simulators
  | (runtime, devices) :: runtimes' =>
      if Str.contains "iOS" runtime then
        devices <-- Json.iterate devices ;;;
        simulators <-- scan_simulators runtime devices simulators ;;;
        scan_runtimes runtimes' simulators
      else scan_runtimes runtimes' simulators
  end.

Definition simctl_command : list string :=
  ["xcrun"; "simctl"; "list"; "devices"; "available"; "iOS"; "-j"].

(** Lines 131-156: the body of the [try]. *)
Definition simulators_of (loads : string -> Json.res Json.value)
  (run : Subprocess.run_fn) : Json.res (list Json.dict) :=
  match run simctl_command None with
  | Py.Raise e => Json.Throw (Json.Other e)
  | Py.Ok result =>
      if negb (Subprocess.returncode result =? 0) then Json.Return []
      else
        data <-- loads (Subprocess.stdout result) ;;;
        devices <-- Json.get data "devices" (Json.Obj []) ;;;
        runtimes <-- Json.items devices ;;;
        scan_runtimes runtimes []
  end.

Definition get_simulators (loads : string -> Json.res Json.value)
  (run : Subprocess.run_fn) : list Json.dict :=
  match simulators_of loads run with
  | Json.Return simulators => simulators
  | Json.Throw _ => []
  end.

(** The [dict] appended for a device (lines 192-196). *)
Definition device (device_name uuid : string) : Json.dict :=
  [ ("name", Json.Str device_name); ("uuid", Json.Str uuid);
    ("state", Json.Str "Connected") ].

(** Lines 177-196: the body of the loop over the lines; the state is the
    list built so far and the flag [in_devices]. *)
Definition scan_device_line (st : list Json.dict * bool) (l : string)
  : list Json.dict * bool :=
  let (devices, in_devices) := st in
  let l := Str.strip l in
  if Str.startswith "==" l && Str.contains "Devices" l
     && negb (Str.contains "Offline" l)
  then (devices, true)
  else if Str.startswith "==" l then (devices, false)
  else if in_devices && Str.contains "(" l && negb (Str.contains "Simulator" l)
  then
    let parts := Str.split "(" l in
    if (3 <=? List.length parts)%nat then
      let device_name := Str.strip (nth 0 parts EmptyString) in
      let uuid := Str.strip (Text.remove_char ")" (last parts EmptyString)) in
      if Str.contains "-" uuid && (20 <? String.length uuid)%nat
      then ((devices ++ [device device_name uuid])%list, in_devices)
      else (devices, in_devices)
    else (devices, in_devices)
  else (devices, in_devices).

Definition xctrace_command : list string := ["xcrun"; "xctrace"; "list"; "devices"].

Definition get_devices (run : Subprocess.run_fn) : list Json.dict :=
  match run xctrace_command None with
  | Py.Raise _ => []
  | Py.Ok result =>
      if negb (Subprocess.returncode result =? 0) then []
      else fst (fold_left scan_device_line
                          (Text.splitlines (Subprocess.stdout result))
                          ([], false))
  end.

End XcodeDetector.

(* ================================================================= *)
(** * Vocabulary of the further properties *)

(** The text [s] does not hold the character [c]. *)
Definition free_of (c : ascii) (s : string) : Prop :=
  Str.all_chars (fun a => negb (Ascii.eqb a c)) s = true.

(** A record as the parser builds them: a known status, a duration that
    is not negative, a name of one line with one dot at most. *)
Definition well_formed_record (t : TestResult) : Prop :=
  known_status t
  /\ (0 <= duration t)%Q
  /\ (Str.count_char Str.is_dot (name t) <= 1)%nat
  /\ Str.all_chars TestParser.not_newline (name t) = true.

(** The header of a document. *)
Definition header_of (doc : list ReportGenerator.fragment)
  : option ReportGenerator.Head :=
  match doc with
  | ReportGenerator.Header h :: _ => Some h
  | _ => None
  end.

(** What the sink holds after it was handed the lines, one by one. *)
Definition feed {S : Type} (cb : CommandRunner.sink) (lines : list string) (st : S) : S :=
  fold_left (fun st l => fst (cb l st)) lines st.

(** A record of the source scan about the file [f]. *)
Definition quality_record_of (f : DiagnosticsEngine.SwiftFile) (i : DiagnosticIssue)
  : Prop :=
  category i = "Code Quality"
  /\ (severity i = "warning" \/ severity i = "info")
  /\ file i = Some (DiagnosticsEngine.file_path f)
  /\ line i = None.

(** A line of the listing that the scan of the schemes passes over once
    it is in the section: an empty one, a header, a line that starts with
    "Build Configurations". *)
Definition passed_over (l : string) : Prop :=
  Str.strip l = ""
  \/ Str.contains "Schemes:" (Str.strip l) = true
  \/ Str.startswith "Build Configurations" (Str.strip l) = true.

(** A line of the listing that names a scheme. *)
Definition names_scheme (l : string) : Prop :=
  Str.strip l <> ""
  /\ Str.contains "Schemes:" (Str.strip l) = false
  /\ Str.startswith "Build Configurations" (Str.strip l) = false.

(** The lines of a text, joined by line feeds. *)
Definition unlines (lines : list string) : string :=
  Str.join (String DiagnosticsEngine.newline "") lines.

(** The assignment [r'PRODUCT_BUNDLE_IDENTIFIER = ([^;]+);'] looks for:
    it starts the text [s] and gives the value [v]. *)
Definition bundle_at (s v : string) : Prop :=
  exists rest,
    s = "PRODUCT_BUNDLE_IDENTIFIER = " ++ v ++ ";" ++ rest
    /\ v <> "" /\ free_of ";" v.

(** The first assignment of the text gives the value [v]. *)
Definition first_bundle (content v : string) : Prop :=
  exists pre rest,
    content = pre ++ rest
    /\ bundle_at rest v
    /\ forall pre1 pre2 v',
         pre = pre1 ++ pre2 -> pre2 <> "" -> ~ bundle_at (pre2 ++ rest) v'.

(** More sample inputs. *)
Module Sample2.

Definition listing : list string :=
  [ "Information about project " ++ String Text.quote "MyApp" ++ String Text.quote ":";
    "    Targets:";
    "        MyApp";
    "";
    "    Build Configurations:";
    "        Debug";
    "        Release";
    "";
    "    Schemes:";
    "";
    "        MyApp";
    "        MyAppTests" ].

Definition listing_run : Subprocess.run_fn :=
  fun _ _ => Py.Ok {| Subprocess.returncode := 0;
                      Subprocess.stdout := unlines listing |}.

Definition pbxproj : string :=
  "		buildSettings = {" ++ Sample.nl ++
  "			PRODUCT_BUNDLE_IDENTIFIER = " ++ String Text.quote "com.example.MyApp"
     ++ String Text.quote ";" ++ Sample.nl ++
  "			PRODUCT_NAME = MyApp;" ++ Sample.nl ++
  "			PRODUCT_BUNDLE_IDENTIFIER = com.example.MyAppTests;" ++ Sample.nl.

Definition entries : list string :=
  ["README.md"; "MyApp.xcodeproj"; "MyApp"; "MyApp.xcworkspace"; "Pods"].

Definition files (project : string) : option (Py.result string) :=
  if String.eqb project "MyApp.xcodeproj" then Some (Py.Ok pbxproj) else None.

Definition sim_device (device_name udid : string) (available : bool) : Json.value :=
  Json.Obj [ ("name", Json.Str device_name); ("udid", Json.Str udid);
             ("isAvailable", Json.Bool available); ("state", Json.Str "Booted") ].

Definition sim_runtimes : list (string * Json.value) :=
  [ ("com.apple.CoreSimulator.SimRuntime.iOS-17-0",
     Json.Arr [ sim_device "iPhone 15" "AAAA-1" true;
                sim_device "iPad Air" "AAAA-2" true;
                sim_device "iPhone 14" "AAAA-3" false;
                Json.Obj [ ("name", Json.Str "iPhone SE"); ("udid", Json.Str "AAAA-4");
                           ("isAvailable", Json.Bool true) ] ]);
    ("com.apple.CoreSimulator.SimRuntime.tvOS-17-0",
     Json.Arr [ sim_device "Apple TV" "BBBB-1" true ]) ].

Definition sim_listing : Json.value :=
  Json.Obj [ ("devices", Json.Obj sim_runtimes) ].

(** The same listing with a device that has no udid put first. *)
Definition sim_listing_broken : Json.value :=
  Json.Obj
    [ ("devices",
       Json.Obj
         (("com.apple.CoreSimulator.SimRuntime.iOS-16-4",
           Json.Arr [ Json.Obj [ ("name", Json.Str "iPhone 13");
                                 ("isAvailable", Json.Bool true) ] ])
            :: sim_runtimes)) ].

Definition simctl_run : Subprocess.run_fn :=
  fun _ _ => Py.Ok {| Subprocess.returncode := 0; Subprocess.stdout := "{...}" |}.

End Sample2.

(** An entry as [get_devices] builds them. *)
Definition well_formed_device (d : Json.dict) : Prop :=
  exists device_name uuid,
    d = XcodeDetector.device device_name uuid
    /\ (20 < String.length uuid)%nat
    /\ Str.contains "-" uuid = true
    /\ free_of "(" uuid /\ free_of ")" uuid
    /\ free_of "(" device_name
    /\ Str.contains "Simulator" device_name = false.



(** The loop of [get_devices] over the lines. *)
Definition scan_device_lines (lines : list string) (st : list Json.dict * bool)
  : list Json.dict * bool :=
  fold_left XcodeDetector.scan_device_line lines st.

(** A device entry of the listing of simulators that the scan reads
    without raising: an object; when it is available it has a name that
    is a text, and when the name holds "iPhone" it has a udid. *)
Definition readable_device (v : Json.value) : Prop :=
  exists d,
    v = Json.Obj d
    /\ (Json.truthy (match Json.lookup "isAvailable" d with
                     | Some a => a
                     | None => Json.Bool false
                     end) = true ->
        exists n,
          Json.lookup "name" d = Some (Json.Str n)
          /\ (Str.contains "iPhone" n = true ->
              exists u, Json.lookup "udid" d = Some u)).

(** The entries a readable device gives: one when it is available and
    its name holds "iPhone", none otherwise. *)
Definition listed_simulator (runtime : string) (v : Json.value) : list Json.dict :=
  match v with
  | Json.Obj d =>
      match Json.lookup "isAvailable" d, Json.lookup "name" d, Json.lookup "udid" d with
      | Some a, Some (Json.Str n), Some u =>
          if Json.truthy a && Str.contains "iPhone" n
          then [XcodeDetector.simulator (Json.Str n) u
                  (match Json.lookup "state" d with
                   | Some s => s
                   | None => Json.Str "Shutdown"
                   end) runtime]
          else []
      | _, _, _ => []
      end
  | _ => []
  end.

(** The entries of a runtime: those of its devices when its key holds
    "iOS" and its value is a list. *)
Definition listed_runtime (kv : string * Json.value) : list Json.dict :=
  match kv with
  | (runtime, Json.Arr devices) =>
      if Str.contains "iOS" runtime
      then flat_map (listed_simulator runtime) devices
      else []
  | _ => []
  end.

(** A runtime the scan reads without raising: its key does not hold
    "iOS", or its value is a list of readable devices. *)
Definition readable_runtime (kv : string * Json.value) : Prop :=
  Str.contains "iOS" (fst kv) = false
  \/ exists devices, snd kv = Json.Arr devices /\ Forall readable_device devices.

(** A device entry on which the scan raises, whatever was listed
    before. *)
Definition broken_device (runtime : string) (v : Json.value) : Prop :=
  forall simulators, exists e,
    XcodeDetector.scan_simulator runtime simulators v = Json.Throw e.

(* ================================================================= *)
(** * class UltimatePipelineApp: the commands of the window

    The commands behind the buttons are modelled as functions on the
    fields of the application object.  The widgets, the message boxes,
    the browser and the working directory are not modelled: the calls
    made on them are recorded, in program order, in the field [calls],
    and each of them is taken to return.  A command that starts a thread
    is followed to the end of that thread before the next command
    begins.

    The literals of the interface hold pictographs, which lie outside the
    range 0..255; they are written as their UTF-8 bytes.  The program
    only concatenates these literals. *)

Module App.

(** A row of a tree view: its text and its values. *)
Record row : Type := {
  row_text : string;
  row_values : list string
}.

(** The calls on the interface.  [fill_diagnostics_tree],
    [fill_test_tree] and [listbox_fill] stand for a tree or a list that
    is emptied and filled again; the rows of the tests are not computed,
    the call holds the records they show. *)
Inductive call : Type :=
| showwarning (title message : string)
| showerror (title message : string)
| askyesno (title message : string)
| webbrowser_open (url : string)
| chdir (directory : string)
| dialog_destroy
| listbox_fill (labels : list string)
| _clear_build_log
| _set_status (text : string)
| _log (message : string)
| _append_build_log (text : string)
| progress_bar_set (value : Z)
| configure (widget : string) (options : list (string * string))
| fill_test_tree (tests : list TestResult)
| fill_diagnostics_tree (rows : list row).

(** The fields of the application object (lines 867-871 and 1195). *)
Record State : Type := {
  project_config : option ProjectConfig;
  selected_target : option Json.dict;
  test_results : list TestResult;
  diagnostic_issues : list DiagnosticIssue;
  build_success : bool;
  last_report_path : option string;
  calls : list call
}.

(** What the commands consult outside the object: the tool chain, the
    file system, the clock and the user. *)
Record World : Type := {
  popen : list string -> string -> result CommandRunner.Process;
  subprocess_run : Subprocess.run_fn;
  loads : string -> Json.res Json.value;
  repr : Json.value -> string;
  getcwd : string;
  (** the names a directory holds, and the content of the
      [project.pbxproj] of a project of a directory *)
  entries : string -> list string;
  pbxproj : string -> string -> option (result string);
  (** [list(Path(project_path).rglob("*.swift"))] *)
  rglob : string -> list DiagnosticsEngine.SwiftFile;
  clock : ReportGenerator.Clock;
  (** [ReportGenerator.save_report(html, project_path)] *)
  save_report : list ReportGenerator.fragment -> string -> result string;
  path_exists : string -> bool;
  (** the answers of the user: the directory chosen (empty when the
      dialog is cancelled), the rows selected in the list of targets,
      the kind of target, the answer to a question *)
  askdirectory : string;
  curselection : list nat;
  target_type : string;
  answer : bool
}.

(** How a command ends: it returns, or an exception ends its thread. *)
Inductive outcome : Type :=
| Done (st : State)
| Died (e : Json.exn) (st : State).

Definition state_of (o : outcome) : State :=
  match o with
  | Done st => st
  | Died _ st => st
  end.

Definition with_project_config (v : option ProjectConfig) (st : State) : State :=
  {| project_config := v;
     selected_target := selected_target st;
     test_results := test_results st;
     diagnostic_issues := diagnostic_issues st;
     build_success := build_success st;
     last_report_path := last_report_path st;
     calls := calls st |}.

Definition with_selected_target (v : option Json.dict) (st : State) : State :=
  {| project_config := project_config st;
     selected_target := v;
     test_results := test_results st;
     diagnostic_issues := diagnostic_issues st;
     build_success := build_success st;
     last_report_path := last_report_path st;
     calls := calls st |}.

Definition with_test_results (v : list TestResult) (st : State) : State :=
  {| project_config := project_config st;
     selected_target := selected_target st;
     test_results := v;
     diagnostic_issues := diagnostic_issues st;
     build_success := build_success st;
     last_report_path := last_report_path st;
     calls := calls st |}.

Definition with_diagnostic_issues (v : list DiagnosticIssue) (st : State) : State :=
  {| project_config := project_config st;
     selected_target := selected_target st;
     test_results := test_results st;
     diagnostic_issues := v;
     build_success := build_success st;
     last_report_path := last_report_path st;
     calls := calls st |}.

Definition with_build_success (v : bool) (st : State) : State :=
  {| project_config := project_config st;
     selected_target := selected_target st;
     test_results := test_results st;
     diagnostic_issues := diagnostic_issues st;
     build_success := v;
     last_report_path := last_report_path st;
     calls := calls st |}.

Definition with_last_report_path (v : option string) (st : State) : State :=
  {| project_config := project_config st;
     selected_target := selected_target st;
     test_results := test_results st;
     diagnostic_issues := diagnostic_issues st;
     build_success := build_success st;
     last_report_path := v;
     calls := calls st |}.

Definition with_calls (v : list call) (st : State) : State :=
  {| project_config := project_config st;
     selected_target := selected_target st;
     test_results := test_results st;
     diagnostic_issues := diagnostic_issues st;
     build_success := build_success st;
     last_report_path := last_report_path st;
     calls := v |}.

(** The calls [cs] are made, one after the other. *)
Definition ui (cs : list call) (st : State) : State :=
  with_calls (calls st ++ cs)%list st.

Definition nl : string := String DiagnosticsEngine.newline EmptyString.

(** Lines 867-871 and 1195: the fields as [__init__] sets them. *)
Definition init : State :=
  {| project_config := None;
     selected_target := None;
     test_results := [];
     diagnostic_issues := [];
     build_success := false;
     last_report_path := None;
     calls := [] |}.

(** ** Display *)

(** Lines 1221-1226: [_update_project_display] on a project. *)
Definition project_text (c : ProjectConfig) : string :=
  "📦 " ++ project_name c ++ nl
    ++ "🎯 " ++ scheme c ++ nl
    ++ (if is_workspace c then "📂 Workspace" else "📄 Project").

Definition _update_project_display (st : State) : State :=
  match project_config st with
  | Some c => ui [configure "project_label" [("text", project_text c)]] st
  | None => st
  end.

(** Lines 1507-1511: the [dict] of the markers and its default. *)
Definition severity_emoji (severity : string) : string :=
  if String.eqb severity "critical" then "🔴"
  else if String.eqb severity "warning" then "🟡"
  else if String.eqb severity "info" then "🔵"
  else "⚪".

(** Lines 1506-1521: the row inserted for a record. *)
Definition diagnostic_row (issue : DiagnosticIssue) : row :=
  let severity_text :=
    severity_emoji (severity issue) ++ " " ++ Str.upper (severity issue) in
  let file_name :=
    match file issue with
    | Some f => if String.eqb f "" then "N/A" else Text.basename f
    | None => "N/A"
    end in
  {| row_text := Text.take 100 (message issue);
     row_values := [category issue; severity_text; file_name] |}.

(** Lines 1502-1521: the tree is emptied and filled again from the
    records the object holds. *)
Definition _update_diagnostics_display (st : State) : State :=
  ui [fill_diagnostics_tree (map diagnostic_row (diagnostic_issues st))] st.

(** Lines 1486-1500: the same for the tests. *)
Definition _update_test_display (st : State) : State :=
  ui [fill_test_tree (test_results st)] st.

(** ** Targets *)

(** Lines 1314-1316: the label of a simulator. *)
Definition simulator_label (repr : Json.value -> string) (target : Json.dict)
  : Json.res string :=
  state <-- Json.subscript (Json.Obj target) "state" ;;;
  let status_icon := if Json.is_text "Booted" state then "🟢" else "⚪" in
  target_name <-- Json.subscript (Json.Obj target) "name" ;;;
  runtime <-- Json.subscript (Json.Obj target) "runtime" ;;;
  Json.Return (status_icon ++ " " ++ Json.str_of repr target_name
                 ++ " (" ++ Json.str_of repr runtime ++ ")").

(** Lines 1319-1321: the label of a device. *)
Definition device_label (repr : Json.value -> string) (target : Json.dict)
  : Json.res string :=
  state <-- Json.subscript (Json.Obj target) "state" ;;;
  let status_icon := if Json.is_text "Connected" state then "🟢" else "🔴" in
  target_name <-- Json.subscript (Json.Obj target) "name" ;;;
  Json.Return (status_icon ++ " " ++ Json.str_of repr target_name).

Fixpoint labels (label : Json.dict -> Json.res string) (targets : list Json.dict)
  (listbox : list string) : Json.res (list string) :=
  match targets with
  | [] => Json.Return listbox
  | target :: targets' =>
      l <-- label target ;;;
      labels label targets' (listbox ++ [l])%list
  end.

(** Lines 1309-1321: what the list box holds after [_update_target_list]. *)
Definition _update_target_list (w : World) (target_type : string)
  : Json.res (list string) :=
  if String.eqb target_type "simulator"
  then labels (simulator_label (repr w))
              (XcodeDetector.get_simulators (loads w) (subprocess_run w)) []
  else labels (device_label (repr w))
              (XcodeDetector.get_devices (subprocess_run w)) [].

(** Lines 1286-1296: the button "Select" of the dialog. *)
Definition on_select (w : World) (st : State) : outcome :=
  match curselection w with
  | [] => Done st
  | idx :: _ =>
      let targets :=
        if String.eqb (target_type w) "simulator"
        then XcodeDetector.get_simulators (loads w) (subprocess_run w)
        else XcodeDetector.get_devices (subprocess_run w) in
      match nth_error targets idx with
      | None => Done st
      | Some target =>
          let target := Json.set "type" (Json.Str (target_type w)) target in
          let st := with_selected_target (Some target) st in
          match Json.subscript (Json.Obj target) "name" with
          | Json.Throw e => Died e st
          | Json.Return target_name =>
              let shown := Json.str_of (repr w) target_name in
              Done (ui [ _log ("✅ Selected target: " ++ shown);
                         _set_status ("📱 Target: " ++ shown);
                         dialog_destroy ] st)
          end
      end
  end.

(** ** Projects *)

(** Lines 1197-1207. *)
Definition _auto_detect_project (w : World) (st : State) : State :=
  let cwd := getcwd w in
  let found :=
    XcodeDetector.find_project (subprocess_run w) (entries w cwd) (pbxproj w cwd) cwd in
  let st := with_project_config found st in
  match found with
  | Some c =>
      ui [ _log ("✅ Auto-detected project: " ++ project_name c);
           _set_status ("📦 Project: " ++ project_name c) ]
         (_update_project_display st)
  | None =>
      ui [ _log "ℹ️ No project found in current directory";
           _set_status "⚠️ No project detected - please open one" ] st
  end.

(** Lines 1209-1219. *)
Definition _select_project (w : World) (st : State) : State :=
  let directory := askdirectory w in
  if String.eqb directory "" then st
  else
    let found :=
      XcodeDetector.find_project (subprocess_run w) (entries w directory)
                                 (pbxproj w directory) directory in
    let st := with_project_config found st in
    match found with
    | Some c =>
        ui [ _log ("✅ Loaded project: " ++ project_name c);
             _set_status ("📦 Project: " ++ project_name c) ]
           (_update_project_display (ui [chdir directory] st))
    | None =>
        ui [showerror "Error" "No Xcode project found in selected directory"] st
    end.

(** ** Build and test *)

(** [not self.project_config], [not self.selected_target]: [None] and
    the empty [dict] count as false. *)
Definition no_project (st : State) : bool :=
  match project_config st with
  | Some _ => false
  | None => true
  end.

Definition no_target (st : State) : bool :=
  match selected_target st with
  | Some (_ :: _) => false
  | _ => true
  end.

(** Lines 1228-1307: without a project the command only warns.
    Otherwise the dialog is built and its list is filled with the
    simulators (line 1284); the user then presses "Select"
    ([on_select]), the kind of target and the row selected being those
    of the world.  A dialog that is closed is the world in which no row
    is selected.  The presses of the radio buttons, which fill the list
    again, are left out. *)
Definition _select_target (w : World) (st : State) : outcome :=
  if no_project st
  then Done (ui [showwarning "Warning" "Please open a project first"] st)
  else
    match _update_target_list w "simulator" with
    | Json.Throw e => Died e st
    | Json.Return listbox => on_select w (ui [listbox_fill listbox] st)
    end.

(** Lines 1337-1347 and 1391-1401: the command line, begun with [cmd]. *)
Definition command_line (w : World) (cmd : list string) (st : State)
  : Json.res (list string) :=
  match project_config st with
  | None =>
      Json.Throw (Json.AttributeError
                    "'NoneType' object has no attribute 'is_workspace'")
  | Some c =>
      let cmd :=
        if is_workspace c
        then (cmd ++ ["-workspace"; project_file c])%list
        else (cmd ++ ["-project"; project_file c])%list in
      match selected_target st with
      | None =>
          Json.Throw (Json.TypeError "'NoneType' object is not subscriptable")
      | Some target =>
          uuid <-- Json.subscript (Json.Obj target) "uuid" ;;;
          let destination := "id=" ++ Json.str_of (repr w) uuid in
          Json.Return (cmd ++ ["-scheme"; scheme c; "-destination"; destination])%list
      end
  end.

(** [lambda line: self._append_build_log(line)]. *)
Definition append_line : CommandRunner.sink (S := list call) :=
  fun line cs => ((cs ++ [_append_build_log line])%list, None).

(** Lines 1352-1356 and 1406-1410: the command is run in the directory
    of the project, its lines going to the log. *)
Definition run_command (w : World) (cmd : list string) (st : State)
  : Json.res ((bool * string * string) * State) :=
  match project_config st with
  | None =>
      Json.Throw (Json.AttributeError "'NoneType' object has no attribute 'path'")
  | Some c =>
      let (r, cs) :=
        CommandRunner.run (popen w) cmd (path c) (Some append_line) (calls st) in
      Json.Return (r, with_calls cs st)
  end.

(** Lines 1336-1373. *)
Definition build_thread (w : World) (st : State) : outcome :=
  match command_line w ["xcodebuild"; "clean"; "build"] st with
  | Json.Throw e => Died e st
  | Json.Return cmd =>
      let st :=
        ui [ _log "🔨 Starting build...";
             _log ("$ " ++ Str.join " " (firstn 5 cmd) ++ "..." ++ nl) ] st in
      match run_command w cmd st with
      | Json.Throw e => Died e st
      | Json.Return ((success, output, _), st) =>
          let st := with_build_success success st in
          let st :=
            if success
            then ui [ _log (nl ++ "✅ Build succeeded!");
                      _set_status "✅ Build successful";
                      configure "build_stat"
                                [("text", "Success"); ("text_color", "#43e97b")] ] st
            else ui [ _log (nl ++ "❌ Build failed!");
                      _set_status "❌ Build failed";
                      configure "build_stat"
                                [("text", "Failed"); ("text_color", "#f5576c")] ] st in
          let st := ui [progress_bar_set 1] st in
          let build_issues := DiagnosticsEngine.analyze_build_output output in
          let st :=
            with_diagnostic_issues (diagnostic_issues st ++ build_issues)%list st in
          Done (_update_diagnostics_display st)
      end
  end.

(** Lines 1323-1375. *)
Definition _build_project (w : World) (st : State) : outcome :=
  if no_project st
  then Done (ui [showwarning "Warning" "Please open a project first"] st)
  else if no_target st
  then Done (ui [showwarning "Warning" "Please select a target first"] st)
  else
    build_thread w (ui [ _clear_build_log; _set_status "🔨 Building...";
                         progress_bar_set 0 ] st).

(** Lines 1390-1422. *)
Definition test_thread (w : World) (st : State) : outcome :=
  match command_line w ["xcodebuild"; "test"] st with
  | Json.Throw e => Died e st
  | Json.Return cmd =>
      let st :=
        ui [ _log "🧪 Starting tests...";
             _log ("$ " ++ Str.join " " (firstn 5 cmd) ++ "..." ++ nl) ] st in
      match run_command w cmd st with
      | Json.Throw e => Died e st
      | Json.Return ((_, output, _), st) =>
          match TestParser.parse_results output with
          | Raise e => Died (Json.Other e) st
          | Ok (tests, total, passed, failed) =>
              let st := with_test_results tests st in
              let st :=
                ui [ _log (nl ++ "📊 Test Results: " ++ Str.str_of_Z passed
                              ++ " passed, " ++ Str.str_of_Z failed
                              ++ " failed out of " ++ Str.str_of_Z total ++ " total");
                     _set_status ("🧪 Tests: " ++ Str.str_of_Z passed ++ "/"
                                    ++ Str.str_of_Z total ++ " passed");
                     configure "test_stat"
                               [("text", Str.str_of_Z passed ++ " / " ++ Str.str_of_Z total)];
                     configure "pass_stat" [("text", Str.str_of_Z passed)] ] st in
              let st := _update_test_display st in
              Done (ui [progress_bar_set 1] st)
          end
      end
  end.

(** Lines 1377-1424. *)
Definition _run_tests (w : World) (st : State) : outcome :=
  if no_project st
  then Done (ui [showwarning "Warning" "Please open a project first"] st)
  else if no_target st
  then Done (ui [showwarning "Warning" "Please select a target first"] st)
  else
    test_thread w (ui [ _clear_build_log; _set_status "🧪 Running tests...";
                        progress_bar_set 0 ] st).

(** ** Diagnostics and report *)

(** Lines 1434-1445. *)
Definition diagnostics_thread (w : World) (st : State) : outcome :=
  let st := ui [_log "🔍 Running code quality analysis..."] st in
  match project_config st with
  | None =>
      Died (Json.AttributeError "'NoneType' object has no attribute 'path'") st
  | Some c =>
      let code_issues := DiagnosticsEngine.analyze_source_code (rglob w (path c)) in
      let st :=
        with_diagnostic_issues (diagnostic_issues st ++ code_issues)%list st in
      let st :=
        ui [ _log ("✅ Found " ++ Str.str_of_Z (ReportGenerator.len code_issues)
                     ++ " code quality issues");
             _set_status ("🔍 Diagnostics complete: "
                            ++ Str.str_of_Z (ReportGenerator.len (diagnostic_issues st))
                            ++ " issues");
             configure "issue_stat"
                       [("text", Str.str_of_Z (ReportGenerator.len (diagnostic_issues st)))] ]
           st in
      let st := _update_diagnostics_display st in
      Done (ui [progress_bar_set 1] st)
  end.

(** Lines 1426-1447. *)
Definition _run_diagnostics (w : World) (st : State) : outcome :=
  if no_project st
  then Done (ui [showwarning "Warning" "Please open a project first"] st)
  else
    diagnostics_thread w (ui [ _set_status "🔍 Running diagnostics...";
                               progress_bar_set 0 ] st).

(** Lines 1456-1476. *)
Definition report_thread (w : World) (st : State) : outcome :=
  match project_config st with
  | None =>
      Died (Json.AttributeError "'NoneType' object has no attribute 'name'") st
  | Some c =>
      match ReportGenerator.generate_html (clock w) c (test_results st)
                                          (diagnostic_issues st) (build_success st) with
      | Raise e => Died (Json.Other e) st
      | Ok html =>
          match save_report w html (path c) with
          | Raise e => Died (Json.Other e) st
          | Ok report_path =>
              let st := with_last_report_path (Some report_path) st in
              let st :=
                ui [ _log ("📊 Report saved: " ++ report_path);
                     _set_status "✅ Report generated";
                     configure "report_status"
                               [("text", "✅ Report saved to:" ++ nl
                                           ++ Text.basename report_path)];
                     configure "open_report_btn" [("state", "normal")];
                     askyesno "Report Generated"
                              ("Report generated successfully!" ++ nl ++ nl
                                 ++ "Open in browser?") ] st in
              if answer w
              then Done (ui [webbrowser_open ("file://" ++ report_path)] st)
              else Done st
          end
      end
  end.

(** Lines 1449-1478. *)
Definition _generate_report (w : World) (st : State) : outcome :=
  if no_project st
  then Done (ui [showwarning "Warning" "Please open a project first"] st)
  else report_thread w (ui [_set_status "📊 Generating report..."] st).

(** Lines 1480-1484. *)
Definition _open_latest_report (w : World) (st : State) : State :=
  match last_report_path st with
  | Some p =>
      if negb (String.eqb p "") && path_exists w p
      then ui [webbrowser_open ("file://" ++ p)] st
      else ui [showwarning "Warning" "No report available"] st
  | None => ui [showwarning "Warning" "No report available"] st
  end.

End App.

(* ================================================================= *)
(** * Vocabulary of the properties of the window *)

(** The lines [readline] gives before the stream ends or a read fails. *)
Fixpoint lines_read (reads : list (result string)) : list string :=
  match reads with
  | Ok (String c l) :: reads' => String c l :: lines_read reads'
  | _ => []
  end.

(** The lines of the process a command line starts. *)
Definition lines_of (w : App.World) (cmd : list string) (cwd : string) : list string :=
  match App.popen w cmd cwd with
  | Ok process => lines_read (CommandRunner.readline process)
  | Raise _ => []
  end.

(** What [CommandRunner.run] returns for a command line, no sink being
    given. *)
Definition captured (w : App.World) (cmd : list string) (cwd : string)
  : bool * string * string :=
  fst (CommandRunner.run (App.popen w) cmd cwd None tt).

Definition succeeded (r : bool * string * string) : bool := fst (fst r).
Definition output_of (r : bool * string * string) : string := snd (fst r).

(** The command line of [xcodebuild] for a project and the identifier of
    a target. *)
Definition xcodebuild (w : App.World) (verb : list string) (c : ProjectConfig)
  (uuid : Json.value) : list string :=
  let destination := "id=" ++ Json.str_of (App.repr w) uuid in
  (verb ++ [ (if is_workspace c then "-workspace" else "-project");
             project_file c; "-scheme"; scheme c;
             "-destination"; destination ])%list.

(** The commands of the window. *)
Inductive command : Type :=
| Detect
| OpenProject
| SelectTarget
| Build
| Test
| Diagnose
| Report
| OpenLatest.

(** A command is given in a world; the state is the one it leaves,
    whether its thread returned or died. *)
Definition exec (w : App.World) (c : command) (st : App.State) : App.State :=
  match c with
  | Detect => App._auto_detect_project w st
  | OpenProject => App._select_project w st
  | SelectTarget => App.state_of (App._select_target w st)
  | Build => App.state_of (App._build_project w st)
  | Test => App.state_of (App._run_tests w st)
  | Diagnose => App.state_of (App._run_diagnostics w st)
  | Report => App.state_of (App._generate_report w st)
  | OpenLatest => App._open_latest_report w st
  end.

(** A session: commands given one after the other, each in its world. *)
Definition session (steps : list (App.World * command)) (st : App.State)
  : App.State :=
  fold_left (fun st s => exec (fst s) (snd s) st) steps st.

(** The project a directory holds, in a world. *)
Definition project_in (w : App.World) (directory : string) : option ProjectConfig :=
  XcodeDetector.find_project (App.subprocess_run w) (App.entries w directory)
                             (App.pbxproj w directory) directory.

(** A sample world: a build that fails, a directory that holds a
    project, three source files, and a state with a project and a
    target. *)
Module Sample3.

Definition target : Json.dict :=
  Json.set "type" (Json.Str "device")
           (XcodeDetector.device "My iPhone" "00008030-001C2D3E4F5A6B7C").

Definition world : App.World :=
  {| App.popen := Sample.popen_failing;
     App.subprocess_run := Sample2.listing_run;
     App.loads := fun _ => Json.Return Sample2.sim_listing;
     App.repr := fun _ => "?";
     App.getcwd := "/p";
     App.entries := fun _ => Sample2.entries;
     App.pbxproj := fun _ => Sample2.files;
     App.rglob := fun _ => [Sample.a_swift; Sample.b_swift; Sample.c_swift];
     App.clock := Sample.clock;
     App.save_report :=
       fun _ project_path =>
         Ok (project_path
               ++ "/pipeline_reports/ultimate_pipeline_report_20261103_104500.html");
     App.path_exists := fun _ => true;
     App.askdirectory := "/p";
     App.curselection := [0%nat];
     App.target_type := "simulator";
     App.answer := false |}.

(** The same world, the directories holding no project. *)
Definition bare_world : App.World :=
  {| App.popen := App.popen world;
     App.subprocess_run := App.subprocess_run world;
     App.loads := App.loads world;
     App.repr := App.repr world;
     App.getcwd := App.getcwd world;
     App.entries := fun _ => ["README.md"];
     App.pbxproj := fun _ _ => None;
     App.rglob := App.rglob world;
     App.clock := App.clock world;
     App.save_report := App.save_report world;
     App.path_exists := App.path_exists world;
     App.askdirectory := "/q";
     App.curselection := App.curselection world;
     App.target_type := App.target_type world;
     App.answer := App.answer world |}.

Definition ready : App.State :=
  {| App.project_config := Some Sample.project;
     App.selected_target := Some target;
     App.test_results := Sample.tests_3_of_4;
     App.diagnostic_issues := [Sample.issue "warning"];
     App.build_success := true;
     App.last_report_path := None;
     App.calls := [] |}.

End Sample3.

(** A call that only tells the user something: a message box, a line
    of the log, the status line, the last report opened in the
    browser. *)
Definition notice (c : App.call) : Prop :=
  match c with
  | App.showwarning _ _ | App.showerror _ _ | App._log _ | App._set_status _
  | App.webbrowser_open _ => True
  | _ => False
  end.

(** A command that left the state idle: there is no project, the
    target and the results are what they were, and the calls made only
    tell the user something. *)
Definition idle (st st' : App.State) : Prop :=
  App.project_config st' = None
  /\ App.selected_target st' = App.selected_target st
  /\ App.test_results st' = App.test_results st
  /\ App.diagnostic_issues st' = App.diagnostic_issues st
  /\ App.build_success st' = App.build_success st
  /\ App.last_report_path st' = App.last_report_path st
  /\ exists made,
       App.calls st' = (App.calls st ++ made)%list /\ Forall notice made.

(** A step of a session in which no project is found: the directory
    looked at holds none, or the dialog is cancelled. *)
Definition finds_no_project (s : App.World * command) : Prop :=
  match snd s with
  | Detect => project_in (fst s) (App.getcwd (fst s)) = None
  | OpenProject =>
      App.askdirectory (fst s) = ""
      \/ project_in (fst s) (App.askdirectory (fst s)) = None
  | _ => True
  end.

(** The records the two scans build: an error or a warning of the build
    output, which names no file, and a remark on a source file. *)
Definition build_record (i : DiagnosticIssue) : Prop :=
  file i = None /\ line i = None
  /\ ((category i = "Build Error" /\ severity i = "critical")
      \/ (category i = "Build Warning" /\ severity i = "warning")).

Definition quality_record (i : DiagnosticIssue) : Prop :=
  category i = "Code Quality"
  /\ (severity i = "warning" \/ severity i = "info")
  /\ (exists f, file i = Some f)
  /\ line i = None.

Definition scanned (i : DiagnosticIssue) : Prop :=
  build_record i \/ quality_record i.

(** The state a command leaves extends the one it found: the records
    and the calls are added at the end, and the records added come from
    a scan. *)
Definition grows (st st' : App.State) : Prop :=
  (exists added,
      App.diagnostic_issues st' = (App.diagnostic_issues st ++ added)%list
      /\ Forall scanned added)
  /\ (exists made, App.calls st' = (App.calls st ++ made)%list).

(** What a command leaves alone. *)
Definition frame (c : command) (st st' : App.State) : Prop :=
  grows st st'
  /\ (c <> Test -> App.test_results st' = App.test_results st)
  /\ (c <> Build -> App.build_success st' = App.build_success st)
  /\ (c <> Report -> App.last_report_path st' = App.last_report_path st)
  /\ (c <> Detect -> c <> OpenProject ->
      App.project_config st' = App.project_config st)
  /\ (c <> SelectTarget -> App.selected_target st' = App.selected_target st).

(** The targets the dialog lists for a kind of target. *)
Definition targets_of (w : App.World) (kind : string) : list Json.dict :=
  if String.eqb kind "simulator"
  then XcodeDetector.get_simulators (App.loads w) (App.subprocess_run w)
  else XcodeDetector.get_devices (App.subprocess_run w).

(** An entry as [get_simulators] builds them. *)
Definition simulator_entry (d : Json.dict) : Prop :=
  exists n u s r, d = XcodeDetector.simulator n u s r.

(** An entry of a list of targets: a name, an identifier and a state
    come first. *)
Definition target_entry (d : Json.dict) : Prop :=
  exists n u s rest, d = ("name", n) :: ("uuid", u) :: ("state", s) :: rest.

(** The text of the name of an entry of [get_devices]. *)
Definition device_name_of (d : Json.dict) : string :=
  match Json.lookup "name" d with
  | Some (Json.Str n) => n
  | _ => ""
  end.

(** The code points on which [Str.upper_char] is the upper case Python
    gives: all those below 256 but U+00B5 and U+00FF, whose upper case
    lies above 255, and U+00DF, whose upper case is two letters. *)
Definition upper_in_range (c : ascii) : bool :=
  negb ((Str.code c =? 181)%N || (Str.code c =? 223)%N || (Str.code c =? 255)%N).

(** The texts the second column of a row can hold for a record of a
    scan. *)
Definition severity_texts : list string :=
  ["🔴 CRITICAL"; "🟡 WARNING"; "🔵 INFO"].

(* ================================================================= *)
(** * Properties *)

(** ** Texts *)

Section StringFacts.

Lemma append_assoc (a b c : string) : (a ++ b) ++ c = a ++ (b ++ c).
Proof. induction a as [|x a IH]; simpl; [reflexivity | now rewrite IH]. Qed.

Lemma append_empty_r (a : string) : a ++ "" = a.
Proof. induction a as [|x a IH]; simpl; [reflexivity | now rewrite IH]. Qed.

Lemma length_append (a b : string) :
  String.length (a ++ b) = (String.length a + String.length b)%nat.
Proof. induction a as [|x a IH]; simpl; [reflexivity | now rewrite IH]. Qed.

Lemma strip_prefix_append (p r : string) : Str.strip_prefix p (p ++ r) = Some r.
Proof.
  induction p as [|x p IH]; simpl; [reflexivity|].
  now rewrite Ascii.eqb_refl.
Qed.

Lemma strip_prefix_inv (p s r : string) :
  Str.strip_prefix p s = Some r -> s = p ++ r.
Proof.
  revert s; induction p as [|x p IH]; intros s H; simpl in *.
  - now inversion H.
  - destruct s as [|y s]; [discriminate|].
    destruct (Ascii.eqb_spec x y) as [->|]; [|discriminate].
    now rewrite (IH _ H).
Qed.

Lemma startswith_iff (p s : string) :
  Str.startswith p s = true <-> exists r, s = p ++ r.
Proof.
  unfold Str.startswith; split.
  - destruct (Str.strip_prefix p s) eqn:E; [|discriminate].
    intros _; eexists; eauto using strip_prefix_inv.
  - intros [r ->]. now rewrite strip_prefix_append.
Qed.

Lemma contains_iff (sub s : string) :
  Str.contains sub s = true <-> exists pre post, s = pre ++ sub ++ post.
Proof.
  induction s as [|c s IH]; simpl; rewrite orb_true_iff, startswith_iff.
  - split.
    + intros [[r H]|H]; [|discriminate]. exists "", r. exact H.
    + intros (pre & post & H). left. destruct pre; [now exists post|discriminate].
  - rewrite IH; split.
    + intros [[r H]|(pre & post & ->)].
      * exists "", r. exact H.
      * now exists (String c pre), post.
    + intros (pre & post & H). destruct pre as [|x pre]; simpl in H.
      * left; now exists post.
      * right. inversion H; subst. now exists pre, post.
Qed.

Lemma lower_append (a b : string) :
  Str.lower (a ++ b) = Str.lower a ++ Str.lower b.
Proof. induction a as [|x a IH]; simpl; [reflexivity | now rewrite IH]. Qed.

Lemma lower_append_inv (s a b : string) :
  Str.lower s = a ++ b ->
  exists x y, s = x ++ y /\ Str.lower x = a /\ Str.lower y = b.
Proof.
  revert s; induction a as [|c a IH]; intros s H; simpl in H.
  - now exists "", s.
  - destruct s as [|d s]; simpl in H; [discriminate|].
    inversion H as [[Hc Hs]].
    destruct (IH _ Hs) as (x & y & -> & Hx & Hy).
    exists (String d x), y. repeat split; simpl; congruence.
Qed.

End StringFacts.

Lemma mentions_iff (marker line : string) :
  Str.contains marker (Str.lower line) = true <-> mentions marker line.
Proof.
  rewrite contains_iff; split.
  - intros (pre & post & H).
    destruct (lower_append_inv _ _ _ H) as (x & y & -> & Hx & Hy).
    destruct (lower_append_inv _ _ _ Hy) as (m & z & -> & Hm & Hz).
    now exists x, m, z.
  - intros (pre & mid & post & -> & <-).
    exists (Str.lower pre), (Str.lower post).
    now rewrite !lower_append.
Qed.

(* ----------------------------------------------------------------- *)
(** ** Name normalization *)

Lemma contains_dot_cons (c : ascii) (s : string) :
  Str.contains "." (String c s) = Str.is_dot c || Str.contains "." s.
Proof.
  cbn [Str.contains]. unfold Str.startswith, Str.is_dot.
  cbn [Str.strip_prefix]. rewrite (Ascii.eqb_sym c ".").
  now destruct (Ascii.eqb "." c).
Qed.

Lemma contains_dot_nil : Str.contains "." "" = false.
Proof. reflexivity. Qed.

Lemma split_dotless (s : string) : dotless s -> Str.split "." s = [s].
Proof.
  unfold dotless. induction s as [|c s IH]; [reflexivity|].
  rewrite contains_dot_cons, orb_false_iff. intros [Hc Hs].
  cbn [Str.split]. unfold Str.is_dot in Hc. rewrite Hc.
  now rewrite (IH Hs).
Qed.

Lemma split_append_dot (p rest : string) :
  dotless p -> Str.split "." (p ++ String "." rest) = p :: Str.split "." rest.
Proof.
  unfold dotless. induction p as [|c p IH].
  - intros _. reflexivity.
  - rewrite contains_dot_cons, orb_false_iff. intros [Hc Hp].
    cbn [append Str.split]. unfold Str.is_dot in Hc. rewrite Hc.
    now rewrite (IH Hp).
Qed.

Lemma split_join (l : list string) :
  l <> [] -> Forall dotless l -> Str.split "." (Str.join "." l) = l.
Proof.
  induction l as [|p l IH]; [congruence|]. intros _ H.
  inversion H as [|? ? Hp Hl]; subst.
  destruct l as [|q l].
  - now apply split_dotless.
  - change (Str.join "." (p :: q :: l))
      with (p ++ String "." (Str.join "." (q :: l))).
    rewrite split_append_dot by assumption.
    now rewrite IH.
Qed.

Lemma contains_dot_append (p rest : string) :
  Str.contains "." (p ++ String "." rest) = true.
Proof.
  induction p as [|c p IH].
  - reflexivity.
  - cbn [append]. rewrite contains_dot_cons, IH. apply orb_true_r.
Qed.

Lemma contains_dot_join (l : list string) (a b : string) :
  Str.contains "." (Str.join "." (l ++ [a; b])) = true.
Proof.
  induction l as [|p l IH].
  - apply contains_dot_append.
  - destruct l as [|q l]; apply contains_dot_append.
Qed.

Lemma split_not_nil (c : ascii) (s : string) : Str.split c s <> [].
Proof.
  induction s as [|a s IH]; cbn [Str.split]; [discriminate|].
  destruct (Ascii.eqb a c); [discriminate|].
  destruct (Str.split c s); discriminate.
Qed.

Lemma join_cons (sep p : string) (ps : list string) :
  ps <> [] -> Str.join sep (p :: ps) = p ++ sep ++ Str.join sep ps.
Proof. destruct ps; [congruence | reflexivity]. Qed.

Lemma join_split (s : string) : Str.join "." (Str.split "." s) = s.
Proof.
  induction s as [|a s IH]; [reflexivity|]. cbn [Str.split].
  destruct (Ascii.eqb_spec a ".") as [->|Hne].
  - rewrite join_cons by apply split_not_nil. now rewrite IH.
  - pose proof (split_not_nil "." s) as Hnil.
    destruct (Str.split "." s) as [|h t]; [congruence|].
    destruct t as [|q t].
    + cbn [Str.join] in *. now rewrite IH.
    + rewrite join_cons in IH by discriminate.
      rewrite join_cons by discriminate.
      rewrite <- IH. reflexivity.
Qed.

Lemma split_all_dotless (s : string) : Forall dotless (Str.split "." s).
Proof.
  induction s as [|a s IH]; cbn [Str.split].
  - repeat constructor.
  - destruct (Ascii.eqb a ".") eqn:E.
    + constructor; [reflexivity | assumption].
    + destruct (Str.split "." s) as [|h t]; [repeat constructor|].
      * unfold dotless. rewrite contains_dot_cons. unfold Str.is_dot.
        now rewrite E.
      * inversion IH as [|? ? Hh Ht]; subst. constructor; [|assumption].
        unfold dotless in *. rewrite contains_dot_cons. unfold Str.is_dot.
        now rewrite E, Hh.
Qed.

Lemma split_length_dotted (s : string) :
  Str.contains "." s = true -> (2 <= List.length (Str.split "." s))%nat.
Proof.
  induction s as [|a s IH]; [discriminate|].
  rewrite contains_dot_cons. unfold Str.is_dot. cbn [Str.split].
  destruct (Ascii.eqb a ".").
  - intros _. pose proof (split_not_nil "." s).
    destruct (Str.split "." s); [congruence | simpl; lia].
  - cbn [orb]. intros H. specialize (IH H).
    destruct (Str.split "." s); simpl in *; lia.
Qed.

Lemma last_two {A : Type} (l : list A) :
  (2 <= List.length l)%nat -> exists front a b, l = (front ++ [a; b])%list.
Proof.
  intros H.
  destruct (exists_last (l := l)) as (l1 & b & ->);
    [destruct l; simpl in H; [lia | discriminate]|].
  rewrite length_app in H. cbn [List.length] in H.
  destruct (exists_last (l := l1)) as (l2 & a & ->);
    [destruct l1; simpl in H; [lia | discriminate]|].
  exists l2, a, b. now rewrite <- app_assoc.
Qed.

(** The name kept for an identifier: an identifier made of dot-separated
    components keeps its last two, joined by a dot, and every identifier
    with a dot is made so; an identifier without a dot is kept as it
    is. *)
Lemma normalize_name_cases :
  (forall (components : list string) (suite case : string),
      Forall dotless components -> dotless suite -> dotless case ->
      TestParser.normalize_name (Str.join "." (components ++ [suite; case]))
      = suite ++ "." ++ case)
  /\ (forall ident,
         ~ dotless ident ->
         exists components suite case,
           ident = Str.join "." (components ++ [suite; case])
           /\ Forall dotless components /\ dotless suite /\ dotless case)
  /\ (forall ident, dotless ident -> TestParser.normalize_name ident = ident).
Proof.
  split; [|split].
  - intros cs suite case Hcs Hs Hc.
    unfold TestParser.normalize_name.
    rewrite contains_dot_join, split_join.
    + rewrite length_app. cbn [List.length].
      replace (2 <=? List.length cs + 2)%nat with true
        by (symmetry; apply Nat.leb_le; lia).
      replace (List.length cs + 2 - 2)%nat with (List.length cs + 0)%nat by lia.
      replace (List.length cs + 2 - 1)%nat with (List.length cs + 1)%nat by lia.
      now rewrite !app_nth2_plus.
    + now destruct cs.
    + apply Forall_app; split; [assumption|]. now repeat constructor.
  - intros ident H. unfold dotless in H. apply not_false_is_true in H.
    destruct (last_two _ (split_length_dotted _ H)) as (cs & a & b & E).
    pose proof (split_all_dotless ident) as Hall. rewrite E in Hall.
    apply Forall_app in Hall. destruct Hall as [Hcs Hab].
    inversion Hab as [|? ? Ha Hb']; subst. inversion Hb' as [|? ? Hb _]; subst.
    exists cs, a, b. rewrite <- E, join_split. auto.
  - intros ident H. unfold TestParser.normalize_name.
    unfold dotless in H. now rewrite H.
Qed.

(* ----------------------------------------------------------------- *)
(** ** Build-output scan *)

Lemma scan_line_appends (issues : list DiagnosticIssue) (l : string) :
  DiagnosticsEngine.scan_line issues l
  = (issues ++ DiagnosticsEngine.scan_line [] l)%list.
Proof.
  unfold DiagnosticsEngine.scan_line.
  destruct (Str.contains "error:" (Str.lower l)); [reflexivity|].
  destruct (Str.contains "warning:" (Str.lower l)); [reflexivity|].
  now rewrite app_nil_r.
Qed.

Lemma fold_scan_line (lines : list string) (issues : list DiagnosticIssue) :
  fold_left DiagnosticsEngine.scan_line lines issues
  = (issues ++ flat_map (DiagnosticsEngine.scan_line []) lines)%list.
Proof.
  revert issues; induction lines as [|l lines IH]; intros issues; simpl.
  - now rewrite app_nil_r.
  - rewrite IH, (scan_line_appends issues l). now rewrite app_assoc.
Qed.

(** C4: the scan is line by line and a line adds at most one record: a
    "Build Error" when it mentions the error marker (also when it
    mentions the warning marker too), a "Build Warning" when it mentions
    the warning marker only, nothing otherwise. *)
Theorem build_scan_one_record_per_line :
  (forall output,
      DiagnosticsEngine.analyze_build_output output
      = flat_map (DiagnosticsEngine.scan_line [])
                 (Str.split DiagnosticsEngine.newline output))
  /\ (forall l, (List.length (DiagnosticsEngine.scan_line [] l) <= 1)%nat)
  /\ (forall l,
         mentions "error:" l ->
         DiagnosticsEngine.scan_line [] l
         = [ {| category := "Build Error"; severity := "critical";
                message := Str.strip l; file := None; line := None |} ])
  /\ (forall l,
         ~ mentions "error:" l -> mentions "warning:" l ->
         DiagnosticsEngine.scan_line [] l
         = [ {| category := "Build Warning"; severity := "warning";
                message := Str.strip l; file := None; line := None |} ])
  /\ (forall l,
         ~ mentions "error:" l -> ~ mentions "warning:" l ->
         DiagnosticsEngine.scan_line [] l = []).
Proof.
  repeat split.
  - intros output. unfold DiagnosticsEngine.analyze_build_output.
    now rewrite fold_scan_line.
  - intros l. unfold DiagnosticsEngine.scan_line.
    destruct (Str.contains "error:" (Str.lower l)); [simpl; lia|].
    destruct (Str.contains "warning:" (Str.lower l)); simpl; lia.
  - intros l He. apply mentions_iff in He.
    unfold DiagnosticsEngine.scan_line. now rewrite He.
  - intros l He Hw. apply mentions_iff in Hw.
    rewrite <- mentions_iff in He. apply not_true_is_false in He.
    unfold DiagnosticsEngine.scan_line. now rewrite He, Hw.
  - intros l He Hw.
    rewrite <- mentions_iff in He, Hw.
    apply not_true_is_false in He, Hw.
    unfold DiagnosticsEngine.scan_line. now rewrite He, Hw.
Qed.

Lemma build_scan_one_record_per_line_witness :
  DiagnosticsEngine.scan_line [] "  main.swift:3:1: Error: deprecated (warning: x)  "
  = [ {| category := "Build Error"; severity := "critical";
         message := "main.swift:3:1: Error: deprecated (warning: x)";
         file := None; line := None |} ].
Proof.
  apply (proj1 (proj2 (proj2 build_scan_one_record_per_line))).
  exists "  main.swift:3:1: ", "Error:", " deprecated (warning: x)  ".
  split; reflexivity.
Defined.

(* ----------------------------------------------------------------- *)
(** ** Source scan *)

Lemma count_from_contains (sub : string) (s : string) (k : nat) :
  (0 < Str.count_from sub k s)%nat -> Str.contains sub s = true.
Proof.
  revert k; induction s as [|c s IH]; intros k.
  - destruct k; cbn [Str.count_from Str.contains].
    + destruct (Str.startswith sub ""); [reflexivity | lia].
    + lia.
  - destruct k; cbn [Str.count_from Str.contains].
    + destruct (Str.startswith sub (String c s)); [reflexivity|].
      intros H. now rewrite (IH _ H).
    + intros H. rewrite (IH _ H). apply orb_true_r.
Qed.

Lemma contains_append_l (sub pre s : string) :
  Str.contains sub s = true -> Str.contains sub (pre ++ s) = true.
Proof.
  rewrite !contains_iff. intros (a & b & ->).
  exists (pre ++ a), b. now rewrite append_assoc.
Qed.

Lemma force_try_test (content : string) :
  Str.contains "try!" content || Str.contains "force try!" content
  = Str.contains "try!" content.
Proof.
  destruct (Str.contains "force try!" content) eqn:F; [|apply orb_false_r].
  rewrite orb_true_r. symmetry.
  apply contains_iff in F. destruct F as (pre & post & ->).
  apply contains_iff. exists (pre ++ "force "), post.
  now rewrite append_assoc.
Qed.

Lemma print_test (content : string) :
  Str.contains "print(" content && (5 <? Str.count "print(" content)%nat
  = (5 <? Str.count "print(" content)%nat.
Proof.
  destruct (5 <? Str.count "print(" content)%nat eqn:E.
  - apply Nat.ltb_lt in E. unfold Str.count in E.
    rewrite (count_from_contains "print(" content 0); [reflexivity | lia].
  - apply andb_false_r.
Qed.

Lemma scan_step_appends (issues : list DiagnosticIssue)
  (f : DiagnosticsEngine.SwiftFile) :
  DiagnosticsEngine.scan_step issues f = (issues ++ file_records f)%list.
Proof.
  unfold file_records, DiagnosticsEngine.scan_step, DiagnosticsEngine.scan_file.
  destruct (DiagnosticsEngine.read_text f) as [content|e]; cbn [fst].
  - destruct (Str.contains "try!" content || Str.contains "force try!" content);
      destruct (15 <? Str.count "!" content)%nat;
      destruct (Str.contains "print(" content && (5 <? Str.count "print(" content)%nat);
      destruct (500 <? List.length (Str.split DiagnosticsEngine.newline content))%nat;
      cbn [app]; rewrite <- ?app_assoc; cbn [app]; rewrite ?app_nil_r; reflexivity.
  - now rewrite app_nil_r.
Qed.

Lemma fold_scan_step (files : list DiagnosticsEngine.SwiftFile)
  (issues : list DiagnosticIssue) :
  fold_left DiagnosticsEngine.scan_step files issues
  = (issues ++ flat_map file_records files)%list.
Proof.
  revert issues; induction files as [|f files IH]; intros issues; simpl.
  - now rewrite app_nil_r.
  - rewrite IH, (scan_step_appends issues f). now rewrite app_assoc.
Qed.

Lemma file_records_readable (f : DiagnosticsEngine.SwiftFile) (content : string) :
  DiagnosticsEngine.read_text f = Ok content ->
  file_records f
  = (force_try_records f content ++ unwrap_records f content
       ++ print_records f content ++ long_file_records f content)%list.
Proof.
  intros H.
  unfold file_records, DiagnosticsEngine.scan_step, DiagnosticsEngine.scan_file.
  rewrite H, force_try_test, print_test. cbn [fst].
  unfold force_try_records, unwrap_records, print_records, long_file_records.
  destruct (Str.contains "try!" content);
    destruct (15 <? Str.count "!" content)%nat;
    destruct (5 <? Str.count "print(" content)%nat;
    destruct (500 <? List.length (Str.split DiagnosticsEngine.newline content))%nat;
    reflexivity.
Qed.

(** C7: the scan of a tree is the concatenation, in traversal order, of
    what each file contributes; a file that cannot be read contributes
    nothing and leaves the scan of the others as it is; a file that can
    be read contributes at most one record for each of the four
    heuristics. *)
Theorem source_scan_isolates_read_failures :
  (forall files,
      DiagnosticsEngine.analyze_source_code files = flat_map file_records files)
  /\ (forall f e, DiagnosticsEngine.read_text f = Raise e -> file_records f = [])
  /\ (forall before f after e,
         DiagnosticsEngine.read_text f = Raise e ->
         DiagnosticsEngine.analyze_source_code (before ++ f :: after)
         = DiagnosticsEngine.analyze_source_code (before ++ after))
  /\ (forall f content,
         DiagnosticsEngine.read_text f = Ok content ->
         file_records f
         = (force_try_records f content ++ unwrap_records f content
              ++ print_records f content ++ long_file_records f content)%list)
  /\ (forall f content,
         (List.length (force_try_records f content) <= 1)%nat
         /\ (List.length (unwrap_records f content) <= 1)%nat
         /\ (List.length (print_records f content) <= 1)%nat
         /\ (List.length (long_file_records f content) <= 1)%nat)
  /\ (forall f, (List.length (file_records f) <= 4)%nat).
Proof.
  assert (Hall : forall files,
             DiagnosticsEngine.analyze_source_code files
             = flat_map file_records files).
  { intros files. unfold DiagnosticsEngine.analyze_source_code.
    now rewrite fold_scan_step. }
  assert (Hbad : forall f e,
             DiagnosticsEngine.read_text f = Raise e -> file_records f = []).
  { intros f e H.
    unfold file_records, DiagnosticsEngine.scan_step, DiagnosticsEngine.scan_file.
    now rewrite H. }
  assert (Hone : forall f content,
             (List.length (force_try_records f content) <= 1)%nat
             /\ (List.length (unwrap_records f content) <= 1)%nat
             /\ (List.length (print_records f content) <= 1)%nat
             /\ (List.length (long_file_records f content) <= 1)%nat).
  { intros f content.
    unfold force_try_records, unwrap_records, print_records, long_file_records.
    repeat split;
      match goal with |- context [if ?b then _ else _] => destruct b end;
      simpl; lia. }
  repeat split; try (apply Hone); auto using file_records_readable.
  - intros before f after e H.
    rewrite !Hall, !flat_map_app. cbn [flat_map].
    now rewrite (Hbad f e H).
  - intros f. destruct (DiagnosticsEngine.read_text f) as [content|e] eqn:E.
    + rewrite (file_records_readable f content E), !length_app.
      destruct (Hone f content) as (H1 & H2 & H3 & H4). lia.
    + rewrite (Hbad f e E). simpl; lia.
Qed.

Lemma source_scan_isolates_read_failures_witness :
  DiagnosticsEngine.analyze_source_code
    ([Sample.a_swift] ++ Sample.b_swift :: [Sample.c_swift])
  = DiagnosticsEngine.analyze_source_code ([Sample.a_swift] ++ [Sample.c_swift]).
Proof.
  apply (proj1 (proj2 (proj2 source_scan_isolates_read_failures))
           [Sample.a_swift] Sample.b_swift [Sample.c_swift]
           (UnicodeDecodeError "'utf-8' codec can't decode byte 0xff")).
  reflexivity.
Defined.

(* ----------------------------------------------------------------- *)
(** ** Command runner *)

Lemma str_of_os_error_populated (errno : Z) (strerror : string)
  (filename : option string) :
  CommandRunner.str_of_exn (OSError errno strerror filename) <> "".
Proof. destruct filename; discriminate. Qed.

Lemma read_lines_all {S : Type} (lines acc : list string) (st : S) :
  Forall (fun l => l <> "") lines ->
  CommandRunner.read_lines None (map Ok lines) acc st = (Ok (acc ++ lines)%list, st).
Proof.
  revert acc; induction lines as [|l lines IH]; intros acc H; cbn.
  - now rewrite app_nil_r.
  - inversion H as [|? ? Hl Hrest]; subst.
    destruct l as [|c l]; [congruence|].
    rewrite IH by assumption. now rewrite <- app_assoc.
Qed.

(** The loop passes over the lines the sink accepts. *)
Lemma read_lines_accepted {S : Type} (callback : option CommandRunner.sink)
  (lines : list string) (rest : list (result string)) (acc : list string)
  (st st' : S) :
  Forall (fun l => l <> "") lines ->
  accepted callback lines st st' ->
  CommandRunner.read_lines callback (map Ok lines ++ rest) acc st
  = CommandRunner.read_lines callback rest (acc ++ lines) st'.
Proof.
  intros Hne; revert acc st; induction Hne as [|l lines Hl _ IH]; intros acc st Ha.
  - rewrite app_nil_r. cbn [map app]. now inversion Ha; subst.
  - cbn [map app CommandRunner.read_lines].
    destruct l as [|c l]; [congruence|].
    inversion Ha as [ls s0|cb s0|cb l0 ls s0 s1 s2 Hcb Hrest]; subst.
    + rewrite (IH _ _ (accepted_none _ _)). now rewrite <- app_assoc.
    + rewrite Hcb, (IH _ _ Hrest). now rewrite <- app_assoc.
Qed.

(** How the loop ends, whatever [readline] and the sink do: at the end
    of the stream, on a read that fails, or on a line the sink refuses. *)
Lemma read_lines_cases {S : Type} (callback : option CommandRunner.sink)
  (reads : list (result string)) (st : S) :
  (exists lines rest st',
      gives_lines reads lines rest
      /\ (rest = [] \/ exists rest', rest = Ok "" :: rest')
      /\ accepted callback lines st st')
  \/ (exists lines e rest st',
         gives_lines reads lines (Raise e :: rest)
         /\ accepted callback lines st st')
  \/ (exists lines l rest cb st1 st2 e,
         callback = Some cb
         /\ gives_lines reads lines (Ok l :: rest)
         /\ l <> ""
         /\ accepted callback lines st st1
         /\ cb l st1 = (st2, Some e)).
Proof.
  revert st; induction reads as [|r reads IH]; intros st.
  - left. exists [], [], st. repeat split; [constructor | now left |].
    destruct callback; constructor.
  - destruct r as [l|e].
    + destruct l as [|c l].
      * left. exists [], (Ok "" :: reads), st.
        repeat split; [constructor | right; now eexists |].
        destruct callback; constructor.
      * assert (Hl : String c l <> "") by discriminate.
        destruct callback as [cb|].
        -- destruct (cb (String c l) st) as [st1 [e|]] eqn:E.
           ++ right. right. exists [], (String c l), reads, cb, st, st1, e.
              repeat split; try assumption; constructor.
           ++ destruct (IH st1)
                as [(ls & rest & st' & (-> & Hne) & Hend & Ha)
                   |[(ls & e & rest & st' & (-> & Hne) & Ha)
                    |(ls & l' & rest & cb' & s1 & s2 & e & Hcb & (-> & Hne) & Hl' & Ha & He)]].
              ** left. exists (String c l :: ls), rest, st'.
                 repeat split; try assumption; [now constructor|].
                 now apply (accepted_cons cb _ ls st st1 st').
              ** right. left. exists (String c l :: ls), e, rest, st'.
                 repeat split; [now constructor|].
                 now apply (accepted_cons cb _ ls st st1 st').
              ** right. right. injection Hcb as <-.
                 exists (String c l :: ls), l', rest, cb, s1, s2, e.
                 repeat split; try assumption; [now constructor|].
                 now apply (accepted_cons cb _ ls st st1 s1).
        -- destruct (IH st)
             as [(ls & rest & st' & (-> & Hne) & Hend & Ha)
                |[(ls & e & rest & st' & (-> & Hne) & Ha)
                 |(ls & l' & rest & cb' & s1 & s2 & e & Hcb & _)]];
             [| |discriminate].
           ++ left. exists (String c l :: ls), rest, st.
              repeat split; try assumption; [now constructor | constructor].
           ++ right. left. exists (String c l :: ls), e, rest, st.
              repeat split; [now constructor | constructor].
    + right. left. exists [], e, reads, st. repeat split; [constructor|].
      destruct callback; constructor.
Qed.

Lemma run_ran {S : Type} popen cmd cwd (callback : option CommandRunner.sink)
  (st st' : S) lines returncode :
  ran popen cmd cwd callback st lines returncode st' ->
  CommandRunner.run popen cmd cwd callback st
  = ((returncode =? 0, Str.join "" lines, ""), st').
Proof.
  intros (process & Hp & (rest & (Hr & Hne) & Hend) & Ha & Hw).
  unfold CommandRunner.run. rewrite Hp, Hr, (read_lines_accepted _ _ _ _ _ _ Hne Ha).
  cbn [app].
  destruct Hend as [->|[rest' ->]]; cbn [CommandRunner.read_lines];
    now rewrite Hw.
Qed.

Lemma run_fails {S : Type} popen cmd cwd (callback : option CommandRunner.sink)
  (st st' : S) (e : exn) :
  launch_fails popen cmd cwd st e st'
  \/ read_fails popen cmd cwd callback st e st'
  \/ sink_fails popen cmd cwd callback st e st'
  \/ wait_fails popen cmd cwd callback st e st' ->
  CommandRunner.run popen cmd cwd callback st
  = ((false, "", CommandRunner.str_of_exn e), st').
Proof.
  unfold CommandRunner.run.
  intros [[Hp ->]
         |[(process & lines & rest & Hp & (Hr & Hne) & Ha)
          |[(process & lines & l & rest & cb & st1 & Hp & -> & (Hr & Hne) & Hl & Ha & Hcb)
           |(process & lines & Hp & (rest & (Hr & Hne) & Hend) & Ha & Hw)]]];
    rewrite Hp; [reflexivity| | |];
    rewrite Hr, (read_lines_accepted _ _ _ _ _ _ Hne Ha); cbn [app].
  - reflexivity.
  - cbn [CommandRunner.read_lines]. destruct l as [|c l]; [congruence|].
    now rewrite Hcb.
  - destruct Hend as [->|[rest' ->]]; cbn [CommandRunner.read_lines];
      now rewrite Hw.
Qed.

Lemma run_cases {S : Type} popen cmd cwd (callback : option CommandRunner.sink)
  (st : S) :
  (exists lines returncode st', ran popen cmd cwd callback st lines returncode st')
  \/ exists e st',
       launch_fails popen cmd cwd st e st'
       \/ read_fails popen cmd cwd callback st e st'
       \/ sink_fails popen cmd cwd callback st e st'
       \/ wait_fails popen cmd cwd callback st e st'.
Proof.
  destruct (popen cmd cwd) as [process|e] eqn:Hp;
    [|right; exists e, st; left; now split].
  destruct (read_lines_cases callback (CommandRunner.readline process) st)
    as [(lines & rest & st' & Hg & Hend & Ha)
       |[(lines & e & rest & st' & Hg & Ha)
        |(lines & l & rest & cb & st1 & st2 & e & Hcb & Hg & Hl & Ha & He)]].
  - destruct (CommandRunner.wait process) as [rc|e] eqn:Hw.
    + left. exists lines, rc, st', process.
      repeat split; try assumption. now exists rest.
    + right. exists e, st'. right. right. right. exists process, lines.
      repeat split; try assumption. now exists rest.
  - right. exists e, st'. right. left. now exists process, lines, rest.
  - right. exists e, st2. right. right. left.
    now exists process, lines, l, rest, cb, st1.
Qed.

(** C8, as amended: [succeeded] is true exactly when the process ran to
    its end and its exit status is zero; whatever the exit status, the
    output printed is returned in full, each line in its place; when an
    exception ends the call - the launch fails, a read fails, the sink
    raises, [wait] fails - the call returns [(False, "", str(e))]
    instead of raising, and one of these five things always happens.
    The text [str(e)] is not empty for an [OSError] of the system, as a
    launch that fails raises; it is empty for an exception without a
    message. *)
Theorem run_reports_exit_status :
  forall (S : Type) popen cmd cwd (callback : option CommandRunner.sink) (st : S),
    (forall lines returncode st',
        ran popen cmd cwd callback st lines returncode st' ->
        CommandRunner.run popen cmd cwd callback st
        = ((returncode =? 0, Str.join "" lines, ""), st'))
    /\ (forall e st',
           launch_fails popen cmd cwd st e st'
           \/ read_fails popen cmd cwd callback st e st'
           \/ sink_fails popen cmd cwd callback st e st'
           \/ wait_fails popen cmd cwd callback st e st' ->
           CommandRunner.run popen cmd cwd callback st
           = ((false, "", CommandRunner.str_of_exn e), st'))
    /\ (fst (fst (fst (CommandRunner.run popen cmd cwd callback st))) = true
        <-> exists lines st', ran popen cmd cwd callback st lines 0 st')
    /\ ((exists lines returncode st',
            ran popen cmd cwd callback st lines returncode st')
        \/ exists e st',
             launch_fails popen cmd cwd st e st'
             \/ read_fails popen cmd cwd callback st e st'
             \/ sink_fails popen cmd cwd callback st e st'
             \/ wait_fails popen cmd cwd callback st e st')
    /\ (forall errno strerror filename,
           CommandRunner.str_of_exn (OSError errno strerror filename) <> "")
    /\ CommandRunner.str_of_exn (Exception "") = "".
Proof.
  intros S popen cmd cwd callback st.
  split; [intros lines rc st'; apply run_ran|].
  split; [intros e st'; apply run_fails|].
  split; [|split; [apply run_cases|split; [apply str_of_os_error_populated|reflexivity]]].
  split.
  - intros H.
    destruct (run_cases popen cmd cwd callback st)
      as [(lines & rc & st' & Hr)|(e & st' & Hf)].
    + rewrite (run_ran _ _ _ _ _ _ _ _ Hr) in H. cbn [fst] in H.
      apply Z.eqb_eq in H. subst rc. now exists lines, st'.
    + rewrite (run_fails _ _ _ _ _ _ _ Hf) in H. discriminate.
  - intros (lines & st' & Hr). now rewrite (run_ran _ _ _ _ _ _ _ _ Hr).
Qed.

Lemma run_reports_exit_status_witness :
  CommandRunner.run Sample.popen_failing ["xcodebuild"; "build"] "/p" None tt
  = ((65 =? 0,
      Str.join "" ["error: no such module" ++ String (ascii_of_nat 10) "";
                   "** BUILD FAILED **" ++ String (ascii_of_nat 10) ""],
      ""), tt)
  /\ CommandRunner.run Sample.popen_missing ["xcodebuild"; "build"] "/p" None tt
     = ((false, "", "[Errno 2] No such file or directory: 'xcodebuild'"), tt).
Proof.
  split.
  - apply (proj1 (run_reports_exit_status unit Sample.popen_failing
                    ["xcodebuild"; "build"] "/p" None tt)).
    exists Sample.failing_build. split; [reflexivity|]. split.
    + exists []. split; [|now left]. split; [reflexivity|].
      repeat constructor; discriminate.
    + split; [constructor | reflexivity].
  - apply (proj1 (proj2 (run_reports_exit_status unit Sample.popen_missing
                           ["xcodebuild"; "build"] "/p" None tt))
             (OSError 2 "No such file or directory" (Some "xcodebuild")) tt).
    left. split; reflexivity.
Defined.

(** C8, as stated, fails: the sink raises an exception without a message
    on the first line of a build, and the error returned is empty. *)
Lemma run_error_can_be_empty :
  CommandRunner.run Sample.popen_failing ["xcodebuild"; "build"] "/p"
                    (Some Sample.refusing_sink) tt
  = ((false, "", ""), tt).
Proof. reflexivity. Qed.

(* ----------------------------------------------------------------- *)
(** ** Report *)

Lemma success_rate_returns (passed total : Z) :
  ReportGenerator.success_rate passed total = Ok (rate_of passed total).
Proof.
  unfold ReportGenerator.success_rate, rate_of, ReportGenerator.truediv.
  destruct (0 <? total) eqn:E; [|reflexivity].
  apply Z.ltb_lt in E.
  destruct (Z.eqb_spec total 0); [lia | reflexivity].
Qed.

Lemma append_each_map {A : Type} (render : A -> ReportGenerator.fragment)
  (items : list A) (html : list ReportGenerator.fragment) :
  ReportGenerator.append_each render html items = (html ++ map render items)%list.
Proof.
  unfold ReportGenerator.append_each.
  revert html; induction items as [|x items IH]; intros html; simpl.
  - now rewrite app_nil_r.
  - rewrite IH. now rewrite <- app_assoc.
Qed.

Lemma generate_html_layout clock project_config tests issues build_success :
  ReportGenerator.generate_html clock project_config tests issues build_success
  = Ok ([ReportGenerator.Header
           (head_of clock project_config tests issues build_success)]
          ++ tests_section tests ++ issues_section issues
          ++ [ReportGenerator.Footer (ReportGenerator.year clock)])%list.
Proof.
  unfold ReportGenerator.generate_html.
  rewrite success_rate_returns. cbn [Py.bind].
  rewrite append_each_map.
  unfold tests_section, issues_section, head_of.
  destruct (50 <? ReportGenerator.len tests);
    destruct issues as [|i issues].
  all: try rewrite append_each_map.
  all: try destruct (100 <? ReportGenerator.len (i :: issues)).
  all: rewrite <- ?app_assoc; cbn [app]; rewrite ?app_nil_r; reflexivity.
Qed.

Lemma filter_issue_items (l : list DiagnosticIssue) :
  filter is_issue_part (map ReportGenerator.issue_item l)
  = map ReportGenerator.issue_item l.
Proof. induction l as [|i l IH]; simpl; [reflexivity | now rewrite IH]. Qed.

Lemma filter_issue_tests (l : list TestResult) :
  filter is_issue_part (map ReportGenerator.test_item l) = [].
Proof. induction l as [|t l IH]; simpl; [reflexivity | exact IH]. Qed.

Lemma filter_test_items (l : list TestResult) :
  filter is_test_part (map ReportGenerator.test_item l)
  = map ReportGenerator.test_item l.
Proof. induction l as [|t l IH]; simpl; [reflexivity | now rewrite IH]. Qed.

Lemma filter_test_issues (l : list DiagnosticIssue) :
  filter is_test_part (map ReportGenerator.issue_item l) = [].
Proof. induction l as [|i l IH]; simpl; [reflexivity | exact IH]. Qed.

Lemma shown_issues_layout clock project_config tests issues build_success doc :
  ReportGenerator.generate_html clock project_config tests issues build_success
  = Ok doc ->
  shown_issues doc
  = (map ReportGenerator.issue_item (firstn 100 issues)
       ++ (if 100 <? ReportGenerator.len issues
           then [ReportGenerator.MoreIssues (ReportGenerator.len issues - 100)]
           else []))%list.
Proof.
  rewrite generate_html_layout. intros H; inversion H; subst; clear H.
  unfold shown_issues, tests_section, issues_section.
  cbn [app filter is_issue_part].
  rewrite !filter_app, filter_issue_tests.
  destruct (50 <? ReportGenerator.len tests); destruct issues as [|i issues].
  all: cbn [app filter is_issue_part]; try reflexivity.
  all: rewrite ?filter_app, ?filter_issue_items.
  all: destruct (100 <? ReportGenerator.len (i :: issues)); cbn [filter is_issue_part app].
  all: rewrite ?app_nil_r; reflexivity.
Qed.

Lemma shown_tests_layout clock project_config tests issues build_success doc :
  ReportGenerator.generate_html clock project_config tests issues build_success
  = Ok doc ->
  shown_tests doc
  = (map ReportGenerator.test_item (firstn 50 tests)
       ++ (if 50 <? ReportGenerator.len tests
           then [ReportGenerator.MoreTests (ReportGenerator.len tests - 50)]
           else []))%list.
Proof.
  rewrite generate_html_layout. intros H; inversion H; subst; clear H.
  unfold shown_tests, tests_section, issues_section.
  cbn [app filter is_test_part].
  rewrite !filter_app, filter_test_items.
  destruct (50 <? ReportGenerator.len tests); destruct issues as [|i issues].
  all: cbn [filter is_test_part app]; rewrite ?app_nil_r; try reflexivity.
  all: rewrite ?filter_app, ?filter_test_issues.
  all: destruct (100 <? ReportGenerator.len (i :: issues)); cbn [filter is_test_part app].
  all: rewrite ?app_nil_r; reflexivity.
Qed.

(** C5: with more than 100 records the issue list of the document is
    the first 100 records, in their order, then one "N more" entry, N
    being the number of records left out, and "Issues Found" counts all
    of them; the same holds of the tests with a cap of 50.  The counts by
    severity are not in the document: two lists that differ in the
    severity of the 101st record only give the same document. *)
Theorem report_truncation :
  (forall clock project_config tests issues build_success,
      (100 < List.length issues)%nat ->
      exists doc,
        ReportGenerator.generate_html clock project_config tests issues build_success
        = Ok doc
        /\ shown_issues doc
           = (map ReportGenerator.issue_item (firstn 100 issues)
                ++ [ReportGenerator.MoreIssues (Z.of_nat (List.length issues - 100))])%list
        /\ List.length (firstn 100 issues) = 100%nat
        /\ shown_issues_found doc = Some (Z.of_nat (List.length issues)))
  /\ (forall clock project_config tests issues build_success,
         (50 < List.length tests)%nat ->
         exists doc,
           ReportGenerator.generate_html clock project_config tests issues build_success
           = Ok doc
           /\ shown_tests doc
              = (map ReportGenerator.test_item (firstn 50 tests)
                   ++ [ReportGenerator.MoreTests (Z.of_nat (List.length tests - 50))])%list
           /\ List.length (firstn 50 tests) = 50%nat)
  /\ (ReportGenerator.generate_html Sample.clock Sample.project []
        Sample.issues_101_critical false
      = ReportGenerator.generate_html Sample.clock Sample.project []
          Sample.issues_101_info false
      /\ ReportGenerator.count_severity "critical" Sample.issues_101_critical = 1
      /\ ReportGenerator.count_severity "critical" Sample.issues_101_info = 0
      /\ ReportGenerator.count_severity "info" Sample.issues_101_critical = 0
      /\ ReportGenerator.count_severity "info" Sample.issues_101_info = 1).
Proof.
  split; [|split].
  - intros clock pc tests issues b H.
    eexists; split; [apply generate_html_layout|].
    split; [|split].
    + rewrite (shown_issues_layout clock pc tests issues b _ (generate_html_layout _ _ _ _ _)).
      unfold ReportGenerator.len.
      replace (100 <? Z.of_nat (List.length issues)) with true
        by (symmetry; apply Z.ltb_lt; lia).
      do 3 f_equal. lia.
    + rewrite length_firstn. lia.
    + reflexivity.
  - intros clock pc tests issues b H.
    eexists; split; [apply generate_html_layout|].
    split.
    + rewrite (shown_tests_layout clock pc tests issues b _ (generate_html_layout _ _ _ _ _)).
      unfold ReportGenerator.len.
      replace (50 <? Z.of_nat (List.length tests)) with true
        by (symmetry; apply Z.ltb_lt; lia).
      do 3 f_equal. lia.
    + rewrite length_firstn. lia.
  - repeat split; vm_compute; reflexivity.
Qed.

Lemma report_truncation_witness :
  exists doc,
    ReportGenerator.generate_html Sample.clock Sample.project [] Sample.issues_120 false
    = Ok doc
    /\ shown_issues doc
       = (map ReportGenerator.issue_item (firstn 100 Sample.issues_120)
            ++ [ReportGenerator.MoreIssues (Z.of_nat (List.length Sample.issues_120 - 100))])%list
    /\ List.length (firstn 100 Sample.issues_120) = 100%nat
    /\ shown_issues_found doc = Some (Z.of_nat (List.length Sample.issues_120)).
Proof.
  apply (proj1 report_truncation). vm_compute. lia.
Defined.

Lemma round_half_even_nearest (num den : Z) :
  0 <= num -> 0 < den ->
  0 <= ReportGenerator.round_half_even num den
  /\ 2 * Z.abs (num - ReportGenerator.round_half_even num den * den) <= den.
Proof.
  intros Hn Hd. unfold ReportGenerator.round_half_even.
  pose proof (Z.div_mod num den ltac:(lia)) as E.
  pose proof (Z.mod_pos_bound num den Hd) as B.
  pose proof (Z.div_pos num den Hn Hd) as Q.
  destruct (Z.ltb_spec (2 * (num mod den)) den);
    [|destruct (Z.ltb_spec den (2 * (num mod den)));
      [|destruct (Z.even (num / den))]];
    split; nia.
Qed.

Lemma tenths_nearest (f : float) (s : bool) (n : Z) :
  ReportGenerator.tenths f = Some (s, n) ->
  0 <= n
  /\ forall m e,
       Prim2SF f = S754_finite s m e ->
       (0 <= e -> n = Z.pos m * 10 * 2 ^ e)
       /\ (e < 0 -> 2 * Z.abs (Z.pos m * 10 - n * 2 ^ (- e)) <= 2 ^ (- e)).
Proof.
  unfold ReportGenerator.tenths.
  destruct (Prim2SF f) as [s0|s0| |s0 m0 e0]; try discriminate.
  - intros [= <- <-]. split; [lia|]. intros m e He. discriminate.
  - destruct (Z.leb_spec 0 e0) as [He|He]; intros H.
    + assert (E : s0 = s /\ Z.pos m0 * 10 * 2 ^ e0 = n) by (split; congruence).
      clear H. destruct E as [<- <-].
      split; [pose proof (Z.pow_nonneg 2 e0 ltac:(lia)); nia|].
      intros m e Hm. assert (E : m0 = m /\ e0 = e) by (split; congruence).
      destruct E as [<- <-]. split; [reflexivity | lia].
    + assert (E : s0 = s
                  /\ ReportGenerator.round_half_even (Z.pos m0 * 10) (2 ^ (- e0)) = n)
        by (split; congruence).
      clear H. destruct E as [<- <-].
      assert (Hd : 0 < 2 ^ (- e0)) by (apply Z.pow_pos_nonneg; lia).
      destruct (round_half_even_nearest (Z.pos m0 * 10) (2 ^ (- e0))
                  ltac:(lia) Hd) as [Hn Hr].
      split; [exact Hn|].
      intros m e Hm. assert (E : m0 = m /\ e0 = e) by (split; congruence).
      destruct E as [<- <-]. split; [lia | intros _; exact Hr].
Qed.

Lemma one_digit (d : Z) : 0 <= d < 10 -> String.length (Str.str_of_Z d) = 1%nat.
Proof.
  intros H.
  assert (C : d = 0 \/ d = 1 \/ d = 2 \/ d = 3 \/ d = 4 \/ d = 5 \/ d = 6
              \/ d = 7 \/ d = 8 \/ d = 9) by lia.
  repeat (destruct C as [->|C]; [reflexivity|]). now subst.
Qed.

Lemma format_float_1f_shape (f : float) (s : bool) (n : Z) :
  ReportGenerator.tenths f = Some (s, n) ->
  exists whole digit,
    ReportGenerator.format_float_1f f = whole ++ "." ++ digit
    /\ String.length digit = 1%nat.
Proof.
  intros H. destruct (tenths_nearest f s n H) as [Hn _].
  unfold ReportGenerator.format_float_1f. rewrite H.
  exists ((if s then "-" else "") ++ Str.str_of_Z (n / 10)), (Str.str_of_Z (n mod 10)).
  split; [now rewrite append_assoc|].
  apply one_digit. apply Z.mod_pos_bound. lia.
Qed.

(** C6: a report without tests shows the success rate "0.0"; the report
    is always produced, so no division by zero is ever performed; with at
    least one test (and fewer than 2^53, where the conversion of the
    counts to [float] is exact) the rate shown is passed/total*100,
    computed on floats, with one digit after the point: the text of a
    finite [float] is a whole part, a point and one digit, and stands for
    the tenth nearest to the value of the [float]. *)
Theorem render_success_rate :
  forall clock project_config issues build_success,
    (exists doc,
        ReportGenerator.generate_html clock project_config [] issues build_success
        = Ok doc
        /\ shown_success_rate doc = Some "0.0")
    /\ (forall tests, exists doc,
           ReportGenerator.generate_html clock project_config tests issues build_success
           = Ok doc)
    /\ (forall tests,
           tests <> [] -> Z.of_nat (List.length tests) < 2 ^ 53 ->
           exists doc,
             ReportGenerator.generate_html clock project_config tests issues build_success
             = Ok doc
             /\ shown_success_rate doc
                = Some (ReportGenerator.format_float_1f
                          (PrimFloat.mul
                             (PrimFloat.div
                                (ReportGenerator.float_of_Z
                                   (TestParser.count_status "passed" tests))
                                (ReportGenerator.float_of_Z
                                   (Z.of_nat (List.length tests))))
                             (ReportGenerator.float_of_Z 100))))
    /\ (forall f s n,
           ReportGenerator.tenths f = Some (s, n) ->
           (exists whole digit,
               ReportGenerator.format_float_1f f = whole ++ "." ++ digit
               /\ String.length digit = 1%nat)
           /\ 0 <= n
           /\ forall m e,
                Prim2SF f = S754_finite s m e ->
                (0 <= e -> n = Z.pos m * 10 * 2 ^ e)
                /\ (e < 0 ->
                    2 * Z.abs (Z.pos m * 10 - n * 2 ^ (- e)) <= 2 ^ (- e))).
Proof.
  intros clock pc issues b. split; [|split; [|split]].
  4:{ intros f s n H. split; [now apply format_float_1f_shape with (s := s) (n := n)|].
      now apply tenths_nearest. }
  - eexists; split; [apply generate_html_layout|]. reflexivity.
  - intros tests. eexists. apply generate_html_layout.
  - intros tests H _. eexists; split; [apply generate_html_layout|].
    cbn [app shown_success_rate head_of ReportGenerator.h_success_rate].
    unfold rate_of, ReportGenerator.len.
    replace (0 <? Z.of_nat (List.length tests)) with true; [reflexivity|].
    symmetry; apply Z.ltb_lt. destruct tests; [congruence | simpl; lia].
Qed.

Lemma render_success_rate_witness :
  exists doc,
    ReportGenerator.generate_html Sample.clock Sample.project Sample.tests_3_of_4
      [] true = Ok doc
    /\ shown_success_rate doc = Some "75.0".
Proof.
  apply (proj1 (proj2 (proj2 (render_success_rate Sample.clock Sample.project [] true)))
           Sample.tests_3_of_4).
  - discriminate.
  - vm_compute. reflexivity.
Defined.

(* ----------------------------------------------------------------- *)
(** ** The matcher and the texts it accepts *)

Section MatcherFacts.
Context {R : Type}.
Implicit Types (k : @Re.cont R) (cls : ascii -> bool).

Lemma or_else_some (a b : option R) (x : R) :
  Re.or_else a b = Some x -> a = Some x \/ (a = None /\ b = Some x).
Proof. destruct a; simpl; intros H; [left | right]; auto. Qed.

Lemma or_else_none (a b : option R) :
  Re.or_else a b = None <-> a = None /\ b = None.
Proof. destruct a; simpl; split; (intuition congruence). Qed.

Lemma star_greedy_sound cls k s x :
  Re.star_greedy cls k s = Some x ->
  exists t r, Str.all_chars cls t = true /\ s = t ++ r /\ k t r = Some x.
Proof.
  revert k; induction s as [|c s IH]; intros k H; cbn [Re.star_greedy] in H.
  - now exists "", "".
  - destruct (cls c) eqn:C.
    + apply or_else_some in H. destruct H as [H|[_ H]].
      * destruct (IH _ H) as (t & r & Ht & -> & Hk).
        exists (String c t), r. cbn [Str.all_chars]. now rewrite C, Ht.
      * now exists "", (String c s).
    + now exists "", (String c s).
Qed.

Lemma star_greedy_complete cls k t r :
  Str.all_chars cls t = true -> k t r <> None ->
  Re.star_greedy cls k (t ++ r) <> None.
Proof.
  revert k; induction t as [|c t IH]; intros k Ht Hk.
  - cbn [append]. destruct r as [|c r]; cbn [Re.star_greedy]; [assumption|].
    destruct (cls c); [|assumption].
    rewrite or_else_none. tauto.
  - cbn [Str.all_chars] in Ht. apply andb_true_iff in Ht. destruct Ht as [C Ht].
    cbn [append Re.star_greedy]. rewrite C, or_else_none.
    intros [H _]. revert H. now apply IH.
Qed.

Lemma star_lazy_sound cls k s x :
  Re.star_lazy cls k s = Some x ->
  exists t r, Str.all_chars cls t = true /\ s = t ++ r /\ k t r = Some x.
Proof.
  revert k; induction s as [|c s IH]; intros k H; cbn [Re.star_lazy] in H;
    apply or_else_some in H; destruct H as [H|[_ H]].
  - now exists "", "".
  - discriminate.
  - now exists "", (String c s).
  - destruct (cls c) eqn:C; [|discriminate].
    destruct (IH _ H) as (t & r & Ht & -> & Hk).
    exists (String c t), r. cbn [Str.all_chars]. now rewrite C, Ht.
Qed.

Lemma star_lazy_complete cls k t r :
  Str.all_chars cls t = true -> k t r <> None ->
  Re.star_lazy cls k (t ++ r) <> None.
Proof.
  revert k; induction t as [|c t IH]; intros k Ht Hk.
  - cbn [append]. destruct r as [|c r]; cbn [Re.star_lazy];
      rewrite or_else_none; tauto.
  - cbn [Str.all_chars] in Ht. apply andb_true_iff in Ht. destruct Ht as [C Ht].
    cbn [append Re.star_lazy]. rewrite C, or_else_none.
    intros [_ H]. revert H. now apply IH.
Qed.

Lemma first_alt_sound alts k s x :
  Re.first_alt alts k s = Some x ->
  exists t r, In t alts /\ s = t ++ r /\ k t r = Some x.
Proof.
  induction alts as [|a alts IH]; cbn [Re.first_alt]; [discriminate|].
  intros H. apply or_else_some in H. destruct H as [H|[_ H]].
  - destruct (Str.strip_prefix a s) as [r|] eqn:E; [|discriminate].
    exists a, r. split; [now left|]. split; [now apply strip_prefix_inv | exact H].
  - destruct (IH H) as (t & r & Hin & Hs & Hk).
    exists t, r. split; [now right | auto].
Qed.

Lemma first_alt_complete alts k t r :
  In t alts -> k t r <> None -> Re.first_alt alts k (t ++ r) <> None.
Proof.
  induction alts as [|a alts IH]; [contradiction|].
  intros [->|Hin] Hk; cbn [Re.first_alt]; rewrite or_else_none.
  - rewrite strip_prefix_append. tauto.
  - intros [_ H]. revert H. now apply IH.
Qed.

Lemma match_atom_sound (a : Re.atom) k s x :
  Re.match_atom a k s = Some x ->
  exists t r, atom_text a t /\ s = t ++ r /\ k t r = Some x.
Proof.
  destruct a as [l|c|alts|cls [|]|cls]; cbn [Re.match_atom atom_text].
  - destruct (Str.strip_prefix l s) as [r|] eqn:E; [|discriminate].
    intros H. exists l, r. split; [reflexivity|].
    split; [now apply strip_prefix_inv | exact H].
  - destruct s as [|b s].
    + intros H. exists "", "". auto.
    + destruct (Ascii.eqb_spec b c) as [->|].
      * intros H. apply or_else_some in H. destruct H as [H|[_ H]].
        -- exists (String c ""), s. auto.
        -- exists "", (String c s). auto.
      * intros H. exists "", (String b s). auto.
  - apply first_alt_sound.
  - apply star_greedy_sound.
  - apply star_lazy_sound.
  - unfold Re.plus_greedy. destruct s as [|c s]; [discriminate|].
    destruct (cls c) eqn:C; [|discriminate].
    intros H. apply star_greedy_sound in H. destruct H as (t & r & Ht & -> & Hk).
    exists (String c t), r. cbn [Str.all_chars]. rewrite C, Ht.
    repeat split; auto. discriminate.
Qed.

Lemma match_atom_complete (a : Re.atom) k t r :
  atom_text a t -> k t r <> None -> Re.match_atom a k (t ++ r) <> None.
Proof.
  destruct a as [l|c|alts|cls [|]|cls]; cbn [Re.match_atom atom_text].
  - intros -> Hk. now rewrite strip_prefix_append.
  - intros [->| ->] Hk.
    + cbn [append]. destruct r as [|b r]; [assumption|].
      destruct (Ascii.eqb b c); [|assumption].
      rewrite or_else_none. tauto.
    + cbn [append]. rewrite Ascii.eqb_refl, or_else_none. tauto.
  - apply first_alt_complete.
  - apply star_greedy_complete.
  - apply star_lazy_complete.
  - intros [Ht Hne] Hk. destruct t as [|c t]; [congruence|].
    cbn [Str.all_chars] in Ht. apply andb_true_iff in Ht. destruct Ht as [C Ht].
    cbn [append]. unfold Re.plus_greedy. rewrite C.
    now apply star_greedy_complete.
Qed.

End MatcherFacts.

Lemma match_here_sound (p : Re.pattern) (s : string) gs after :
  Re.match_here p s = Some (gs, after) ->
  exists m, matches p m gs /\ s = m ++ after.
Proof.
  revert s gs after; induction p as [|it p IH]; intros s gs after H;
    cbn [Re.match_here] in H.
  - inversion H; subst. exists "". split; [constructor | reflexivity].
  - apply match_atom_sound in H. destruct H as (t & r & Ht & -> & Hk).
    destruct (Re.match_here p r) as [[gs' after']|] eqn:E; [|discriminate].
    inversion Hk; subst.
    destruct (IH _ _ _ E) as (m & Hm & ->).
    exists (t ++ m). split; [now constructor | now rewrite append_assoc].
Qed.

Lemma match_here_complete (p : Re.pattern) (m : string) gs rest :
  matches p m gs -> Re.match_here p (m ++ rest) <> None.
Proof.
  intros H; revert rest; induction H as [|it p t u gs Ht Hm IH]; intros rest.
  - discriminate.
  - cbn [Re.match_here]. rewrite append_assoc.
    apply match_atom_complete; [assumption|].
    specialize (IH rest).
    destruct (Re.match_here p (u ++ rest)) as [[gs' after]|]; [discriminate | congruence].
Qed.

(** [re.search] returns the groups of the leftmost match. *)
Lemma search_some (p : Re.pattern) (s : string) gs :
  Re.search p s = Some gs ->
  exists pre rest after,
    s = pre ++ rest
    /\ Re.match_here p rest = Some (gs, after)
    /\ forall pre1 pre2, pre = pre1 ++ pre2 -> pre2 <> "" ->
                         Re.match_here p (pre2 ++ rest) = None.
Proof.
  induction s as [|c s IH]; cbn [Re.search].
  - destruct (Re.match_here p "") as [[gs' after]|] eqn:E; [|discriminate].
    intros H; inversion H; subst. exists "", "", after.
    repeat split; auto. intros [|] [|]; simpl; congruence.
  - destruct (Re.match_here p (String c s)) as [[gs' after]|] eqn:E.
    + intros H; inversion H; subst. exists "", (String c s), after.
      repeat split; auto. intros [|] [|]; simpl; congruence.
    + intros H. destruct (IH H) as (pre & rest & after & -> & Hm & Hfirst).
      exists (String c pre), rest, after. repeat split; auto.
      intros pre1 pre2 Hp Hne. destruct pre1 as [|d pre1]; simpl in Hp.
      * subst pre2. exact E.
      * inversion Hp; subst. now apply (Hfirst pre1 pre2).
Qed.

Lemma search_none (p : Re.pattern) (s : string) :
  Re.search p s = None <->
  forall pre rest, s = pre ++ rest -> Re.match_here p rest = None.
Proof.
  induction s as [|c s IH]; cbn [Re.search].
  - destruct (Re.match_here p "") as [[gs after]|] eqn:E; split.
    + discriminate.
    + intros H. specialize (H "" "" eq_refl). congruence.
    + intros _ [|] [|]; simpl; congruence.
    + reflexivity.
  - destruct (Re.match_here p (String c s)) as [[gs after]|] eqn:E; split.
    + discriminate.
    + intros H. specialize (H "" (String c s) eq_refl). congruence.
    + intros H pre rest Hs. destruct pre as [|d pre]; simpl in Hs.
      * now subst rest.
      * inversion Hs; subst. apply (proj1 IH H pre rest eq_refl).
    + intros H. apply IH. intros pre rest ->.
      now apply (H (String c pre) rest).
Qed.

(** Each match of [re.finditer] is a match at some place of the text. *)
Lemma finditer_from_in (p : Re.pattern) (s : string) (skip : nat) gs :
  In gs (Re.finditer_from p skip s) ->
  exists pre rest after, s = pre ++ rest /\ Re.match_here p rest = Some (gs, after).
Proof.
  revert skip; induction s as [|c s IH]; intros skip.
  - destruct skip; cbn [Re.finditer_from]; [|contradiction].
    destruct (Re.match_here p "") as [[gs' after]|] eqn:E; [|contradiction].
    intros [<-|[]]. now exists "", "", after.
  - destruct skip; cbn [Re.finditer_from].
    + destruct (Re.match_here p (String c s)) as [[gs' after]|] eqn:E.
      * intros [<-|H]; [now exists "", (String c s), after|].
        destruct (IH _ H) as (pre & rest & after' & -> & Hm).
        now exists (String c pre), rest, after'.
      * intros H. destruct (IH _ H) as (pre & rest & after' & -> & Hm).
        now exists (String c pre), rest, after'.
    + intros H. destruct (IH _ H) as (pre & rest & after' & -> & Hm).
      now exists (String c pre), rest, after'.
Qed.

Lemma finditer_none (p : Re.pattern) (s : string) :
  (forall pre rest, s = pre ++ rest -> Re.match_here p rest = None) ->
  Re.finditer p s = [].
Proof.
  intros H. destruct (Re.finditer p s) as [|gs l] eqn:E; [reflexivity|].
  destruct (finditer_from_in p s 0 gs) as (pre & rest & after & Hs & Hm).
  - unfold Re.finditer in E. rewrite E. now left.
  - rewrite (H pre rest Hs) in Hm. discriminate.
Qed.

(* ----------------------------------------------------------------- *)
(** ** The summary line *)

Ltac invert_matches H :=
  inversion H; subst; clear H;
  cbn [Re.it_atom Re.it_group Re.plain Re.group atom_text] in *.

Lemma matches_summary_inv (m : string) (gs : list string) :
  matches TestParser.summary_pattern m gs ->
  exists d1 pl1 d2 pl2,
    m = summary_text d1 pl1 d2 pl2 /\ gs = [d1; d2]
    /\ is_count d1 /\ plural pl1 /\ is_count d2 /\ plural pl2.
Proof.
  unfold TestParser.summary_pattern. intros H.
  invert_matches H.
  match goal with H : matches _ _ _ |- _ => invert_matches H end.
  match goal with H : matches _ _ _ |- _ => invert_matches H end.
  match goal with H : matches _ _ _ |- _ => invert_matches H end.
  match goal with H : matches _ _ _ |- _ => invert_matches H end.
  match goal with H : matches _ _ _ |- _ => invert_matches H end.
  match goal with H : matches _ _ _ |- _ => invert_matches H end.
  match goal with H : matches _ _ _ |- _ => invert_matches H end.
  match goal with H : matches _ _ _ |- _ => invert_matches H end.
  match goal with
  | H1 : Str.all_chars Str.is_digit ?d1 = true /\ _,
    H2 : Str.all_chars Str.is_digit ?d2 = true /\ _,
    P1 : ?pl1 = "" \/ ?pl1 = "s",
    P2 : ?pl2 = "" \/ ?pl2 = "s" |- context [?d1 ++ " test" ++ ?pl1 ++ _ ++ ?d2 ++ _ ++ ?pl2 ++ _] =>
      exists d1, pl1, d2, pl2
  end.
  unfold summary_text, is_count, plural. rewrite append_empty_r.
  repeat split; tauto.
Qed.

Lemma matches_summary_intro (d1 pl1 d2 pl2 : string) :
  is_count d1 -> plural pl1 -> is_count d2 -> plural pl2 ->
  matches TestParser.summary_pattern (summary_text d1 pl1 d2 pl2) [d1; d2].
Proof.
  intros H1 P1 H2 P2. unfold TestParser.summary_pattern, summary_text.
  rewrite <- (append_empty_r pl2).
  apply (matches_cons (Re.plain (Re.Lit "Executed "))); [reflexivity|].
  apply (matches_cons (Re.group (Re.Plus Str.is_digit))); [exact H1|].
  apply (matches_cons (Re.plain (Re.Lit " test"))); [reflexivity|].
  apply (matches_cons (Re.plain (Re.Opt "s"))); [exact P1|].
  apply (matches_cons (Re.plain (Re.Lit ", with "))); [reflexivity|].
  apply (matches_cons (Re.group (Re.Plus Str.is_digit))); [exact H2|].
  apply (matches_cons (Re.plain (Re.Lit " failure"))); [reflexivity|].
  apply (matches_cons (Re.plain (Re.Opt "s"))); [exact P2|].
  constructor.
Qed.

(** A run of characters of a class ends where the first character
    outside the class stands. *)
Lemma run_unique (cls : ascii -> bool) (d d' : string) (c c' : ascii) (x x' : string) :
  Str.all_chars cls d = true -> Str.all_chars cls d' = true ->
  cls c = false -> cls c' = false ->
  d ++ String c x = d' ++ String c' x' ->
  d = d' /\ x = x'.
Proof.
  revert d'; induction d as [|a d IH]; intros [|a' d'] Hd Hd' Hc Hc' E;
    cbn [append Str.all_chars] in *.
  - inversion E; auto.
  - inversion E; subst. apply andb_true_iff in Hd'. destruct Hd' as [Ha _].
    congruence.
  - inversion E; subst. apply andb_true_iff in Hd. destruct Hd as [Ha _].
    congruence.
  - inversion E; subst.
    apply andb_true_iff in Hd, Hd'. destruct Hd as [_ Hd], Hd' as [_ Hd'].
    destruct (IH d' Hd Hd' Hc Hc' H1) as [-> ->]. auto.
Qed.

Lemma summary_text_unique d1 pl1 d2 pl2 rest d1' pl1' d2' pl2' rest' :
  is_count d1 -> plural pl1 -> is_count d2 ->
  is_count d1' -> plural pl1' -> is_count d2' ->
  summary_text d1 pl1 d2 pl2 ++ rest = summary_text d1' pl1' d2' pl2' ++ rest' ->
  d1 = d1' /\ d2 = d2'.
Proof.
  intros [H1 _] P1 [H2 _] [H1' _] P1' [H2' _].
  unfold summary_text. rewrite !append_assoc. cbn [append].
  intros E. injection E as E.
  apply run_unique with (cls := Str.is_digit) in E; auto.
  destruct E as [-> E]. split; [reflexivity|].
  injection E as E.
  assert (E' : d2 ++ String " " ("failure" ++ pl2 ++ rest)
               = d2' ++ String " " ("failure" ++ pl2' ++ rest')).
  { destruct P1 as [-> | ->], P1' as [-> | ->]; cbn [append] in E;
      try discriminate; now injection E. }
  apply run_unique with (cls := Str.is_digit) in E'; auto.
  now destruct E'.
Qed.

Lemma summary_at_unique (s : string) (N F N' F' : Z) :
  summary_at s N F -> summary_at s N' F' -> N = N' /\ F = F'.
Proof.
  intros (d1 & pl1 & d2 & pl2 & rest & -> & H1 & P1 & H2 & P2 & -> & ->)
         (d1' & pl1' & d2' & pl2' & rest' & E & H1' & P1' & H2' & P2' & -> & ->).
  destruct (summary_text_unique _ _ _ _ _ _ _ _ _ _ H1 P1 H2 H1' P1' H2' E)
    as [-> ->].
  auto.
Qed.

Lemma match_summary_sound (s : string) gs after :
  Re.match_here TestParser.summary_pattern s = Some (gs, after) ->
  summary_at s (Str.int_of_digits (Re.group_of 1 gs))
               (Str.int_of_digits (Re.group_of 2 gs)).
Proof.
  intros H. apply match_here_sound in H. destruct H as (m & Hm & ->).
  apply matches_summary_inv in Hm.
  destruct Hm as (d1 & pl1 & d2 & pl2 & -> & -> & H1 & P1 & H2 & P2).
  exists d1, pl1, d2, pl2, after. repeat split; auto; apply H1 || apply H2.
Qed.

Lemma match_summary_complete (s : string) (N F : Z) :
  summary_at s N F ->
  exists gs after,
    Re.match_here TestParser.summary_pattern s = Some (gs, after)
    /\ Str.int_of_digits (Re.group_of 1 gs) = N
    /\ Str.int_of_digits (Re.group_of 2 gs) = F.
Proof.
  intros H.
  assert (H' := H).
  destruct H' as (d1 & pl1 & d2 & pl2 & rest & -> & H1 & P1 & H2 & P2 & _ & _).
  pose proof (match_here_complete _ _ _ rest (matches_summary_intro _ _ _ _ H1 P1 H2 P2)) as C.
  destruct (Re.match_here TestParser.summary_pattern (summary_text d1 pl1 d2 pl2 ++ rest))
    as [[gs after]|] eqn:E; [|congruence].
  exists gs, after. split; [reflexivity|].
  apply match_summary_sound in E.
  destruct (summary_at_unique _ _ _ _ _ E H) as [-> ->]. auto.
Qed.

Lemma match_summary_none (s : string) :
  Re.match_here TestParser.summary_pattern s = None <->
  forall N F, ~ summary_at s N F.
Proof.
  split.
  - intros H N F HS. apply match_summary_complete in HS.
    destruct HS as (gs & after & E & _). congruence.
  - intros H.
    destruct (Re.match_here TestParser.summary_pattern s) as [[gs after]|] eqn:E;
      [|reflexivity].
    apply match_summary_sound in E. now apply H in E.
Qed.

Lemma search_first (p : Re.pattern) (pre rest : string) gs after :
  Re.match_here p rest = Some (gs, after) ->
  (forall pre1 pre2, pre = pre1 ++ pre2 -> pre2 <> "" ->
                     Re.match_here p (pre2 ++ rest) = None) ->
  Re.search p (pre ++ rest) = Some gs.
Proof.
  intros Hm. induction pre as [|c pre IH]; intros Hfirst.
  - cbn [append]. destruct rest; cbn [Re.search]; now rewrite Hm.
  - cbn [append Re.search].
    assert (H0 : Re.match_here p (String c pre ++ rest) = None)
      by (apply (Hfirst "" (String c pre) eq_refl); discriminate).
    cbn [append] in H0. rewrite H0.
    apply IH. intros pre1 pre2 -> Hne.
    now apply (Hfirst (String c pre1) pre2).
Qed.

(** [re.search] on the summary pattern finds the first summary. *)
Lemma search_summary_first (output : string) (N F : Z) :
  first_summary output N F ->
  exists gs,
    Re.search TestParser.summary_pattern output = Some gs
    /\ Str.int_of_digits (Re.group_of 1 gs) = N
    /\ Str.int_of_digits (Re.group_of 2 gs) = F.
Proof.
  intros (pre & rest & -> & HS & Hfirst).
  apply match_summary_complete in HS. destruct HS as (gs & after & Hm & HN & HF).
  exists gs. split; [|auto].
  apply (search_first _ _ _ _ after Hm).
  intros pre1 pre2 Hp Hne. apply match_summary_none.
  intros N' F'. now apply (Hfirst pre1 pre2).
Qed.

Lemma search_summary_none (output : string) :
  Re.search TestParser.summary_pattern output = None <-> ~ has_summary output.
Proof.
  rewrite search_none. split.
  - intros H (pre & rest & N & F & Hs & HS).
    specialize (H pre rest Hs). rewrite match_summary_none in H.
    now apply (H N F).
  - intros H pre rest Hs. apply match_summary_none. intros N F HS.
    apply H. now exists pre, rest, N, F.
Qed.


Lemma search_summary_some (output : string) gs :
  Re.search TestParser.summary_pattern output = Some gs ->
  first_summary output (Str.int_of_digits (Re.group_of 1 gs))
                       (Str.int_of_digits (Re.group_of 2 gs)).
Proof.
  intros E. apply search_some in E.
  destruct E as (pre & rest & after & -> & Hm & Hfirst).
  exists pre, rest. split; [reflexivity|]. split.
  - now apply match_summary_sound in Hm.
  - intros pre1 pre2 N' F' Hp Hne.
    now apply match_summary_none, (Hfirst pre1 pre2).
Qed.

(* ----------------------------------------------------------------- *)
(** ** The parser *)

Lemma parse_results_totals_aux output tests total passed failed :
  TestParser.parse_results output = Ok (tests, total, passed, failed) ->
  forall N F, first_summary output N F ->
              total = N /\ failed = F /\ passed = N - F.
Proof.
  intros H N F HS. unfold TestParser.parse_results in H.
  destruct (TestParser.collect (Re.finditer TestParser.pattern output) [])
    as [ts|e]; cbn [Py.bind] in H; [|discriminate].
  apply search_summary_first in HS.
  destruct HS as (gs & E & <- & <-). rewrite E in H.
  inversion H; auto.
Qed.



(** The two examples of the specification. *)
Example parse_summary_overrides :
  TestParser.parse_results Sample.log_with_summary
  = Ok (Sample.tests_with_summary, 12, 9, 3).
Proof. vm_compute. reflexivity. Qed.

Example parse_counts_records :
  exists tests,
    TestParser.parse_results Sample.log_without_summary = Ok (tests, 4, 3, 1)
    /\ List.length tests = 4%nat.
Proof. eexists. split; vm_compute; reflexivity. Qed.

Lemma matches_test_case_inv (m : string) (gs : list string) :
  matches TestParser.pattern m gs ->
  exists n st d,
    gs = [n; st; d] /\ (st = "passed" \/ st = "failed")
    /\ Str.all_chars TestParser.digit_or_dot d = true /\ d <> "".
Proof.
  unfold TestParser.pattern. intros H.
  invert_matches H.
  match goal with H : matches _ _ _ |- _ => invert_matches H end.
  match goal with H : matches _ _ _ |- _ => invert_matches H end.
  match goal with H : matches _ _ _ |- _ => invert_matches H end.
  match goal with H : matches _ _ _ |- _ => invert_matches H end.
  match goal with H : matches _ _ _ |- _ => invert_matches H end.
  match goal with H : matches _ _ _ |- _ => invert_matches H end.
  match goal with H : matches _ _ _ |- _ => invert_matches H end.
  do 3 eexists. split; [reflexivity|].
  match goal with H : In _ _ |- _ => cbn [In] in H end.
  intuition auto.
Qed.

Lemma collect_statuses (ms : list (list string)) (acc tests : list TestResult) :
  (forall m, In m ms ->
             Re.group_of 2 m = "passed" \/ Re.group_of 2 m = "failed") ->
  Forall known_status acc ->
  TestParser.collect ms acc = Ok tests ->
  Forall known_status tests.
Proof.
  revert acc; induction ms as [|m ms IH]; intros acc Hms Hacc H;
    cbn [TestParser.collect] in H.
  - now inversion H; subst.
  - unfold TestParser.test_of_match in H.
    destruct (Str.float_of_text (Re.group_of 3 m)) as [d|e];
      cbn [Py.bind] in H; [|discriminate].
    apply IH in H; auto.
    + intros m' Hin. apply Hms. now right.
    + apply Forall_app. split; [assumption|].
      constructor; [|constructor]. apply Hms. now left.
Qed.

Lemma count_status_partition (tests : list TestResult) :
  Forall known_status tests ->
  Z.of_nat (List.length tests)
  = TestParser.count_status "passed" tests + TestParser.count_status "failed" tests.
Proof.
  unfold TestParser.count_status.
  induction 1 as [|t tests Ht _ IH]; [reflexivity|].
  cbn [filter List.length].
  destruct Ht as [-> | ->]; cbn [String.eqb Ascii.eqb Bool.eqb];
    cbn [List.length]; lia.
Qed.

Lemma parsed_statuses (output : string) (tests : list TestResult) :
  TestParser.collect (Re.finditer TestParser.pattern output) [] = Ok tests ->
  Forall known_status tests.
Proof.
  apply collect_statuses; [|constructor].
  intros m Hin. apply finditer_from_in in Hin.
  destruct Hin as (pre & rest & after & _ & Hm).
  apply match_here_sound in Hm. destruct Hm as (t & Hm & _).
  apply matches_test_case_inv in Hm.
  destruct Hm as (n & st & d & -> & Hst & _). exact Hst.
Qed.

(** C9: whenever [parse_results] returns, total = passed + failed, on
    each of the three branches. *)
Theorem parse_results_total_is_sum :
  forall output tests total passed failed,
    TestParser.parse_results output = Ok (tests, total, passed, failed) ->
    total = passed + failed.
Proof.
  intros output tests total passed failed H.
  unfold TestParser.parse_results in H.
  destruct (TestParser.collect (Re.finditer TestParser.pattern output) [])
    as [ts|e] eqn:C; cbn [Py.bind] in H; [|discriminate].
  destruct (Re.search TestParser.summary_pattern output) as [gs|].
  - inversion H; subst. lia.
  - destruct ts as [|t ts]; inversion H; subst; [reflexivity|].
    apply (count_status_partition (t :: ts)).
    now apply parsed_statuses with (output := output).
Qed.

Lemma parse_results_total_is_sum_witness :
  TestParser.parse_results Sample.log_without_summary
  = Ok (Sample.tests_without_summary, 4, 3, 1)
  /\ 4 = 3 + 1.
Proof.
  assert (H : TestParser.parse_results Sample.log_without_summary
              = Ok (Sample.tests_without_summary, 4, 3, 1))
    by (vm_compute; reflexivity).
  split; [exact H|].
  exact (parse_results_total_is_sum _ _ _ _ _ H).
Defined.

Lemma no_test_case_iff (output : string) :
  Re.search TestParser.pattern output = None <-> ~ has_test_case output.
Proof.
  rewrite search_none. split.
  - intros H (pre & rest & Hs & m & gs & after & -> & Hm).
    specialize (H pre _ Hs).
    now apply (match_here_complete _ _ _ after) in Hm.
  - intros H pre rest Hs.
    destruct (Re.match_here TestParser.pattern rest) as [[gs after]|] eqn:E;
      [|reflexivity].
    apply match_here_sound in E. destruct E as (m & Hm & ->).
    exfalso. apply H. exists pre, (m ++ after). split; [assumption|].
    now exists m, gs, after.
Qed.

Lemma collect_returns_iff (ms : list (list string)) (acc : list TestResult) :
  (exists tests, TestParser.collect ms acc = Ok tests) <-> Forall good_duration ms.
Proof.
  revert acc; induction ms as [|m ms IH]; intros acc; cbn [TestParser.collect].
  - split; [constructor | now exists acc].
  - unfold TestParser.test_of_match.
    destruct (Str.float_of_text (Re.group_of 3 m)) as [d|e] eqn:E;
      cbn [Py.bind].
    + rewrite IH. split.
      * intros H. constructor; [|assumption]. unfold good_duration. now rewrite E.
      * intros H. now inversion H.
    + split.
      * intros [tests H]. discriminate.
      * intros H. inversion H as [|? ? Hm _]; subst.
        unfold good_duration in Hm. rewrite E in Hm. discriminate.
Qed.

Lemma parse_results_returns_iff (output : string) :
  (exists r, TestParser.parse_results output = Ok r)
  <-> Forall good_duration (Re.finditer TestParser.pattern output).
Proof.
  rewrite <- (collect_returns_iff _ []). unfold TestParser.parse_results.
  destruct (TestParser.collect (Re.finditer TestParser.pattern output) [])
    as [ts|e]; cbn [Py.bind].
  - split; [intros _; now exists ts|]. intros _.
    destruct (Re.search TestParser.summary_pattern output);
      [|destruct ts]; eexists; reflexivity.
  - split; intros [r H]; discriminate.
Qed.

(** C2: [parse_results] raises [ValueError] on a test-case line whose
    duration text holds two dots, where the specification wants the line
    rejected; it returns exactly when every matched duration text is one
    [float] accepts.  A text without a test-case line and without a
    summary gives no record and three zeros. *)
Theorem parse_results_raises_on_bad_duration :
  TestParser.parse_results Sample.log_bad_duration
  = Raise (ValueError "could not convert string to float: '1.2.3'")
  /\ (forall output,
         (exists r, TestParser.parse_results output = Ok r)
         <-> Forall good_duration (Re.finditer TestParser.pattern output))
  /\ (forall output,
         ~ has_test_case output -> ~ has_summary output ->
         TestParser.parse_results output = Ok ([], 0, 0, 0))
  /\ TestParser.parse_results "" = Ok ([], 0, 0, 0).
Proof.
  split; [vm_compute; reflexivity|].
  split; [exact parse_results_returns_iff|].
  split; [|reflexivity].
  intros output Ht Hs.
  apply no_test_case_iff in Ht. apply search_summary_none in Hs.
  unfold TestParser.parse_results.
  rewrite finditer_none by (now apply search_none).
  cbn [TestParser.collect Py.bind]. now rewrite Hs.
Qed.

Lemma parse_results_raises_on_bad_duration_witness :
  TestParser.parse_results "ld: symbol(s) not found for architecture arm64"
  = Ok ([], 0, 0, 0).
Proof.
  apply (proj1 (proj2 (proj2 parse_results_raises_on_bad_duration))).
  - apply no_test_case_iff. vm_compute. reflexivity.
  - apply search_summary_none. vm_compute. reflexivity.
Defined.

(** C10: the counts of the summary are not checked against each other:
    when the first summary reports more failures than tests, passed is
    negative; "Executed 1 test, with 2 failures" gives passed = -1. *)
Theorem parse_results_passed_can_be_negative :
  (forall output tests total passed failed N F,
      TestParser.parse_results output = Ok (tests, total, passed, failed) ->
      first_summary output N F -> N < F ->
      passed = N - F /\ passed < 0)
  /\ TestParser.parse_results "Executed 1 test, with 2 failures"
     = Ok ([], 1, -1, 2).
Proof.
  split; [|vm_compute; reflexivity].
  intros output tests total passed failed N F H HS Hlt.
  destruct (parse_results_totals_aux output tests total passed failed H N F HS)
    as (_ & _ & ->).
  lia.
Qed.

Lemma parse_results_passed_can_be_negative_witness :
  -1 = 1 - 2 /\ -1 < 0.
Proof.
  apply (proj1 parse_results_passed_can_be_negative
           "Executed 1 test, with 2 failures" [] 1 (-1) 2 1 2).
  - vm_compute. reflexivity.
  - apply (search_summary_some "Executed 1 test, with 2 failures" ["1"; "2"]).
    vm_compute. reflexivity.
  - lia.
Defined.

(* ----------------------------------------------------------------- *)
(** ** The names of the records *)

Lemma last_two_of_normalize (ident : string) :
  last_two_of ident (TestParser.normalize_name ident).
Proof.
  destruct normalize_name_cases as (Hjoin & Hdot & Hless).
  destruct (Str.contains "." ident) eqn:E.
  - right. destruct (Hdot ident) as (cs & suite & case & -> & Hcs & Hs & Hc).
    + unfold dotless. now rewrite E.
    + exists cs, suite, case. repeat split; try assumption. now apply Hjoin.
  - left. split; [exact E | now apply Hless].
Qed.

Lemma last_two_of_unique (ident kept : string) :
  last_two_of ident kept -> kept = TestParser.normalize_name ident.
Proof.
  destruct normalize_name_cases as (Hjoin & _ & Hless).
  intros [[H ->]|(cs & suite & case & -> & Hcs & Hs & Hc & ->)].
  - symmetry. now apply Hless.
  - symmetry. now apply Hjoin.
Qed.

Lemma matches_test_case_text (m : string) (gs : list string) :
  matches TestParser.pattern m gs ->
  exists n st d, gs = [n; st; d] /\ m = test_case_line n st d.
Proof.
  unfold TestParser.pattern. intros H.
  invert_matches H.
  match goal with H : matches _ _ _ |- _ => invert_matches H end.
  match goal with H : matches _ _ _ |- _ => invert_matches H end.
  match goal with H : matches _ _ _ |- _ => invert_matches H end.
  match goal with H : matches _ _ _ |- _ => invert_matches H end.
  match goal with H : matches _ _ _ |- _ => invert_matches H end.
  match goal with H : matches _ _ _ |- _ => invert_matches H end.
  match goal with H : matches _ _ _ |- _ => invert_matches H end.
  do 3 eexists. split; reflexivity.
Qed.

Lemma collect_names (ms : list (list string)) (acc tests : list TestResult) :
  TestParser.collect ms acc = Ok tests ->
  exists added,
    tests = (acc ++ added)%list
    /\ Forall2 (fun m t => name t = TestParser.normalize_name (Re.group_of 1 m)
                           /\ status t = Re.group_of 2 m)
               ms added.
Proof.
  revert acc; induction ms as [|m ms IH]; intros acc H;
    cbn [TestParser.collect] in H.
  - injection H as <-. exists []. split; [now rewrite app_nil_r | constructor].
  - unfold TestParser.test_of_match in H.
    destruct (Str.float_of_text (Re.group_of 3 m)) as [d|e];
      cbn [Py.bind] in H; [|discriminate].
    destruct (IH _ H) as (added & -> & Hadded).
    eexists. rewrite <- app_assoc. split; [reflexivity|].
    constructor; [|exact Hadded]. now split.
Qed.

Lemma all_chars_weaken (p q : ascii -> bool) (s : string) :
  Str.all_chars p s = true ->
  (forall c, p c = true -> q c = true) ->
  Str.all_chars q s = true.
Proof.
  intros H Hpq. induction s as [|c s IH]; [reflexivity|].
  cbn [Str.all_chars] in *. apply andb_true_iff in H. destruct H as [Hc Hs].
  now rewrite (Hpq _ Hc), (IH Hs).
Qed.

Lemma all_chars_split (p : ascii -> bool) (a b : string) :
  Str.all_chars p (a ++ b) = Str.all_chars p a && Str.all_chars p b.
Proof.
  induction a as [|x a IH]; cbn [append Str.all_chars]; [reflexivity|].
  now rewrite IH, andb_assoc.
Qed.

(** The lazy repetition passes over a text after no place of which the
    rest of the pattern matches. *)
Lemma star_lazy_passes {R : Type} (cls : ascii -> bool) (k : Re.cont (R := R))
  (ident tail : string) :
  Str.all_chars cls ident = true ->
  (forall a c b, ident = a ++ String c b -> k a (String c b ++ tail) = None) ->
  Re.star_lazy cls k (ident ++ tail)
  = Re.star_lazy cls (fun t r => k (ident ++ t) r) tail.
Proof.
  revert k; induction ident as [|c ident IH]; intros k Hcls Hk; [reflexivity|].
  cbn [Str.all_chars] in Hcls. apply andb_true_iff in Hcls.
  destruct Hcls as [Hc Hcls].
  cbn [append Re.star_lazy].
  pose proof (Hk "" c ident eq_refl) as H0. cbn [append] in H0.
  rewrite H0. cbn [Re.or_else]. rewrite Hc.
  rewrite (IH (fun t r => k (String c t) r) Hcls); [reflexivity|].
  intros a c' b ->. exact (Hk (String c a) c' b eq_refl).
Qed.

(** The greedy repetition takes a whole run when what follows the
    pattern matches after it. *)
Lemma star_greedy_run {R : Type} (cls : ascii -> bool) (k : Re.cont (R := R))
  (d tail : string) (x : R) :
  Str.all_chars cls d = true ->
  k d tail = Some x ->
  (tail = "" \/ exists c t, tail = String c t /\ cls c = false) ->
  Re.star_greedy cls k (d ++ tail) = Some x.
Proof.
  revert k; induction d as [|c d IH]; intros k Hcls Hk Htail.
  - cbn [append]. destruct Htail as [->|(c & t & -> & Hc)];
      cbn [Re.star_greedy]; [|rewrite Hc]; exact Hk.
  - cbn [Str.all_chars] in Hcls. apply andb_true_iff in Hcls.
    destruct Hcls as [Hc Hcls].
    cbn [append Re.star_greedy]. rewrite Hc.
    now rewrite (IH (fun t r => k (String c t) r) Hcls Hk Htail).
Qed.

(** An identifier the pattern reads whole: it holds no single quote and
    no line feed. *)
Lemma match_here_test_case (ident st dur rest : string) :
  plain_identifier ident ->
  st = "passed" \/ st = "failed" ->
  Str.all_chars TestParser.digit_or_dot dur = true -> dur <> "" ->
  Re.match_here TestParser.pattern (test_case_line ident st dur ++ rest)
  = Some ([ident; st; dur], rest).
Proof.
  intros Hid Hst Hdur Hne.
  assert (E : test_case_line ident st dur ++ rest
              = "Test Case '" ++ (ident ++ ("' " ++ (st ++ (" (" ++ (dur ++ (" seconds)" ++ rest))))))).
  { unfold test_case_line. now rewrite !append_assoc. }
  rewrite E. unfold TestParser.pattern.
  cbn [Re.match_here Re.match_atom Re.it_atom Re.it_group Re.plain Re.group].
  rewrite strip_prefix_append.
  rewrite star_lazy_passes.
  - destruct dur as [|c dur]; [congruence|].
    cbn [Str.all_chars] in Hdur. apply andb_true_iff in Hdur.
    destruct Hdur as [Hc Hdur].
    assert (G : forall (k : Re.cont (R := list string * string)) x,
               k (String c dur) (" seconds)" ++ rest) = Some x ->
               Re.plus_greedy TestParser.digit_or_dot k
                              (String c dur ++ (" seconds)" ++ rest)) = Some x).
    { intros k x Hk. cbn [append Re.plus_greedy]. rewrite Hc.
      apply (star_greedy_run _ (fun t r => k (String c t) r)); [assumption|exact Hk|].
      right. now exists " "%char, ("seconds)" ++ rest). }
    destruct Hst as [-> | ->].
    + cbn [append Re.star_lazy Str.strip_prefix Ascii.eqb Bool.eqb
             Re.first_alt Re.or_else].
      erewrite G; cycle 1.
      { cbn [append Str.strip_prefix Ascii.eqb Bool.eqb Re.match_here
               Re.match_atom Re.it_atom Re.it_group Re.plain Re.group].
        reflexivity. }
      cbn [Re.or_else]. now rewrite append_empty_r.
    + cbn [append Re.star_lazy Str.strip_prefix Ascii.eqb Bool.eqb
             Re.first_alt Re.or_else].
      erewrite G; cycle 1.
      { cbn [append Str.strip_prefix Ascii.eqb Bool.eqb Re.match_here
               Re.match_atom Re.it_atom Re.it_group Re.plain Re.group].
        reflexivity. }
      cbn [Re.or_else]. now rewrite append_empty_r.
  - apply (all_chars_weaken _ _ _ Hid). intros a Ha.
    now apply andb_true_iff in Ha.
  - intros a c b ->. unfold plain_identifier in Hid.
    rewrite all_chars_split in Hid. apply andb_true_iff in Hid.
    destruct Hid as [_ Hid]. cbn [Str.all_chars] in Hid.
    apply andb_true_iff in Hid. destruct Hid as [Hc _].
    apply andb_true_iff in Hc. destruct Hc as [Hq _].
    apply negb_true_iff in Hq.
    cbn [append Re.match_here Re.match_atom Re.it_atom Re.plain Str.strip_prefix].
    rewrite Ascii.eqb_sym in Hq.
    assert (Hq' : Ascii.eqb "'" c = false) by exact Hq.
    now rewrite Hq'.
Qed.

Lemma finditer_from_skip_all (p : Re.pattern) (s : string) :
  Re.finditer_from p (String.length s) s = Re.finditer_from p 0 "".
Proof. induction s as [|c s IH]; [reflexivity | exact IH]. Qed.

Lemma float_of_text_shape (dur : string) (d : Q) :
  Str.float_of_text dur = Ok d ->
  Str.all_chars TestParser.digit_or_dot dur = true /\ dur <> "".
Proof.
  unfold Str.float_of_text.
  destruct (Str.all_chars (fun c => Str.is_digit c || Str.is_dot c) dur) eqn:A;
    [|discriminate].
  destruct (Str.count_char Str.is_dot dur <=? 1)%nat; [|discriminate].
  destruct (1 <=? Str.count_char Str.is_digit dur)%nat eqn:C; [|discriminate].
  intros _. split; [exact A|]. intros ->. discriminate.
Qed.

(** A log of one test-case line gives one match. *)
Lemma finditer_test_case (ident st dur : string) :
  plain_identifier ident ->
  st = "passed" \/ st = "failed" ->
  Str.all_chars TestParser.digit_or_dot dur = true -> dur <> "" ->
  Re.finditer TestParser.pattern (test_case_line ident st dur) = [[ident; st; dur]].
Proof.
  intros Hid Hst Hdur Hne.
  pose proof (match_here_test_case ident st dur "" Hid Hst Hdur Hne) as Hm.
  rewrite append_empty_r in Hm.
  assert (E : exists s', test_case_line ident st dur = String "T" s')
    by (eexists; reflexivity).
  destruct E as [s' E]. rewrite E in *.
  unfold Re.finditer. cbn [Re.finditer_from]. rewrite Hm.
  cbn [String.length].
  replace (S (String.length s') - 0 - 1)%nat with (String.length s') by lia.
  now rewrite finditer_from_skip_all.
Qed.

Lemma parse_results_test_case (ident st dur : string) (d : Q) :
  plain_identifier ident ->
  st = "passed" \/ st = "failed" ->
  Str.float_of_text dur = Ok d ->
  exists total passed failed,
    TestParser.parse_results (test_case_line ident st dur)
    = Ok ([ {| name := TestParser.normalize_name ident; status := st;
               duration := d |} ], total, passed, failed).
Proof.
  intros Hid Hst Hd.
  destruct (float_of_text_shape dur d Hd) as [Hdur Hne].
  unfold TestParser.parse_results.
  rewrite (finditer_test_case ident st dur Hid Hst Hdur Hne).
  cbn [TestParser.collect]. unfold TestParser.test_of_match.
  cbn [Re.group_of Nat.pred nth]. rewrite Hd. cbn [Py.bind app].
  destruct (Re.search TestParser.summary_pattern (test_case_line ident st dur));
    do 3 eexists; reflexivity.
Qed.

(** C3: the names of the records [parse_results] returns.  There is one
    record for each match of the test-case pattern, in order; each match
    stands in the output as a test-case line, and the name of its record
    is what the specification keeps of the identifier of that line: the
    identifier itself when it holds no dot, its last two dot-separated
    components joined by a dot otherwise.  A log that is one test-case
    line, whatever its identifier (without a single quote or a line
    feed), its status and its duration, gives one record, of that name.
    What the specification keeps is one name only.  The two examples of
    the specification. *)
Theorem parse_results_keeps_last_two :
  (forall output tests total passed failed,
      TestParser.parse_results output = Ok (tests, total, passed, failed) ->
      Forall2 (fun m t => last_two_of (Re.group_of 1 m) (name t))
              (Re.finditer TestParser.pattern output) tests
      /\ Forall (fun m =>
                   exists pre rest,
                     output = pre ++ test_case_line (Re.group_of 1 m) (Re.group_of 2 m)
                                                    (Re.group_of 3 m) ++ rest)
                (Re.finditer TestParser.pattern output))
  /\ (forall ident st dur d,
         plain_identifier ident ->
         st = "passed" \/ st = "failed" ->
         Str.float_of_text dur = Ok d ->
         exists kept total passed failed,
           TestParser.parse_results (test_case_line ident st dur)
           = Ok ([ {| name := kept; status := st; duration := d |} ],
                 total, passed, failed)
           /\ last_two_of ident kept)
  /\ (forall ident kept kept',
         last_two_of ident kept -> last_two_of ident kept' -> kept = kept')
  /\ TestParser.parse_results
       (test_case_line "MyAppTests.LoginTests.testValidLogin" "passed" "0.5")
     = Ok ([ {| name := "LoginTests.testValidLogin"; status := "passed";
                duration := 1 # 2 |} ], 1, 1, 0)
  /\ TestParser.parse_results (test_case_line "testSomething" "failed" "2")
     = Ok ([ {| name := "testSomething"; status := "failed";
                duration := 2 # 1 |} ], 1, 0, 1).
Proof.
  split; [|split; [|split; [|split; reflexivity]]].
  - intros output tests total passed failed H. split.
    + unfold TestParser.parse_results in H.
      destruct (TestParser.collect (Re.finditer TestParser.pattern output) [])
        as [ts|e] eqn:C; cbn [Py.bind] in H; [|discriminate].
      assert (E : tests = ts).
      { destruct (Re.search TestParser.summary_pattern output);
          [|destruct ts]; congruence. }
      subst ts. destruct (collect_names _ _ _ C) as (added & E & F).
      cbn [app] in E. subst added.
      eapply Forall2_impl; [|exact F].
      intros m t [Hn _]. rewrite Hn. apply last_two_of_normalize.
    + apply Forall_forall. intros m Hin.
      apply finditer_from_in in Hin.
      destruct Hin as (pre & rest & after & -> & Hm).
      apply match_here_sound in Hm. destruct Hm as (text & Hm & ->).
      apply matches_test_case_text in Hm.
      destruct Hm as (n & st & d & -> & ->).
      now exists pre, after.
  - intros ident st dur d Hid Hst Hd.
    destruct (parse_results_test_case ident st dur d Hid Hst Hd)
      as (total & passed & failed & H).
    exists (TestParser.normalize_name ident), total, passed, failed.
    split; [exact H | apply last_two_of_normalize].
  - intros ident kept kept' H H'.
    now rewrite (last_two_of_unique _ _ H), (last_two_of_unique _ _ H').
Qed.

Lemma parse_results_keeps_last_two_witness :
  exists kept total passed failed,
    TestParser.parse_results
      (test_case_line "MyAppTests.LoginTests.testEmptyPassword" "failed" "1.5")
    = Ok ([ {| name := kept; status := "failed"; duration := 3 # 2 |} ],
          total, passed, failed)
    /\ last_two_of "MyAppTests.LoginTests.testEmptyPassword" kept.
Proof.
  apply (proj1 (proj2 parse_results_keeps_last_two)).
  - reflexivity.
  - now right.
  - reflexivity.
Defined.

(* ================================================================= *)
(** * Further properties *)

(** ** Texts, continued *)

Section SplitFacts.
Variable c : ascii.

Lemma split_pieces_free (s : string) : Forall (free_of c) (Str.split c s).
Proof.
  induction s as [|a s IH]; cbn [Str.split].
  - repeat constructor.
  - destruct (Ascii.eqb a c) eqn:E.
    + constructor; [reflexivity | assumption].
    + destruct (Str.split c s) as [|h t]; [repeat constructor|].
      * unfold free_of. cbn [Str.all_chars]. now rewrite E.
      * inversion IH as [|? ? Hh Ht]; subst. constructor; [|assumption].
        unfold free_of in *. cbn [Str.all_chars]. now rewrite E, Hh.
Qed.

Lemma split_free (s : string) : free_of c s -> Str.split c s = [s].
Proof.
  unfold free_of. induction s as [|a s IH]; [reflexivity|].
  cbn [Str.all_chars Str.split]. intros H.
  apply andb_true_iff in H. destruct H as [Ha Hs].
  apply negb_true_iff in Ha. rewrite Ha. now rewrite (IH Hs).
Qed.

Lemma split_append_sep (a b : string) :
  Str.split c (a ++ String c b) = (Str.split c a ++ Str.split c b)%list.
Proof.
  induction a as [|x a IH]; cbn [append Str.split].
  - now rewrite Ascii.eqb_refl.
  - rewrite IH. destruct (Ascii.eqb x c); [reflexivity|].
    pose proof (split_not_nil c a) as Hnil.
    destruct (Str.split c a) as [|h t]; [congruence | reflexivity].
Qed.

Lemma split_head_prefix (s h : string) (t : list string) :
  Str.split c s = h :: t -> exists post, s = h ++ post.
Proof.
  revert h t; induction s as [|a s IH]; intros h t; cbn [Str.split].
  - intros [= <- <-]. now exists "".
  - destruct (Ascii.eqb a c).
    + intros [= <- <-]. now exists (String a s).
    + destruct (Str.split c s) as [|h' t'] eqn:E.
      * intros [= <- <-]. pose proof (split_not_nil c s). congruence.
      * intros [= <- <-]. destruct (IH _ _ eq_refl) as [post ->].
        now exists post.
Qed.

Lemma split_piece_inside (s p : string) :
  In p (Str.split c s) -> exists pre post, s = pre ++ p ++ post.
Proof.
  revert p; induction s as [|a s IH]; intros p; cbn [Str.split].
  - intros [<-|[]]. now exists "", "".
  - destruct (Ascii.eqb a c).
    + intros [<-|H].
      * now exists "", (String a s).
      * destruct (IH _ H) as (pre & post & ->). now exists (String a pre), post.
    + destruct (Str.split c s) as [|h t] eqn:E.
      * intros [<-|[]]. pose proof (split_not_nil c s). congruence.
      * intros [<-|H].
        -- destruct (split_head_prefix _ _ _ E) as [post ->].
           now exists "", post.
        -- destruct (IH _ (or_intror H)) as (pre & post & ->).
           now exists (String a pre), post.
Qed.

Lemma split_last_suffix_strong (s : string) :
  exists pre,
    s = pre ++ last (Str.split c s) ""
    /\ (List.length (Str.split c s) = 1%nat -> pre = "").
Proof.
  induction s as [|a s IH]; cbn [Str.split].
  - exists "". split; reflexivity.
  - destruct IH as (pre & IH & Hone).
    pose proof (split_not_nil c s) as Hnil.
    destruct (Ascii.eqb a c).
    + destruct (Str.split c s) as [|h t] eqn:E; [congruence|].
      exists (String a pre). split.
      * cbn [append]. f_equal. exact IH.
      * cbn [List.length]. discriminate.
    + destruct (Str.split c s) as [|h t] eqn:E; [congruence|].
      destruct t as [|h' t].
      * exists "". split; [|reflexivity].
        cbn [last append] in *. rewrite (Hone eq_refl) in IH.
        cbn [append] in IH. now rewrite <- IH.
      * exists (String a pre). split.
        -- cbn [append]. f_equal. exact IH.
        -- cbn [List.length]. discriminate.
Qed.

Lemma split_last_suffix (s : string) :
  exists pre, s = pre ++ last (Str.split c s) "".
Proof. destruct (split_last_suffix_strong s) as (pre & H & _). now exists pre. Qed.

End SplitFacts.

Lemma all_chars_append (p : ascii -> bool) (a b : string) :
  Str.all_chars p (a ++ b) = Str.all_chars p a && Str.all_chars p b.
Proof.
  induction a as [|x a IH]; cbn [append Str.all_chars]; [reflexivity|].
  now rewrite IH, andb_assoc.
Qed.

Lemma count_char_append (p : ascii -> bool) (a b : string) :
  Str.count_char p (a ++ b) = (Str.count_char p a + Str.count_char p b)%nat.
Proof.
  induction a as [|x a IH]; cbn [append Str.count_char]; [reflexivity|].
  rewrite IH. lia.
Qed.

Lemma dotless_count (s : string) : dotless s -> Str.count_char Str.is_dot s = 0%nat.
Proof.
  unfold dotless. induction s as [|a s IH]; [reflexivity|].
  rewrite contains_dot_cons, orb_false_iff. intros [Ha Hs].
  cbn [Str.count_char]. rewrite Ha, (IH Hs). reflexivity.
Qed.

(* ----------------------------------------------------------------- *)
(** ** Name normalization, continued *)

Lemma normalize_name_join (cs : list string) (suite case : string) :
  Forall dotless cs -> dotless suite -> dotless case ->
  TestParser.normalize_name (Str.join "." (cs ++ [suite; case]))
  = suite ++ "." ++ case.
Proof.
  intros Hcs Hs Hc. unfold TestParser.normalize_name.
  rewrite contains_dot_join, split_join.
  - rewrite length_app. cbn [List.length].
    replace (2 <=? List.length cs + 2)%nat with true
      by (symmetry; apply Nat.leb_le; lia).
    replace (List.length cs + 2 - 2)%nat with (List.length cs + 0)%nat by lia.
    replace (List.length cs + 2 - 1)%nat with (List.length cs + 1)%nat by lia.
    now rewrite !app_nth2_plus.
  - now destruct cs.
  - apply Forall_app; split; [assumption|]. now repeat constructor.
Qed.

Lemma dotted_components (s : string) :
  Str.contains "." s = true ->
  exists cs a b,
    s = Str.join "." (cs ++ [a; b])
    /\ Forall dotless cs /\ dotless a /\ dotless b.
Proof.
  intros H.
  destruct (last_two _ (split_length_dotted _ H)) as (cs & a & b & E).
  pose proof (split_all_dotless s) as Hall. rewrite E in Hall.
  apply Forall_app in Hall. destruct Hall as [Hcs Hab].
  inversion Hab as [|? ? Ha Hb']; subst. inversion Hb' as [|? ? Hb _]; subst.
  exists cs, a, b. rewrite <- E, join_split. auto.
Qed.

Lemma join_components_suffix (cs : list string) (a b : string) :
  exists pre, Str.join "." (cs ++ [a; b]) = pre ++ a ++ "." ++ b.
Proof.
  induction cs as [|p cs IH].
  - now exists "".
  - destruct IH as [pre IH].
    change ((p :: cs) ++ [a; b])%list with (p :: (cs ++ [a; b]))%list.
    rewrite join_cons by (destruct cs; discriminate).
    rewrite IH. exists (p ++ "." ++ pre). now rewrite !append_assoc.
Qed.

Lemma normalize_name_shape :
  forall ident,
    TestParser.normalize_name (TestParser.normalize_name ident)
    = TestParser.normalize_name ident
    /\ (Str.count_char Str.is_dot (TestParser.normalize_name ident) <= 1)%nat
    /\ exists dropped, ident = dropped ++ TestParser.normalize_name ident.
Proof.
  intros ident. destruct (Str.contains "." ident) eqn:E.
  - destruct (dotted_components _ E) as (cs & a & b & -> & Hcs & Ha & Hb).
    rewrite (normalize_name_join cs a b Hcs Ha Hb).
    split; [|split].
    + apply (normalize_name_join [] a b); auto.
    + rewrite !count_char_append, (dotless_count a Ha), (dotless_count b Hb).
      cbn. lia.
    + apply join_components_suffix.
  - assert (H : TestParser.normalize_name ident = ident)
      by (unfold TestParser.normalize_name; now rewrite E).
    rewrite !H. split; [reflexivity|]. split.
    + rewrite (dotless_count ident E). lia.
    + now exists "".
Qed.

(** X1: normalizing a name twice is normalizing it once; the name kept
    is the end of the identifier and holds one dot at most. *)
Theorem normalize_name_idempotent :
  forall ident,
    TestParser.normalize_name (TestParser.normalize_name ident)
    = TestParser.normalize_name ident
    /\ (Str.count_char Str.is_dot (TestParser.normalize_name ident) <= 1)%nat
    /\ exists dropped, ident = dropped ++ TestParser.normalize_name ident.
Proof. exact normalize_name_shape. Qed.

(* ----------------------------------------------------------------- *)
(** ** The parser, continued *)

Lemma matches_test_case_groups (m : string) (gs : list string) :
  matches TestParser.pattern m gs ->
  exists n st d,
    gs = [n; st; d]
    /\ Str.all_chars TestParser.not_newline n = true
    /\ (st = "passed" \/ st = "failed")
    /\ Str.all_chars TestParser.digit_or_dot d = true.
Proof.
  unfold TestParser.pattern. intros H.
  invert_matches H.
  match goal with H : matches _ _ _ |- _ => invert_matches H end.
  match goal with H : matches _ _ _ |- _ => invert_matches H end.
  match goal with H : matches _ _ _ |- _ => invert_matches H end.
  match goal with H : matches _ _ _ |- _ => invert_matches H end.
  match goal with H : matches _ _ _ |- _ => invert_matches H end.
  match goal with H : matches _ _ _ |- _ => invert_matches H end.
  match goal with H : matches _ _ _ |- _ => invert_matches H end.
  do 3 eexists. split; [reflexivity|].
  match goal with H : In _ _ |- _ => cbn [In] in H end.
  intuition auto.
Qed.

Lemma digits_without_dot (s : string) :
  Str.all_chars (fun c => Str.is_digit c || Str.is_dot c) s = true ->
  Str.count_char Str.is_dot s = 0%nat ->
  Str.all_chars Str.is_digit s = true.
Proof.
  induction s as [|c s IH]; [reflexivity|]. cbn [Str.all_chars Str.count_char].
  intros H Hc. apply andb_true_iff in H. destruct H as [Hd Hs].
  destruct (Str.is_dot c); [discriminate|].
  rewrite orb_false_r in Hd. rewrite Hd. cbn [andb]. apply IH; [assumption | lia].
Qed.

Lemma before_after_digits (s : string) :
  Str.all_chars (fun c => Str.is_digit c || Str.is_dot c) s = true ->
  (Str.count_char Str.is_dot s <= 1)%nat ->
  Str.all_chars Str.is_digit (Str.before_dot s) = true
  /\ Str.all_chars Str.is_digit (Str.after_dot s) = true.
Proof.
  induction s as [|c s IH]; [split; reflexivity|].
  cbn [Str.all_chars Str.count_char Str.before_dot Str.after_dot].
  intros H Hc. apply andb_true_iff in H. destruct H as [Hd Hs].
  destruct (Str.is_dot c) eqn:E.
  - split; [reflexivity|]. apply digits_without_dot; [assumption | lia].
  - rewrite orb_false_r in Hd. destruct (IH Hs ltac:(lia)) as [Hb Ha].
    split; [|assumption]. cbn [Str.all_chars]. now rewrite Hd, Hb.
Qed.

Lemma int_acc_nonneg (s : string) (acc : Z) :
  Str.all_chars Str.is_digit s = true -> 0 <= acc -> 0 <= Str.int_acc acc s.
Proof.
  revert acc; induction s as [|c s IH]; intros acc H Hacc; cbn [Str.int_acc];
    [assumption|].
  cbn [Str.all_chars] in H. apply andb_true_iff in H. destruct H as [Hc Hs].
  apply IH; [assumption|].
  unfold Str.is_digit, Str.in_range in Hc. apply andb_true_iff in Hc.
  destruct Hc as [Hlo _]. apply N.leb_le in Hlo.
  unfold Str.digit_value. lia.
Qed.

Lemma int_of_digits_nonneg (s : string) :
  Str.all_chars Str.is_digit s = true -> 0 <= Str.int_of_digits s.
Proof. intros H. now apply int_acc_nonneg. Qed.

Lemma float_of_text_nonneg (s : string) (q : Q) :
  Str.float_of_text s = Ok q -> (0 <= q)%Q.
Proof.
  unfold Str.float_of_text.
  destruct (Str.all_chars (fun c => Str.is_digit c || Str.is_dot c) s) eqn:A;
    [|discriminate].
  destruct (Str.count_char Str.is_dot s <=? 1)%nat eqn:B; [|discriminate].
  destruct (1 <=? Str.count_char Str.is_digit s)%nat; [|discriminate].
  cbn [andb]. intros H.
  set (x := Qmake (Str.int_of_digits (Str.before_dot s ++ Str.after_dot s))
                  (Str.pow10 (String.length (Str.after_dot s)))) in H.
  assert (E : q = Qred x) by congruence. rewrite E. clear H E.
  apply Nat.leb_le in B. destruct (before_after_digits s A B) as [Hb Ha].
  apply Qle_trans with (y := x);
    [|apply Qle_lteq; right; symmetry; apply Qred_correct].
  subst x. unfold Qle. cbn [Qnum Qden].
  assert (0 <= Str.int_of_digits (Str.before_dot s ++ Str.after_dot s)).
  { apply int_of_digits_nonneg. now rewrite all_chars_append, Hb, Ha. }
  lia.
Qed.

Lemma collect_invariant (P : TestResult -> Prop) (ms : list (list string))
  (acc tests : list TestResult) :
  (forall m t, In m ms -> TestParser.test_of_match m = Ok t -> P t) ->
  Forall P acc ->
  TestParser.collect ms acc = Ok tests ->
  Forall P tests.
Proof.
  revert acc; induction ms as [|m ms IH]; intros acc Hms Hacc H;
    cbn [TestParser.collect] in H.
  - now inversion H; subst.
  - destruct (TestParser.test_of_match m) as [t|e] eqn:E;
      cbn [Py.bind] in H; [|discriminate].
    apply IH in H; auto.
    + intros m' t' Hin. apply Hms. now right.
    + apply Forall_app. split; [assumption|].
      constructor; [|constructor]. apply (Hms m); [now left | assumption].
Qed.

(** X2: every record [parse_results] returns has the status "passed" or
    "failed", a duration that is not negative and a name of one line
    with one dot at most. *)
Theorem parse_results_records_well_formed :
  forall output tests total passed failed,
    TestParser.parse_results output = Ok (tests, total, passed, failed) ->
    Forall well_formed_record tests.
Proof.
  intros output tests total passed failed H.
  unfold TestParser.parse_results in H.
  destruct (TestParser.collect (Re.finditer TestParser.pattern output) [])
    as [ts|e] eqn:C; cbn [Py.bind] in H; [|discriminate].
  assert (ts = tests) as <-.
  { destruct (Re.search TestParser.summary_pattern output);
      [|destruct ts]; now inversion H. }
  clear H. revert C. apply collect_invariant; [|constructor].
  intros m t Hin Ht. apply finditer_from_in in Hin.
  destruct Hin as (pre & rest & after & _ & Hm).
  apply match_here_sound in Hm. destruct Hm as (txt & Hm & _).
  apply matches_test_case_groups in Hm.
  destruct Hm as (n & st & d & -> & Hn & Hst & _).
  unfold TestParser.test_of_match in Ht. cbn [Re.group_of Nat.pred nth] in Ht.
  destruct (Str.float_of_text d) as [q|e] eqn:F; cbn [Py.bind] in Ht;
    [|discriminate].
  inversion Ht; subst; clear Ht.
  destruct (normalize_name_shape n) as (_ & Hdots & dropped & Hn').
  repeat split; cbn [status duration name].
  - exact Hst.
  - now apply float_of_text_nonneg with (s := d).
  - exact Hdots.
  - rewrite Hn' in Hn. rewrite all_chars_append in Hn.
    apply andb_true_iff in Hn. tauto.
Qed.

Lemma parse_results_records_well_formed_witness :
  Forall well_formed_record Sample.tests_with_summary.
Proof.
  apply (parse_results_records_well_formed Sample.log_with_summary
           Sample.tests_with_summary 12 9 3).
  vm_compute. reflexivity.
Defined.

Lemma summary_counts_nonneg (s : string) (N F : Z) :
  summary_at s N F -> 0 <= N /\ 0 <= F.
Proof.
  intros (d1 & pl1 & d2 & pl2 & rest & _ & [H1 _] & _ & [H2 _] & _ & -> & ->).
  split; now apply int_of_digits_nonneg.
Qed.

Lemma count_status_bounds (st : string) (tests : list TestResult) :
  0 <= TestParser.count_status st tests <= Z.of_nat (List.length tests).
Proof.
  unfold TestParser.count_status.
  pose proof (filter_length_le (fun t => String.eqb (status t) st) tests). lia.
Qed.

(** X3: the total and the failed count [parse_results] returns are never
    negative; without a summary the passed count is between zero and the
    total.  (With a summary passed may be negative: C10.) *)
Theorem parse_results_counts_non_negative :
  forall output tests total passed failed,
    TestParser.parse_results output = Ok (tests, total, passed, failed) ->
    0 <= total /\ 0 <= failed
    /\ (~ has_summary output -> 0 <= passed <= total /\ failed <= total).
Proof.
  intros output tests total passed failed H.
  unfold TestParser.parse_results in H.
  destruct (TestParser.collect (Re.finditer TestParser.pattern output) [])
    as [ts|e]; cbn [Py.bind] in H; [|discriminate].
  destruct (Re.search TestParser.summary_pattern output) as [gs|] eqn:E.
  - apply search_summary_some in E. destruct E as (pre & rest & -> & HS & _).
    pose proof (summary_counts_nonneg _ _ _ HS) as [HN HF].
    inversion H; subst.
    split; [exact HN|]. split; [exact HF|].
    intros Hno. exfalso. apply Hno.
    exists pre, rest. eauto.
  - destruct ts as [|t ts].
    + inversion H; subst. repeat split; lia.
    + assert (E' : total = Z.of_nat (List.length (t :: ts))
                   /\ passed = TestParser.count_status "passed" (t :: ts)
                   /\ failed = TestParser.count_status "failed" (t :: ts))
        by (repeat split; congruence).
      destruct E' as (-> & -> & ->).
      pose proof (count_status_bounds "passed" (t :: ts)).
      pose proof (count_status_bounds "failed" (t :: ts)).
      repeat split; lia.
Qed.

Lemma parse_results_counts_non_negative_witness :
  0 <= 4 /\ 0 <= 1
  /\ (~ has_summary Sample.log_without_summary -> 0 <= 3 <= 4 /\ 1 <= 4).
Proof.
  apply (parse_results_counts_non_negative Sample.log_without_summary
           Sample.tests_without_summary 4 3 1).
  vm_compute. reflexivity.
Defined.

(* ----------------------------------------------------------------- *)
(** ** Build-output scan, continued *)

Lemma flat_map_length_le {A B : Type} (f : A -> list B) (l : list A) (n : nat) :
  (forall x, List.length (f x) <= n)%nat ->
  (List.length (flat_map f l) <= n * List.length l)%nat.
Proof.
  intros H. induction l as [|x l IH]; cbn [flat_map List.length]; [lia|].
  rewrite length_app. specialize (H x). lia.
Qed.

(** X4: the scan of a text cut at a line feed is the scan of the first
    part followed by the scan of the second; a scan never gives more
    records than the text has lines. *)
Theorem build_scan_by_chunks :
  forall a b,
    DiagnosticsEngine.analyze_build_output (a ++ String DiagnosticsEngine.newline b)
    = (DiagnosticsEngine.analyze_build_output a
         ++ DiagnosticsEngine.analyze_build_output b)%list
    /\ (List.length (DiagnosticsEngine.analyze_build_output a)
        <= List.length (Str.split DiagnosticsEngine.newline a))%nat.
Proof.
  intros a b. unfold DiagnosticsEngine.analyze_build_output.
  rewrite !fold_scan_line. cbn [app]. split.
  - now rewrite split_append_sep, flat_map_app.
  - pose proof (flat_map_length_le (DiagnosticsEngine.scan_line [])
                  (Str.split DiagnosticsEngine.newline a) 1) as H.
    rewrite Nat.mul_1_l in H. apply H. intros l.
    unfold DiagnosticsEngine.scan_line.
    destruct (Str.contains "error:" (Str.lower l)); [simpl; lia|].
    destruct (Str.contains "warning:" (Str.lower l)); simpl; lia.
Qed.

(* ----------------------------------------------------------------- *)
(** ** Report, continued *)

Lemma shown_issues_of_layout clock pc tests issues b :
  exists doc,
    ReportGenerator.generate_html clock pc tests issues b = Ok doc
    /\ header_of doc = Some (head_of clock pc tests issues b)
    /\ shown_issues doc
       = (map ReportGenerator.issue_item (firstn 100 issues)
            ++ (if 100 <? ReportGenerator.len issues
                then [ReportGenerator.MoreIssues (ReportGenerator.len issues - 100)]
                else []))%list
    /\ shown_tests doc
       = (map ReportGenerator.test_item (firstn 50 tests)
            ++ (if 50 <? ReportGenerator.len tests
                then [ReportGenerator.MoreTests (ReportGenerator.len tests - 50)]
                else []))%list.
Proof.
  eexists. split; [apply generate_html_layout|]. split; [reflexivity|]. split.
  - apply (shown_issues_layout clock pc tests issues b), generate_html_layout.
  - apply (shown_tests_layout clock pc tests issues b), generate_html_layout.
Qed.

(** X5: up to the caps nothing is left out and no "more" entry is shown:
    100 records or fewer are all listed, 50 tests or fewer are all
    listed; whatever the input, the issue list has 101 entries at most
    and the test grid 51. *)
Theorem report_lists_within_caps :
  forall clock project_config tests issues build_success,
  exists doc,
    ReportGenerator.generate_html clock project_config tests issues build_success
    = Ok doc
    /\ ((List.length issues <= 100)%nat ->
        shown_issues doc = map ReportGenerator.issue_item issues)
    /\ ((List.length tests <= 50)%nat ->
        shown_tests doc = map ReportGenerator.test_item tests)
    /\ (List.length (shown_issues doc) <= 101)%nat
    /\ (List.length (shown_tests doc) <= 51)%nat.
Proof.
  intros clock pc tests issues b.
  destruct (shown_issues_of_layout clock pc tests issues b)
    as (doc & Hdoc & _ & Hi & Ht).
  exists doc. split; [exact Hdoc|]. rewrite Hi, Ht.
  unfold ReportGenerator.len. repeat split.
  - intros H. rewrite firstn_all2 by lia.
    replace (100 <? Z.of_nat (List.length issues)) with false
      by (symmetry; apply Z.ltb_ge; lia).
    apply app_nil_r.
  - intros H. rewrite firstn_all2 by lia.
    replace (50 <? Z.of_nat (List.length tests)) with false
      by (symmetry; apply Z.ltb_ge; lia).
    apply app_nil_r.
  - rewrite length_app, length_map, length_firstn.
    destruct (100 <? Z.of_nat (List.length issues)); cbn [List.length]; lia.
  - rewrite length_app, length_map, length_firstn.
    destruct (50 <? Z.of_nat (List.length tests)); cbn [List.length]; lia.
Qed.

Lemma report_lists_within_caps_witness :
  exists doc,
    ReportGenerator.generate_html Sample.clock Sample.project Sample.tests_3_of_4
      [Sample.issue "critical"] false = Ok doc
    /\ shown_issues doc = map ReportGenerator.issue_item [Sample.issue "critical"]
    /\ shown_tests doc = map ReportGenerator.test_item Sample.tests_3_of_4.
Proof.
  destruct (report_lists_within_caps Sample.clock Sample.project
              Sample.tests_3_of_4 [Sample.issue "critical"] false)
    as (doc & Hdoc & Hi & Ht & _).
  exists doc. split; [exact Hdoc|]. split.
  - apply Hi. cbn. lia.
  - apply Ht. cbn. lia.
Defined.

Lemma count_status_disjoint (tests : list TestResult) :
  TestParser.count_status "passed" tests + TestParser.count_status "failed" tests
  <= Z.of_nat (List.length tests).
Proof.
  unfold TestParser.count_status.
  induction tests as [|t tests IH]; [cbn; lia|].
  cbn [filter List.length].
  destruct (String.eqb_spec (status t) "passed") as [E|E].
  - rewrite E. cbn [String.eqb Ascii.eqb Bool.eqb]. cbn [List.length]. lia.
  - destruct (String.eqb (status t) "failed"); cbn [List.length]; lia.
Qed.

(** X6: the header of a report counts the tests it is given: passed and
    failed never exceed the total, and on the records [parse_results]
    returned they add up to it, the total being the number of records
    whatever the summary of the log said. *)
Theorem report_header_counts :
  forall clock project_config tests issues build_success,
  exists doc h,
    ReportGenerator.generate_html clock project_config tests issues build_success
    = Ok doc
    /\ header_of doc = Some h
    /\ ReportGenerator.h_total h = Z.of_nat (List.length tests)
    /\ ReportGenerator.h_issues_found h = Z.of_nat (List.length issues)
    /\ ReportGenerator.h_passed h + ReportGenerator.h_failed h
       <= ReportGenerator.h_total h
    /\ (forall output total passed failed,
           TestParser.parse_results output = Ok (tests, total, passed, failed) ->
           ReportGenerator.h_passed h + ReportGenerator.h_failed h
           = ReportGenerator.h_total h).
Proof.
  intros clock pc tests issues b.
  destruct (shown_issues_of_layout clock pc tests issues b)
    as (doc & Hdoc & Hh & _).
  exists doc, (head_of clock pc tests issues b).
  split; [exact Hdoc|]. split; [exact Hh|].
  cbn [head_of ReportGenerator.h_total ReportGenerator.h_passed
       ReportGenerator.h_failed ReportGenerator.h_issues_found].
  unfold ReportGenerator.len. repeat split.
  - apply count_status_disjoint.
  - intros output total passed failed H. symmetry.
    apply count_status_partition.
    unfold TestParser.parse_results in H.
    destruct (TestParser.collect (Re.finditer TestParser.pattern output) [])
      as [ts|e] eqn:C; cbn [Py.bind] in H; [|discriminate].
    assert (ts = tests) as <-.
    { destruct (Re.search TestParser.summary_pattern output);
        [|destruct ts]; now inversion H. }
    now apply parsed_statuses with (output := output).
Qed.

Lemma report_header_counts_witness :
  exists doc h,
    ReportGenerator.generate_html Sample.clock Sample.project
      Sample.tests_with_summary [] true = Ok doc
    /\ header_of doc = Some h
    /\ ReportGenerator.h_total h = 5
    /\ ReportGenerator.h_passed h + ReportGenerator.h_failed h
       = ReportGenerator.h_total h.
Proof.
  destruct (report_header_counts Sample.clock Sample.project
              Sample.tests_with_summary [] true)
    as (doc & h & Hdoc & Hh & Ht & _ & _ & Hsum).
  exists doc, h. repeat split; try assumption.
  apply (Hsum Sample.log_with_summary 12 9 3). vm_compute. reflexivity.
Defined.

(* ----------------------------------------------------------------- *)
(** ** Command runner, continued *)

Lemma read_lines_feeds {S : Type} (cb : CommandRunner.sink)
  (reads : list (result string)) (acc : list string) (st st' : S)
  (output_lines : list string) :
  CommandRunner.read_lines (Some cb) reads acc st = (Ok output_lines, st') ->
  exists new,
    output_lines = (acc ++ new)%list
    /\ st' = feed cb new st
    /\ Forall (fun l => l <> "") new
    /\ exists rest, reads = (map Ok new ++ rest)%list.
Proof.
  revert acc st; induction reads as [|r reads IH]; intros acc st;
    cbn [CommandRunner.read_lines].
  - intros [= <- <-]. exists []. rewrite app_nil_r.
    repeat split; [constructor | now exists []].
  - destruct r as [l|e]; [|discriminate].
    destruct l as [|c l].
    + intros [= <- <-]. exists []. rewrite app_nil_r.
      repeat split; [constructor | now exists (Ok "" :: reads)].
    + destruct (cb (String c l) st) as [st1 [e|]] eqn:E; [discriminate|].
      intros H. destruct (IH _ _ H) as (new & -> & -> & Hne & rest & ->).
      exists (String c l :: new). rewrite <- app_assoc.
      repeat split.
      * unfold feed. cbn [fold_left]. now rewrite E.
      * constructor; [discriminate | assumption].
      * now exists rest.
Qed.

(** X7: when the run completes, the sink was handed the lines of the
    output, each once and in order, and nothing else; no line is empty,
    and the lines are the first results of [readline]. *)
Theorem run_feeds_sink_in_order :
  forall (S : Type) popen cmd cwd (cb : CommandRunner.sink) (st : S)
         output_lines returncode,
    completed popen cmd cwd (Some cb) st output_lines returncode ->
    snd (CommandRunner.run popen cmd cwd (Some cb) st) = feed cb output_lines st
    /\ fst (fst (CommandRunner.run popen cmd cwd (Some cb) st))
       = (returncode =? 0, Str.join "" output_lines)
    /\ Forall (fun l => l <> "") output_lines
    /\ exists process rest,
         popen cmd cwd = Ok process
         /\ CommandRunner.readline process = (map Ok output_lines ++ rest)%list.
Proof.
  intros S popen cmd cwd cb st ls rc (process & st' & Hp & Hr & Hw).
  unfold CommandRunner.run. rewrite Hp, Hr, Hw. cbn [fst snd].
  destruct (read_lines_feeds _ _ _ _ _ _ Hr) as (new & E & -> & Hne & rest & Hrest).
  cbn [app] in E. subst new.
  repeat split; try assumption.
  exists process, rest. auto.
Qed.

Lemma run_feeds_sink_in_order_witness :
  snd (CommandRunner.run Sample.popen_failing ["xcodebuild"; "build"] "/p"
         (Some (fun l seen => ((seen ++ [l])%list, None))) [])
  = ["error: no such module" ++ String (ascii_of_nat 10) "";
     "** BUILD FAILED **" ++ String (ascii_of_nat 10) ""].
Proof.
  assert (H : completed Sample.popen_failing ["xcodebuild"; "build"] "/p"
                (Some (fun l seen => ((seen ++ [l])%list, None))) []
                ["error: no such module" ++ String (ascii_of_nat 10) "";
                 "** BUILD FAILED **" ++ String (ascii_of_nat 10) ""] 65).
  { exists Sample.failing_build.
    exists ["error: no such module" ++ String (ascii_of_nat 10) "";
            "** BUILD FAILED **" ++ String (ascii_of_nat 10) ""].
    repeat split. }
  exact (proj1 (run_feeds_sink_in_order (list string) Sample.popen_failing
                  ["xcodebuild"; "build"] "/p" _ [] _ 65 H)).
Defined.

(* ----------------------------------------------------------------- *)
(** ** Source scan, continued *)

Lemma heuristic_records_of (f : DiagnosticsEngine.SwiftFile) (content : string)
  (i : DiagnosticIssue) :
  In i (force_try_records f content ++ unwrap_records f content
          ++ print_records f content ++ long_file_records f content)%list ->
  quality_record_of f i.
Proof.
  unfold force_try_records, unwrap_records, print_records, long_file_records.
  rewrite !in_app_iff.
  intros [H|[H|[H|H]]];
    match type of H with
    | In _ (if ?b then _ else _) => destruct b
    | In _ (let n := _ in if ?b then _ else _) => cbv zeta in H
    end;
    try match type of H with
        | In _ (if ?b then _ else _) => destruct b
        end;
    try contradiction;
    destruct H as [<-|[]]; unfold quality_record_of; cbn; auto.
Qed.

(** X8: every record of the source scan is a "Code Quality" record of
    severity warning or info that names, as its file, a file of the tree
    that could be read; a tree of [n] files gives [4 * n] records at
    most, and a tree where no file can be read gives none. *)
Theorem source_scan_records :
  forall files,
    (forall i,
        In i (DiagnosticsEngine.analyze_source_code files) ->
        exists f content,
          In f files /\ DiagnosticsEngine.read_text f = Ok content
          /\ quality_record_of f i)
    /\ (List.length (DiagnosticsEngine.analyze_source_code files)
        <= 4 * List.length files)%nat
    /\ ((forall f, In f files ->
                   exists e, DiagnosticsEngine.read_text f = Raise e) ->
        DiagnosticsEngine.analyze_source_code files = []).
Proof.
  intros files.
  assert (Hall : DiagnosticsEngine.analyze_source_code files
                 = flat_map file_records files).
  { unfold DiagnosticsEngine.analyze_source_code. now rewrite fold_scan_step. }
  assert (Hbad : forall f e,
             DiagnosticsEngine.read_text f = Raise e -> file_records f = []).
  { intros f e H.
    unfold file_records, DiagnosticsEngine.scan_step, DiagnosticsEngine.scan_file.
    now rewrite H. }
  rewrite Hall. split; [|split].
  - intros i Hi. apply in_flat_map in Hi. destruct Hi as (f & Hf & Hi).
    destruct (DiagnosticsEngine.read_text f) as [content|e] eqn:E.
    + exists f, content. split; [assumption|]. split; [assumption|].
      rewrite (file_records_readable f content E) in Hi.
      now apply heuristic_records_of with (content := content).
    + rewrite (Hbad f e E) in Hi. contradiction.
  - apply flat_map_length_le. intros f.
    destruct (DiagnosticsEngine.read_text f) as [content|e] eqn:E.
    + rewrite (file_records_readable f content E), !length_app.
      unfold force_try_records, unwrap_records, print_records, long_file_records.
      repeat match goal with
             | |- context [if ?b then _ else _] => destruct b
             end; cbn [List.length]; lia.
    + rewrite (Hbad f e E). cbn; lia.
  - intros H. induction files as [|f files IH]; [reflexivity|].
    cbn [flat_map]. destruct (H f (or_introl eq_refl)) as [e He].
    rewrite (Hbad f e He). cbn [app]. apply IH.
    + unfold DiagnosticsEngine.analyze_source_code. now rewrite fold_scan_step.
    + intros f' Hf'. apply H. now right.
Qed.

Lemma source_scan_records_witness :
  DiagnosticsEngine.analyze_source_code [Sample.b_swift] = [].
Proof.
  apply (proj2 (proj2 (source_scan_records [Sample.b_swift]))).
  intros f [<-|[]]. eexists. reflexivity.
Defined.

(* ----------------------------------------------------------------- *)
(** ** Stripping *)

Lemma lstrip_by_suffix (p : ascii -> bool) (s : string) :
  exists pre, s = pre ++ Text.lstrip_by p s /\ Str.all_chars p pre = true.
Proof.
  induction s as [|c s IH]; cbn [Text.lstrip_by].
  - now exists "".
  - destruct (p c) eqn:E.
    + destruct IH as (pre & IH & Hp). exists (String c pre).
      cbn [append Str.all_chars]. rewrite E, Hp. split; [now f_equal | reflexivity].
    + now exists "".
Qed.

Lemma rstrip_by_prefix (p : ascii -> bool) (s : string) :
  exists post, s = Text.rstrip_by p s ++ post /\ Str.all_chars p post = true.
Proof.
  induction s as [|c s IH]; cbn [Text.rstrip_by].
  - now exists "".
  - destruct IH as (post & IH & Hp).
    destruct (Text.rstrip_by p s) as [|d r] eqn:E.
    + destruct (p c) eqn:Ec.
      * exists (String c post). cbn [append Str.all_chars] in *.
        rewrite Ec, Hp. split; [now f_equal | reflexivity].
      * exists post. cbn [append] in *. split; [now f_equal | assumption].
    + exists post. cbn [append] in *. split; [now f_equal | assumption].
Qed.

Lemma lstrip_is_lstrip_by (s : string) : Str.lstrip s = Text.lstrip_by Str.is_space s.
Proof. induction s as [|c s IH]; cbn; [reflexivity|]. now rewrite IH. Qed.

Lemma rstrip_is_rstrip_by (s : string) : Str.rstrip s = Text.rstrip_by Str.is_space s.
Proof. induction s as [|c s IH]; cbn; [reflexivity|]. now rewrite IH. Qed.

Lemma strip_is_strip_by (s : string) : Str.strip s = Text.strip_by Str.is_space s.
Proof.
  unfold Str.strip, Text.strip_by.
  now rewrite rstrip_is_rstrip_by, lstrip_is_lstrip_by.
Qed.

Lemma strip_by_inside (p : ascii -> bool) (s : string) :
  exists pre post, s = pre ++ Text.strip_by p s ++ post.
Proof.
  unfold Text.strip_by.
  destruct (lstrip_by_suffix p s) as (pre & Hl & _).
  destruct (rstrip_by_prefix p (Text.lstrip_by p s)) as (post & Hr & _).
  exists pre, post. now rewrite <- Hr.
Qed.

Lemma strip_inside (s : string) : exists pre post, s = pre ++ Str.strip s ++ post.
Proof. rewrite strip_is_strip_by. apply strip_by_inside. Qed.

Lemma all_chars_inside (q : ascii -> bool) (s pre mid post : string) :
  s = pre ++ mid ++ post -> Str.all_chars q s = true -> Str.all_chars q mid = true.
Proof.
  intros -> H. rewrite !all_chars_append in H.
  apply andb_true_iff in H. destruct H as [_ H].
  apply andb_true_iff in H. tauto.
Qed.

Lemma contains_inside (sub s pre mid post : string) :
  s = pre ++ mid ++ post -> Str.contains sub mid = true -> Str.contains sub s = true.
Proof.
  intros -> H. apply contains_iff in H. destruct H as (a & b & ->).
  apply contains_iff. exists (pre ++ a), (b ++ post).
  now rewrite !append_assoc.
Qed.

Lemma lstrip_by_head (p : ascii -> bool) (s : string) (c : ascii) (r : string) :
  Text.lstrip_by p s = String c r -> p c = false.
Proof.
  induction s as [|a s IH]; cbn [Text.lstrip_by]; [discriminate|].
  destruct (p a) eqn:E; [assumption|]. now intros [= <- <-].
Qed.

Lemma rstrip_by_head (p : ascii -> bool) (s : string) (c : ascii) (r : string) :
  p c = false -> exists r', Text.rstrip_by p (String c s) = String c r'.
Proof.
  intros E. cbn [Text.rstrip_by].
  destruct (Text.rstrip_by p s); rewrite ?E; eauto.
Qed.

Lemma rstrip_by_last (p : ascii -> bool) (s r : string) (c : ascii) :
  Text.rstrip_by p s = r ++ String c "" -> p c = false.
Proof.
  revert r; induction s as [|a s IH]; intros r; cbn [Text.rstrip_by].
  - destruct r; discriminate.
  - destruct (Text.rstrip_by p s) as [|d t] eqn:E.
    + destruct (p a) eqn:Ea.
      * destruct r; discriminate.
      * destruct r as [|x r]; cbn [append].
        -- now intros [= <-].
        -- intros [= _ H]. destruct r; discriminate.
    + destruct r as [|x r]; cbn [append].
      * discriminate.
      * intros [= _ H]. now apply (IH r).
Qed.

(** What [strip] returns has no blank at either end; the same holds of
    [strip(chars)] and the characters of [chars]. *)
Lemma strip_by_ends (p : ascii -> bool) (s : string) :
  (forall c r, Text.strip_by p s = String c r -> p c = false)
  /\ (forall r c, Text.strip_by p s = r ++ String c "" -> p c = false).
Proof.
  unfold Text.strip_by. split.
  - intros c r H.
    destruct (Text.lstrip_by p s) as [|a t] eqn:E; [discriminate|].
    pose proof (lstrip_by_head _ _ _ _ E) as Ha.
    destruct (rstrip_by_head p t a "" Ha) as [r' Hr]. rewrite Hr in H.
    now inversion H; subst.
  - intros r c. apply rstrip_by_last.
Qed.

(* ----------------------------------------------------------------- *)
(** ** Scheme detection *)

Lemma split_join_lines (lines : list string) :
  lines <> [] -> Forall (free_of DiagnosticsEngine.newline) lines ->
  Str.split DiagnosticsEngine.newline (unlines lines) = lines.
Proof.
  unfold unlines.
  induction lines as [|l lines IH]; [congruence|]. intros _ H.
  inversion H as [|? ? Hl Hrest]; subst.
  destruct lines as [|l' lines].
  - now apply split_free.
  - rewrite join_cons by discriminate. cbn [append].
    rewrite split_append_sep, (split_free _ _ Hl).
    now rewrite IH.
Qed.

Lemma scan_schemes_none (lines : list string) :
  Forall (fun l => Str.contains "Schemes:" (Str.strip l) = false) lines ->
  XcodeDetector.scan_schemes lines false = None.
Proof.
  induction 1 as [|l lines Hl _ IH]; cbn [XcodeDetector.scan_schemes];
    [reflexivity|].
  now rewrite Hl.
Qed.

Lemma scan_schemes_before (before rest : list string) :
  Forall (fun l => Str.contains "Schemes:" (Str.strip l) = false) before ->
  XcodeDetector.scan_schemes (before ++ rest) false
  = XcodeDetector.scan_schemes rest false.
Proof.
  induction 1 as [|l lines Hl _ IH]; cbn [app XcodeDetector.scan_schemes];
    [reflexivity|].
  now rewrite Hl.
Qed.

Lemma scan_schemes_passed_over (skipped rest : list string) :
  Forall passed_over skipped ->
  XcodeDetector.scan_schemes (skipped ++ rest) true
  = XcodeDetector.scan_schemes rest true.
Proof.
  induction 1 as [|l lines Hl _ IH]; cbn [app XcodeDetector.scan_schemes];
    [reflexivity|].
  destruct (Str.contains "Schemes:" (Str.strip l)) eqn:E; [exact IH|].
  destruct Hl as [Hl|[Hl|Hl]].
  - rewrite Hl. cbn. exact IH.
  - congruence.
  - rewrite Hl. cbn [negb andb]. rewrite andb_false_r. exact IH.
Qed.

Lemma scan_schemes_found (lines : list string) (b : bool) (r : string) :
  XcodeDetector.scan_schemes lines b = Some r ->
  exists l, In l lines /\ r = Str.strip l /\ names_scheme l.
Proof.
  revert b; induction lines as [|l lines IH]; intros b;
    cbn [XcodeDetector.scan_schemes]; [discriminate|].
  destruct (Str.contains "Schemes:" (Str.strip l)) eqn:E.
  - intros H. destruct (IH _ H) as (l' & Hin & Hr & Hn).
    exists l'. split; [now right | auto].
  - destruct (b && negb (String.eqb (Str.strip l) "")
              && negb (Str.startswith "Build Configurations" (Str.strip l)))
      eqn:C.
    + intros [= <-]. exists l. split; [now left|]. split; [reflexivity|].
      apply andb_true_iff in C. destruct C as [C1 C3].
      apply andb_true_iff in C1. destruct C1 as [_ C2].
      apply negb_true_iff in C2, C3. apply String.eqb_neq in C2.
      repeat split; assumption.
    + intros H. destruct (IH _ H) as (l' & Hin & Hr & Hn).
      exists l'. split; [now right | auto].
Qed.

(** X9: the scheme falls back on the stem of the project file whenever
    the listing cannot be had or names no scheme: the tool raises, it
    exits with a status that is not zero, or its output holds no
    "Schemes:" at all. *)
Theorem detect_scheme_falls_back :
  forall run directory project_file is_workspace,
    (forall e,
        run (XcodeDetector.list_command project_file is_workspace) (Some directory)
        = Raise e ->
        XcodeDetector._detect_scheme run directory project_file is_workspace
        = Text.path_stem project_file)
    /\ (forall r,
           run (XcodeDetector.list_command project_file is_workspace) (Some directory)
           = Ok r ->
           Subprocess.returncode r <> 0
           \/ Str.contains "Schemes:" (Subprocess.stdout r) = false ->
           XcodeDetector._detect_scheme run directory project_file is_workspace
           = Text.path_stem project_file).
Proof.
  intros run directory project_file is_workspace.
  unfold XcodeDetector._detect_scheme. split.
  - intros e ->. reflexivity.
  - intros r -> [H|H].
    + apply Z.eqb_neq in H. now rewrite H.
    + destruct (Subprocess.returncode r =? 0); [|reflexivity].
      rewrite scan_schemes_none; [reflexivity|].
      apply Forall_forall. intros l Hl.
      destruct (Str.contains "Schemes:" (Str.strip l)) eqn:E; [|reflexivity].
      destruct (split_piece_inside _ _ _ Hl) as (pre & post & Hs).
      destruct (strip_inside l) as (pre' & post' & Hl').
      rewrite <- H. symmetry.
      apply (contains_inside _ _ _ _ _ Hs).
      now apply (contains_inside _ _ _ _ _ Hl').
Qed.

Lemma detect_scheme_falls_back_witness :
  XcodeDetector._detect_scheme
    (fun _ _ => Ok {| Subprocess.returncode := 66;
                      Subprocess.stdout := "xcodebuild: error: not a project" |})
    "/p" "MyApp.xcodeproj" false
  = Text.path_stem "MyApp.xcodeproj".
Proof.
  apply (proj2 (detect_scheme_falls_back
                  (fun _ _ => Ok {| Subprocess.returncode := 66;
                                    Subprocess.stdout := "xcodebuild: error: not a project" |})
                  "/p" "MyApp.xcodeproj" false)
           {| Subprocess.returncode := 66;
              Subprocess.stdout := "xcodebuild: error: not a project" |}).
  - reflexivity.
  - left. discriminate.
Defined.

Lemma detect_scheme_after_header run directory project_file is_workspace r
  before header skipped l rest :
  run (XcodeDetector.list_command project_file is_workspace) (Some directory)
  = Ok r ->
  Subprocess.returncode r = 0 ->
  Subprocess.stdout r = unlines (before ++ header :: skipped ++ l :: rest) ->
  Forall (free_of DiagnosticsEngine.newline)
         (before ++ header :: skipped ++ l :: rest) ->
  Forall (fun x => Str.contains "Schemes:" (Str.strip x) = false) before ->
  Str.contains "Schemes:" (Str.strip header) = true ->
  Forall passed_over skipped ->
  names_scheme l ->
  XcodeDetector._detect_scheme run directory project_file is_workspace
  = Str.strip l.
Proof.
  intros Hrun Hrc Hout Hfree Hbefore Hheader Hskipped (Hne & Hns & Hnb).
  unfold XcodeDetector._detect_scheme. rewrite Hrun, Hrc, Hout. cbn [Z.eqb].
  rewrite split_join_lines by (assumption || (destruct before; discriminate)).
  rewrite scan_schemes_before by assumption.
  cbn [XcodeDetector.scan_schemes]. rewrite Hheader.
  rewrite scan_schemes_passed_over by assumption.
  cbn [XcodeDetector.scan_schemes]. rewrite Hns, Hnb.
  apply String.eqb_neq in Hne. rewrite Hne. reflexivity.
Qed.

(** X10: when the listing is had, the scheme is the first line after
    the first line that holds "Schemes:" which is not empty, does not
    hold "Schemes:" itself and does not start with "Build
    Configurations", without the blanks around it.  The lines before
    the first "Schemes:" are not looked at; the empty lines, the lines
    that hold "Schemes:" and those that start with "Build
    Configurations" are passed over.  Nothing else is: a line that
    holds a colon, such as "Targets:", is taken for the scheme when it
    comes first. *)
Theorem detect_scheme_first_after_header :
  (forall run directory project_file is_workspace r before header skipped l rest,
      run (XcodeDetector.list_command project_file is_workspace) (Some directory)
      = Ok r ->
      Subprocess.returncode r = 0 ->
      Subprocess.stdout r = unlines (before ++ header :: skipped ++ l :: rest) ->
      Forall (free_of DiagnosticsEngine.newline)
             (before ++ header :: skipped ++ l :: rest) ->
      Forall (fun x => Str.contains "Schemes:" (Str.strip x) = false) before ->
      Str.contains "Schemes:" (Str.strip header) = true ->
      Forall passed_over skipped ->
      names_scheme l ->
      XcodeDetector._detect_scheme run directory project_file is_workspace
      = Str.strip l)
  /\ (forall run directory project_file is_workspace r,
         run (XcodeDetector.list_command project_file is_workspace) (Some directory)
         = Ok r ->
         Subprocess.returncode r = 0 ->
         Subprocess.stdout r
         = unlines ["    Schemes:"; ""; "    Targets:"; "        MyApp"] ->
         XcodeDetector._detect_scheme run directory project_file is_workspace
         = "Targets:").
Proof.
  split.
  - intros run directory project_file is_workspace r before header skipped l rest.
    apply detect_scheme_after_header.
  - intros run directory project_file is_workspace r Hrun Hrc Hout.
    apply (detect_scheme_after_header run directory project_file is_workspace r
             [] "    Schemes:" [""] "    Targets:" ["        MyApp"]);
      try assumption.
    + repeat constructor.
    + constructor.
    + reflexivity.
    + constructor; [now left | constructor].
    + split; [discriminate | split; reflexivity].
Qed.

Lemma detect_scheme_first_after_header_witness :
  XcodeDetector._detect_scheme Sample2.listing_run "/p" "MyApp.xcodeproj" false
  = "MyApp".
Proof.
  apply (proj1 detect_scheme_first_after_header Sample2.listing_run "/p"
           "MyApp.xcodeproj" false
           {| Subprocess.returncode := 0;
              Subprocess.stdout := unlines Sample2.listing |}
           (firstn 8 Sample2.listing) "    Schemes:" [""] "        MyApp"
           ["        MyAppTests"]).
  - reflexivity.
  - reflexivity.
  - reflexivity.
  - repeat constructor.
  - repeat constructor.
  - reflexivity.
  - constructor; [now left | constructor].
  - split; [discriminate | split; reflexivity].
Defined.

(* ----------------------------------------------------------------- *)
(** ** Bundle identifier *)

Lemma free_of_not_semicolon (s : string) :
  Str.all_chars XcodeDetector.not_semicolon s = true <-> free_of ";" s.
Proof. reflexivity. Qed.

Lemma matches_bundle_inv (m : string) (gs : list string) :
  matches XcodeDetector.bundle_pattern m gs ->
  exists v,
    m = "PRODUCT_BUNDLE_IDENTIFIER = " ++ v ++ ";" /\ gs = [v]
    /\ v <> "" /\ free_of ";" v.
Proof.
  unfold XcodeDetector.bundle_pattern. intros H.
  invert_matches H.
  match goal with H : matches _ _ _ |- _ => invert_matches H end.
  match goal with H : matches _ _ _ |- _ => invert_matches H end.
  match goal with H : matches _ _ _ |- _ => invert_matches H end.
  match goal with H : _ /\ _ |- _ => destruct H as [Hv Hne] end.
  eexists. rewrite append_empty_r. repeat split; assumption.
Qed.

Lemma matches_bundle_intro (v : string) :
  v <> "" -> free_of ";" v ->
  matches XcodeDetector.bundle_pattern
          ("PRODUCT_BUNDLE_IDENTIFIER = " ++ v ++ ";") [v].
Proof.
  intros Hne Hv. unfold XcodeDetector.bundle_pattern.
  change ("PRODUCT_BUNDLE_IDENTIFIER = " ++ v ++ ";")
    with ("PRODUCT_BUNDLE_IDENTIFIER = " ++ v ++ ";" ++ "").
  apply (matches_cons (Re.plain (Re.Lit "PRODUCT_BUNDLE_IDENTIFIER = ")));
    [reflexivity|].
  apply (matches_cons (Re.group (Re.Plus XcodeDetector.not_semicolon)));
    [split; assumption|].
  apply (matches_cons (Re.plain (Re.Lit ";"))); [reflexivity|].
  constructor.
Qed.

Lemma bundle_at_unique (s v v' : string) :
  bundle_at s v -> bundle_at s v' -> v = v'.
Proof.
  intros (rest & -> & _ & Hv) (rest' & E & _ & Hv').
  cbn [append] in E. injection E as E.
  apply run_unique with (cls := XcodeDetector.not_semicolon) in E; auto.
  now destruct E.
Qed.

Lemma match_bundle_sound (s : string) gs after :
  Re.match_here XcodeDetector.bundle_pattern s = Some (gs, after) ->
  bundle_at s (Re.group_of 1 gs).
Proof.
  intros H. apply match_here_sound in H. destruct H as (m & Hm & ->).
  apply matches_bundle_inv in Hm. destruct Hm as (v & -> & -> & Hne & Hv).
  exists after. rewrite !append_assoc. repeat split; assumption.
Qed.

Lemma match_bundle_complete (s v : string) :
  bundle_at s v ->
  exists gs after,
    Re.match_here XcodeDetector.bundle_pattern s = Some (gs, after)
    /\ Re.group_of 1 gs = v.
Proof.
  intros H. assert (H' := H). destruct H' as (rest & -> & Hne & Hv).
  pose proof (match_here_complete _ _ _ rest (matches_bundle_intro v Hne Hv)) as C.
  rewrite !append_assoc in C.
  destruct (Re.match_here XcodeDetector.bundle_pattern
              ("PRODUCT_BUNDLE_IDENTIFIER = " ++ v ++ ";" ++ rest))
    as [[gs after]|] eqn:E; [|congruence].
  exists gs, after. split; [reflexivity|].
  apply match_bundle_sound in E. now apply (bundle_at_unique _ _ _ E H).
Qed.

Lemma search_bundle_first (content v : string) :
  first_bundle content v ->
  exists gs,
    Re.search XcodeDetector.bundle_pattern content = Some gs
    /\ Re.group_of 1 gs = v.
Proof.
  intros (pre & rest & -> & HB & Hfirst).
  apply match_bundle_complete in HB. destruct HB as (gs & after & Hm & Hv).
  exists gs. split; [|assumption].
  apply (search_first _ _ _ _ after Hm).
  intros pre1 pre2 Hp Hne.
  destruct (Re.match_here XcodeDetector.bundle_pattern (pre2 ++ rest))
    as [[gs' after']|] eqn:E; [|reflexivity].
  apply match_bundle_sound in E. now apply (Hfirst pre1 pre2) in E.
Qed.

Lemma search_bundle_some (content : string) gs :
  Re.search XcodeDetector.bundle_pattern content = Some gs ->
  first_bundle content (Re.group_of 1 gs).
Proof.
  intros E. apply search_some in E.
  destruct E as (pre & rest & after & -> & Hm & Hfirst).
  exists pre, rest. split; [reflexivity|]. split.
  - now apply match_bundle_sound in Hm.
  - intros pre1 pre2 v' Hp Hne HB.
    apply match_bundle_complete in HB. destruct HB as (gs' & after' & E & _).
    rewrite (Hfirst pre1 pre2 Hp Hne) in E. discriminate.
Qed.

(** X11: the bundle identifier is the value of the first assignment
    [PRODUCT_BUNDLE_IDENTIFIER = value;] of the file, the value running
    up to the first semicolon, without the blanks and then the double
    quotes around it; a file that holds no such assignment gives
    [None]. *)
Theorem detect_bundle_id_first_assignment :
  forall content,
    (forall v,
        first_bundle content v ->
        XcodeDetector._detect_bundle_id (Some (Ok content))
        = Some (Text.strip_by Text.is_quote (Str.strip v)))
    /\ ((forall v, ~ first_bundle content v) ->
        XcodeDetector._detect_bundle_id (Some (Ok content)) = None)
    /\ (forall b,
           XcodeDetector._detect_bundle_id (Some (Ok content)) = Some b ->
           exists v,
             first_bundle content v
             /\ b = Text.strip_by Text.is_quote (Str.strip v)).
Proof.
  intros content. cbn [XcodeDetector._detect_bundle_id]. split; [|split].
  - intros v H. apply search_bundle_first in H. destruct H as (gs & -> & ->).
    reflexivity.
  - intros H.
    destruct (Re.search XcodeDetector.bundle_pattern content) as [gs|] eqn:E;
      [|reflexivity].
    apply search_bundle_some in E. now apply H in E.
  - intros b.
    destruct (Re.search XcodeDetector.bundle_pattern content) as [gs|] eqn:E;
      [|discriminate].
    intros [= <-]. exists (Re.group_of 1 gs). split; [|reflexivity].
    now apply search_bundle_some.
Qed.

Lemma detect_bundle_id_first_assignment_witness :
  XcodeDetector._detect_bundle_id (Some (Ok Sample2.pbxproj))
  = Some "com.example.MyApp".
Proof.
  apply (proj1 (detect_bundle_id_first_assignment Sample2.pbxproj)
           (String Text.quote "com.example.MyApp" ++ String Text.quote "")).
  apply (search_bundle_some Sample2.pbxproj
           [String Text.quote "com.example.MyApp" ++ String Text.quote ""]).
  vm_compute. reflexivity.
Defined.

Lemma free_of_inside (c : ascii) (s pre mid post : string) :
  s = pre ++ mid ++ post -> free_of c s -> free_of c mid.
Proof. unfold free_of. apply all_chars_inside. Qed.

(** X12: a bundle identifier that is found holds no semicolon, does not
    start with a double quote and does not end with one; nothing is
    found, and nothing is raised, when the project file is missing or
    cannot be read. *)
Theorem detect_bundle_id_shape :
  (forall pbxproj b,
      XcodeDetector._detect_bundle_id pbxproj = Some b ->
      free_of ";" b
      /\ (forall r, b <> String Text.quote r)
      /\ (forall r, b <> r ++ String Text.quote ""))
  /\ XcodeDetector._detect_bundle_id None = None
  /\ (forall e, XcodeDetector._detect_bundle_id (Some (Raise e)) = None).
Proof.
  split; [|split; reflexivity].
  intros pbxproj b H. unfold XcodeDetector._detect_bundle_id in H.
  destruct pbxproj as [[content|e]|]; try discriminate.
  destruct (Re.search XcodeDetector.bundle_pattern content) as [gs|] eqn:E;
    [|discriminate].
  injection H as <-.
  apply search_bundle_some in E.
  destruct E as (pre & rest & _ & (rest' & _ & _ & Hv) & _).
  destruct (strip_by_ends Text.is_quote (Str.strip (Re.group_of 1 gs)))
    as [Hhead Hlast].
  split; [|split].
  - destruct (strip_inside (Re.group_of 1 gs)) as (p1 & q1 & E1).
    destruct (strip_by_inside Text.is_quote (Str.strip (Re.group_of 1 gs)))
      as (p2 & q2 & E2).
    apply (free_of_inside _ _ _ _ _ E2).
    now apply (free_of_inside _ _ _ _ _ E1).
  - intros r Hr. apply Hhead in Hr. unfold Text.is_quote in Hr.
    now rewrite Ascii.eqb_refl in Hr.
  - intros r Hr. apply Hlast in Hr. unfold Text.is_quote in Hr.
    now rewrite Ascii.eqb_refl in Hr.
Qed.

Lemma detect_bundle_id_shape_witness :
  free_of ";" "com.example.MyApp"
  /\ (forall r, "com.example.MyApp" <> String Text.quote r)
  /\ (forall r, "com.example.MyApp" <> r ++ String Text.quote "").
Proof.
  apply (proj1 detect_bundle_id_shape (Some (Ok Sample2.pbxproj))).
  vm_compute. reflexivity.
Defined.

(* ----------------------------------------------------------------- *)
(** ** Project discovery *)

Lemma endswith_iff (suffix s : string) :
  Text.endswith suffix s = true <-> exists base, s = base ++ suffix.
Proof.
  induction s as [|c s IH]; cbn [Text.endswith]; rewrite orb_true_iff.
  - split.
    + intros [H|H]; [|discriminate]. apply String.eqb_eq in H. now exists "".
    + intros [base H]. left. apply String.eqb_eq.
      destruct base; [cbn in H; congruence | discriminate].
  - rewrite IH. split.
    + intros [H|[base ->]].
      * apply String.eqb_eq in H. now exists "".
      * now exists (String c base).
    + intros [base H]. destruct base as [|x base]; cbn [append] in H.
      * left. now apply String.eqb_eq.
      * right. inversion H; subst. now exists base.
Qed.

Lemma rfind_free (c : ascii) (s : string) : free_of c s -> Text.rfind c s = None.
Proof.
  unfold free_of. induction s as [|a s IH]; [reflexivity|].
  cbn [Str.all_chars Text.rfind]. intros H.
  apply andb_true_iff in H. destruct H as [Ha Hs].
  rewrite (IH Hs). apply negb_true_iff in Ha. now rewrite Ha.
Qed.

Lemma rfind_last (c : ascii) (a b : string) :
  free_of c b -> Text.rfind c (a ++ String c b) = Some (String.length a).
Proof.
  intros Hb. induction a as [|x a IH]; cbn [append Text.rfind String.length].
  - now rewrite (rfind_free c b Hb), Ascii.eqb_refl.
  - now rewrite IH.
Qed.

Lemma take_append (a b : string) : Text.take (String.length a) (a ++ b) = a.
Proof.
  induction a as [|x a IH]; cbn [String.length append Text.take].
  - now destruct b.
  - now rewrite IH.
Qed.

(** The stem of [base.ext] is [base] when neither is empty and [ext]
    holds no dot. *)
Lemma stem_of_name_ext (base ext : string) :
  base <> "" -> ext <> "" -> free_of "." ext ->
  Text.stem_of_name (base ++ String "." ext) = base.
Proof.
  intros Hb He Hf. unfold Text.stem_of_name.
  rewrite (rfind_last "." base ext Hf), length_append.
  cbn [String.length].
  replace (0 <? String.length base)%nat with true
    by (symmetry; apply Nat.ltb_lt; destruct base; [congruence | simpl; lia]).
  replace (String.length base <? String.length base + S (String.length ext) - 1)%nat
    with true
    by (symmetry; apply Nat.ltb_lt; destruct ext; [congruence | simpl; lia]).
  apply take_append.
Qed.

Lemma glob_first (suffix : string) (entries : list string) (w : string)
  (ws : list string) :
  XcodeDetector.glob suffix entries = w :: ws ->
  exists before after,
    entries = (before ++ w :: after)%list
    /\ Forall (fun x => Text.endswith suffix x = false) before
    /\ Text.endswith suffix w = true.
Proof.
  unfold XcodeDetector.glob.
  induction entries as [|x entries IH]; cbn [filter]; [discriminate|].
  destruct (Text.endswith suffix x) eqn:E.
  - intros [= <- <-]. exists [], entries. repeat split; [constructor | assumption].
  - intros H. destruct (IH H) as (before & after & -> & Hb & Hw).
    exists (x :: before), after. repeat split; [constructor|]; assumption.
Qed.

Lemma glob_of_first (suffix : string) (before after : list string) (w : string) :
  Forall (fun x => Text.endswith suffix x = false) before ->
  Text.endswith suffix w = true ->
  XcodeDetector.glob suffix (before ++ w :: after)
  = w :: XcodeDetector.glob suffix after.
Proof.
  unfold XcodeDetector.glob.
  induction 1 as [|x before Hx _ IH]; intros Hw; cbn [app filter].
  - now rewrite Hw.
  - rewrite Hx. now apply IH.
Qed.

Lemma glob_nil (suffix : string) (entries : list string) :
  XcodeDetector.glob suffix entries = []
  <-> Forall (fun x => Text.endswith suffix x = false) entries.
Proof.
  unfold XcodeDetector.glob.
  induction entries as [|x entries IH]; cbn [filter].
  - split; [constructor | reflexivity].
  - destruct (Text.endswith suffix x) eqn:E; split.
    + discriminate.
    + intros H. inversion H; subst. congruence.
    + intros H. constructor; [assumption | now apply IH].
    + intros H. inversion H; subst. now apply IH.
Qed.

(** X13: a workspace wins over a project: when the directory holds an
    entry that ends with ".xcworkspace", the first such entry is the
    project file, whatever projects the directory holds and wherever
    they stand; no bundle identifier is looked for.  Nothing is found
    exactly when no entry ends with ".xcworkspace" or ".xcodeproj". *)
Theorem find_project_prefers_workspace :
  forall run entries pbxproj directory,
    (forall before w after,
        entries = (before ++ w :: after)%list ->
        Forall (fun x => Text.endswith ".xcworkspace" x = false) before ->
        Text.endswith ".xcworkspace" w = true ->
        XcodeDetector.find_project run entries pbxproj directory
        = Some {| path := directory;
                  project_name := Text.stem_of_name w;
                  project_file := w;
                  scheme := XcodeDetector._detect_scheme run directory w true;
                  is_workspace := true;
                  bundle_id := None |})
    /\ (XcodeDetector.find_project run entries pbxproj directory = None
        <-> Forall (fun x => Text.endswith ".xcworkspace" x = false
                             /\ Text.endswith ".xcodeproj" x = false) entries).
Proof.
  intros run entries pbxproj directory. unfold XcodeDetector.find_project. split.
  - intros before w after -> Hb Hw.
    now rewrite (glob_of_first _ _ _ _ Hb Hw).
  - destruct (XcodeDetector.glob ".xcworkspace" entries) as [|w ws] eqn:W.
    + destruct (XcodeDetector.glob ".xcodeproj" entries) as [|p ps] eqn:P.
      * split; [intros _|reflexivity].
        apply glob_nil in W, P. rewrite Forall_forall in *. auto.
      * split; [discriminate|]. intros H. exfalso.
        apply glob_first in P. destruct P as (b & a & -> & _ & Hp).
        rewrite Forall_forall in H. specialize (H p).
        rewrite in_app_iff in H. cbn [In] in H.
        destruct H as [_ H]; [auto | congruence].
    + split; [discriminate|]. intros H. exfalso.
      apply glob_first in W. destruct W as (b & a & -> & _ & Hw).
      rewrite Forall_forall in H. specialize (H w).
      rewrite in_app_iff in H. cbn [In] in H.
      destruct H as [H _]; [auto | congruence].
Qed.

Lemma find_project_prefers_workspace_witness :
  XcodeDetector.find_project Sample2.listing_run Sample2.entries Sample2.files "/p"
  = Some {| path := "/p";
            project_name := "MyApp";
            project_file := "MyApp.xcworkspace";
            scheme := "MyApp";
            is_workspace := true;
            bundle_id := None |}.
Proof.
  apply (proj1 (find_project_prefers_workspace Sample2.listing_run Sample2.entries
                  Sample2.files "/p")
           ["README.md"; "MyApp.xcodeproj"; "MyApp"] "MyApp.xcworkspace" ["Pods"]).
  - reflexivity.
  - repeat constructor.
  - reflexivity.
Defined.

(** X14: the project found is an entry of the directory, kept with its
    extension as the project file; its name is the entry without the
    extension (an entry that is the bare extension keeps it); a project
    is only taken when the directory holds no workspace. *)
Theorem find_project_names_entry :
  forall run entries pbxproj directory cfg,
    XcodeDetector.find_project run entries pbxproj directory = Some cfg ->
    path cfg = directory
    /\ In (project_file cfg) entries
    /\ (let ext := if is_workspace cfg then "xcworkspace" else "xcodeproj" in
        project_file cfg = project_name cfg ++ String "." ext
        \/ (project_file cfg = String "." ext /\ project_name cfg = String "." ext))
    /\ (is_workspace cfg = true -> bundle_id cfg = None)
    /\ (is_workspace cfg = false ->
        Forall (fun x => Text.endswith ".xcworkspace" x = false) entries
        /\ bundle_id cfg = XcodeDetector._detect_bundle_id (pbxproj (project_file cfg))).
Proof.
  intros run entries pbxproj directory cfg. unfold XcodeDetector.find_project.
  assert (Stem : forall x ext,
             ext <> "" -> free_of "." ext ->
             Text.endswith (String "." ext) x = true ->
             x = Text.stem_of_name x ++ String "." ext
             \/ (x = String "." ext /\ Text.stem_of_name x = String "." ext)).
  { intros x ext He Hf Hx. apply endswith_iff in Hx. destruct Hx as [base ->].
    destruct base as [|b base].
    - right. split; [reflexivity|]. cbn [append].
      unfold Text.stem_of_name. cbn [Text.rfind].
      rewrite (rfind_free "." ext Hf). reflexivity.
    - left. rewrite stem_of_name_ext; [reflexivity | discriminate | | ]; assumption. }
  destruct (XcodeDetector.glob ".xcworkspace" entries) as [|w ws] eqn:W.
  - destruct (XcodeDetector.glob ".xcodeproj" entries) as [|p ps] eqn:P;
      [discriminate|].
    intros [= <-]. cbn [path project_file project_name is_workspace bundle_id].
    apply glob_first in P. destruct P as (b & a & -> & _ & Hp).
    split; [reflexivity|]. split.
    { apply in_app_iff. right. now left. }
    split.
    { apply Stem; [discriminate | reflexivity | exact Hp]. }
    split; [discriminate|]. intros _. split; [|reflexivity].
    now apply glob_nil.
  - intros [= <-]. cbn [path project_file project_name is_workspace bundle_id].
    apply glob_first in W. destruct W as (b & a & -> & _ & Hw).
    split; [reflexivity|]. split.
    { apply in_app_iff. right. now left. }
    split.
    { apply Stem; [discriminate | reflexivity | exact Hw]. }
    split; [reflexivity | discriminate].
Qed.

Lemma find_project_names_entry_witness :
  In "MyApp.xcodeproj" ["MyApp.xcodeproj"; "Sources"]
  /\ ("MyApp.xcodeproj" = "MyApp" ++ String "." "xcodeproj"
      \/ ("MyApp.xcodeproj" = String "." "xcodeproj"
          /\ "MyApp" = String "." "xcodeproj")).
Proof.
  destruct (find_project_names_entry Sample2.listing_run
              ["MyApp.xcodeproj"; "Sources"] Sample2.files "/p"
              {| path := "/p"; project_name := "MyApp";
                 project_file := "MyApp.xcodeproj"; scheme := "MyApp";
                 is_workspace := false;
                 bundle_id := Some "com.example.MyApp" |})
    as (_ & Hin & Hname & _).
  - vm_compute. reflexivity.
  - split; [exact Hin | exact Hname].
Defined.

(* ----------------------------------------------------------------- *)
(** ** Connected devices *)

Lemma remove_char_free (c : ascii) (s : string) : free_of c (Text.remove_char c s).
Proof.
  unfold free_of. induction s as [|a s IH]; cbn [Text.remove_char]; [reflexivity|].
  destruct (Ascii.eqb a c) eqn:E; [assumption|].
  cbn [Str.all_chars]. now rewrite E, IH.
Qed.

Lemma remove_char_all_chars (q : ascii -> bool) (c : ascii) (s : string) :
  Str.all_chars q s = true -> Str.all_chars q (Text.remove_char c s) = true.
Proof.
  induction s as [|a s IH]; cbn [Text.remove_char Str.all_chars]; [reflexivity|].
  intros H. apply andb_true_iff in H. destruct H as [Ha Hs].
  destruct (Ascii.eqb a c); [now apply IH|].
  cbn [Str.all_chars]. now rewrite Ha, IH.
Qed.

Lemma strip_all_chars (q : ascii -> bool) (s : string) :
  Str.all_chars q s = true -> Str.all_chars q (Str.strip s) = true.
Proof.
  destruct (strip_inside s) as (pre & post & E). now apply all_chars_inside with (s := s) (pre := pre) (post := post).
Qed.

Lemma last_in {A : Type} (l : list A) (d : A) : l <> [] -> In (last l d) l.
Proof.
  induction l as [|x l IH]; [congruence|]. intros _.
  destruct l as [|y l]; [now left|]. right. apply IH. discriminate.
Qed.

Lemma contains_false_inside (sub s pre mid post : string) :
  s = pre ++ mid ++ post -> Str.contains sub s = false -> Str.contains sub mid = false.
Proof.
  intros E H. destruct (Str.contains sub mid) eqn:C; [|reflexivity].
  rewrite <- H. symmetry. now apply (contains_inside _ _ _ _ _ E).
Qed.

Lemma split_length_count (c : ascii) (s : string) :
  List.length (Str.split c s)
  = S (Str.count_char (fun a => Ascii.eqb a c) s).
Proof.
  induction s as [|a s IH]; [reflexivity|]. cbn [Str.split Str.count_char].
  destruct (Ascii.eqb a c).
  - cbn [List.length]. now rewrite IH.
  - pose proof (split_not_nil c s).
    destruct (Str.split c s); [congruence|]. cbn [List.length] in *. lia.
Qed.

Lemma scan_device_line_step (devices : list Json.dict) (b : bool) (l : string) :
  fst (XcodeDetector.scan_device_line (devices, b) l) = devices
  \/ exists d,
       fst (XcodeDetector.scan_device_line (devices, b) l) = (devices ++ [d])%list
       /\ well_formed_device d /\ b = true
       /\ Str.startswith "==" (Str.strip l) = false
       /\ Str.contains "Simulator" (Str.strip l) = false
       /\ (2 <= Str.count_char (fun a => Ascii.eqb a "(") (Str.strip l))%nat.
Proof.
  unfold XcodeDetector.scan_device_line.
  destruct (Str.startswith "==" (Str.strip l)) eqn:H1.
  - cbn [andb]. destruct (Str.contains "Devices" (Str.strip l)
                          && negb (Str.contains "Offline" (Str.strip l)));
      now left.
  - cbn [andb].
    destruct b; cbn [andb]; [|now left].
    destruct (Str.contains "(" (Str.strip l)); cbn [andb]; [|now left].
    destruct (Str.contains "Simulator" (Str.strip l)) eqn:H2; cbn [negb];
      [now left|].
    destruct (3 <=? List.length (Str.split "(" (Str.strip l)))%nat eqn:H3;
      [|now left].
    destruct (Str.contains "-" _ && (20 <? String.length _)%nat) eqn:H4;
      [|now left].
    right. eexists. split; [reflexivity|].
    apply andb_true_iff in H4. destruct H4 as [Hdash Hlen].
    apply Nat.ltb_lt in Hlen. apply Nat.leb_le in H3.
    pose proof (split_pieces_free "(" (Str.strip l)) as Hfree.
    rewrite Forall_forall in Hfree.
    pose proof (split_not_nil "(" (Str.strip l)) as Hnil.
    repeat split; try assumption.
    + do 2 eexists. split; [reflexivity|]. repeat split; try assumption.
      * apply strip_all_chars, remove_char_all_chars.
        apply Hfree. now apply last_in.
      * apply strip_all_chars. apply remove_char_free.
      * apply strip_all_chars. apply Hfree.
        destruct (Str.split "(" (Str.strip l)); [congruence | now left].
      * destruct (Str.split "(" (Str.strip l)) as [|p ps] eqn:E; [congruence|].
        cbn [nth].
        destruct (split_head_prefix _ _ _ _ E) as [post Hp].
        destruct (strip_inside p) as (a & z & Hz).
        apply (contains_false_inside _ _ _ _ _ Hz).
        apply (contains_false_inside _ (Str.strip l) "" p post); [exact Hp | exact H2].
    + rewrite split_length_count in H3. lia.
Qed.

Lemma scan_device_lines_invariant (lines : list string) (st : list Json.dict * bool) :
  Forall well_formed_device (fst st) ->
  Forall well_formed_device (fst (scan_device_lines lines st)).
Proof.
  unfold scan_device_lines.
  revert st; induction lines as [|l lines IH]; intros [devices b] H;
    cbn [fold_left]; [assumption|].
  apply IH. cbn [fst] in H.
  destruct (scan_device_line_step devices b l) as [E|(d & E & Hd & _)];
    rewrite E; [assumption|].
  apply Forall_app. split; [assumption | now repeat constructor].
Qed.

(** X15: every entry of [get_devices] has a universal identifier of
    more than 20 characters that holds a dash and no parenthesis, a name
    without an opening parenthesis and without the word "Simulator", and
    the state "Connected"; when the tool raises or exits with a status
    that is not zero the list is empty. *)
Theorem get_devices_entries :
  forall run,
    Forall well_formed_device (XcodeDetector.get_devices run)
    /\ (forall e,
           run XcodeDetector.xctrace_command None = Raise e ->
           XcodeDetector.get_devices run = [])
    /\ (forall r,
           run XcodeDetector.xctrace_command None = Ok r ->
           Subprocess.returncode r <> 0 ->
           XcodeDetector.get_devices run = []).
Proof.
  intros run. unfold XcodeDetector.get_devices. split; [|split].
  - destruct (run XcodeDetector.xctrace_command None) as [r|e]; [|constructor].
    destruct (negb (Subprocess.returncode r =? 0)); [constructor|].
    apply (scan_device_lines_invariant _ ([], false)). constructor.
  - intros e ->. reflexivity.
  - intros r -> H. apply Z.eqb_neq in H. now rewrite H.
Qed.

Lemma get_devices_entries_witness :
  XcodeDetector.get_devices
    (fun _ _ => Ok {| Subprocess.returncode := 1; Subprocess.stdout := "" |})
  = [].
Proof.
  apply (proj2 (proj2 (get_devices_entries
                         (fun _ _ => Ok {| Subprocess.returncode := 1;
                                           Subprocess.stdout := "" |})))
           {| Subprocess.returncode := 1; Subprocess.stdout := "" |}).
  - reflexivity.
  - discriminate.
Defined.




(* ----------------------------------------------------------------- *)
(** ** Simulators *)

Lemma scan_simulator_readable (runtime : string) (simulators : list Json.dict)
  (v : Json.value) :
  readable_device v ->
  XcodeDetector.scan_simulator runtime simulators v
  = Json.Return (simulators ++ listed_simulator runtime v)%list.
Proof.
  intros (d & -> & H). unfold XcodeDetector.scan_simulator, listed_simulator.
  cbn [Json.get Json.subscript].
  destruct (Json.lookup "isAvailable" d) as [a|]; cbn [Json.bind].
  - destruct (Json.truthy a) eqn:A.
    + destruct (H eq_refl) as (n & Hn & Hu). rewrite Hn. cbn [Json.bind Json.text_in].
      destruct (Str.contains "iPhone" n) eqn:I.
      * destruct (Hu eq_refl) as (u & ->). cbn [Json.bind andb].
        destruct (Json.lookup "state" d); reflexivity.
      * cbn [andb]. destruct (Json.lookup "udid" d); now rewrite app_nil_r.
    + destruct (Json.lookup "name" d) as [[]|]; try now rewrite app_nil_r.
      destruct (Json.lookup "udid" d); now rewrite app_nil_r.
  - cbn [Json.truthy].
    destruct (Json.lookup "name" d) as [[]|]; now rewrite app_nil_r.
Qed.

Lemma scan_simulators_readable (runtime : string) (devices : list Json.value)
  (simulators : list Json.dict) :
  Forall readable_device devices ->
  XcodeDetector.scan_simulators runtime devices simulators
  = Json.Return (simulators ++ flat_map (listed_simulator runtime) devices)%list.
Proof.
  intros H; revert simulators; induction H as [|v devices Hv _ IH];
    intros simulators; cbn [XcodeDetector.scan_simulators flat_map].
  - now rewrite app_nil_r.
  - rewrite (scan_simulator_readable _ _ _ Hv). cbn [Json.bind].
    rewrite IH. now rewrite <- app_assoc.
Qed.

Lemma scan_runtimes_readable (runtimes : list (string * Json.value))
  (simulators : list Json.dict) :
  Forall readable_runtime runtimes ->
  XcodeDetector.scan_runtimes runtimes simulators
  = Json.Return (simulators ++ flat_map listed_runtime runtimes)%list.
Proof.
  intros H; revert simulators; induction H as [|[rt v] runtimes Hr _ IH];
    intros simulators; cbn [XcodeDetector.scan_runtimes flat_map listed_runtime].
  - now rewrite app_nil_r.
  - destruct Hr as [Hr|(devices & Hv & Hd)]; cbn [fst snd] in *.
    + rewrite Hr, IH. destruct v; reflexivity.
    + subst v. destruct (Str.contains "iOS" rt).
      * cbn [Json.iterate Json.bind].
        rewrite (scan_simulators_readable _ _ _ Hd). cbn [Json.bind].
        rewrite IH. now rewrite <- app_assoc.
      * apply IH.
Qed.

(** X17: on a listing whose runtimes hold readable devices,
    [get_simulators] lists, in the order of the listing, the available
    devices whose name holds "iPhone" of the runtimes whose key holds
    "iOS", each with its name, its udid as "uuid", its state ("Shutdown"
    when it has none) and the last dot-separated part of the key of its
    runtime. *)
Theorem get_simulators_of_listing :
  forall loads run r data runtimes,
    run XcodeDetector.simctl_command None = Ok r ->
    Subprocess.returncode r = 0 ->
    loads (Subprocess.stdout r) = Json.Return (Json.Obj data) ->
    Json.lookup "devices" data = Some (Json.Obj runtimes) ->
    Forall readable_runtime runtimes ->
    XcodeDetector.get_simulators loads run = flat_map listed_runtime runtimes.
Proof.
  intros loads run r data runtimes Hrun Hrc Hloads Hdev Hread.
  unfold XcodeDetector.get_simulators, XcodeDetector.simulators_of.
  rewrite Hrun, Hrc, Hloads. cbn [Z.eqb negb Json.bind Json.get].
  rewrite Hdev. cbn [Json.bind Json.items].
  now rewrite (scan_runtimes_readable _ _ Hread).
Qed.

Lemma get_simulators_of_listing_witness :
  XcodeDetector.get_simulators (fun _ => Json.Return Sample2.sim_listing)
    Sample2.simctl_run
  = [ [ ("name", Json.Str "iPhone 15"); ("uuid", Json.Str "AAAA-1");
        ("state", Json.Str "Booted"); ("runtime", Json.Str "iOS-17-0") ];
      [ ("name", Json.Str "iPhone SE"); ("uuid", Json.Str "AAAA-4");
        ("state", Json.Str "Shutdown"); ("runtime", Json.Str "iOS-17-0") ] ].
Proof.
  apply (get_simulators_of_listing (fun _ => Json.Return Sample2.sim_listing)
           Sample2.simctl_run
           {| Subprocess.returncode := 0; Subprocess.stdout := "{...}" |}
           [ ("devices", Json.Obj Sample2.sim_runtimes) ] Sample2.sim_runtimes).
  - reflexivity.
  - reflexivity.
  - reflexivity.
  - reflexivity.
  - constructor; [|constructor; [|constructor]].
    + right. eexists. split; [reflexivity|].
      repeat constructor; eexists; (split; [reflexivity|]);
        intros _; eexists; (split; [reflexivity|]); intros _; eexists; reflexivity.
    + left. reflexivity.
Defined.

Lemma scan_simulators_broken (runtime : string) (before after : list Json.value)
  (bad : Json.value) (simulators : list Json.dict) :
  broken_device runtime bad ->
  exists e,
    XcodeDetector.scan_simulators runtime (before ++ bad :: after) simulators
    = Json.Throw e.
Proof.
  intros Hbad; revert simulators; induction before as [|v before IH];
    intros simulators; cbn [app XcodeDetector.scan_simulators].
  - destruct (Hbad simulators) as [e ->]. now exists e.
  - destruct (XcodeDetector.scan_simulator runtime simulators v) as [s|e];
      cbn [Json.bind]; [apply IH | now exists e].
Qed.

Lemma scan_runtimes_broken (before after : list (string * Json.value))
  (runtime : string) (devices_before devices_after : list Json.value)
  (bad : Json.value) (simulators : list Json.dict) :
  Str.contains "iOS" runtime = true ->
  broken_device runtime bad ->
  exists e,
    XcodeDetector.scan_runtimes
      (before ++ (runtime, Json.Arr (devices_before ++ bad :: devices_after)) :: after)
      simulators
    = Json.Throw e.
Proof.
  intros Hios Hbad; revert simulators; induction before as [|[rt v] before IH];
    intros simulators; cbn [app XcodeDetector.scan_runtimes].
  - rewrite Hios. cbn [Json.iterate Json.bind].
    destruct (scan_simulators_broken runtime devices_before devices_after bad
                simulators Hbad) as [e ->].
    now exists e.
  - destruct (Str.contains "iOS" rt); [|apply IH].
    destruct (Json.iterate v) as [ds|e]; cbn [Json.bind]; [|now exists e].
    destruct (XcodeDetector.scan_simulators rt ds simulators) as [s|e];
      cbn [Json.bind]; [apply IH | now exists e].
Qed.

(** X18: one device entry on which the scan raises empties the whole
    list, whatever the other entries are and wherever it stands in a
    runtime whose key holds "iOS".  Such are an entry that is not an
    object, an available entry without a name, and an available entry
    whose name holds "iPhone" and that has no udid. *)
Theorem get_simulators_all_or_nothing :
  (forall loads run r data before runtime devices_before bad devices_after after,
      run XcodeDetector.simctl_command None = Ok r ->
      loads (Subprocess.stdout r) = Json.Return (Json.Obj data) ->
      Json.lookup "devices" data
      = Some (Json.Obj
                (before
                   ++ (runtime, Json.Arr (devices_before ++ bad :: devices_after))
                   :: after)) ->
      Str.contains "iOS" runtime = true ->
      broken_device runtime bad ->
      XcodeDetector.get_simulators loads run = [])
  /\ (forall runtime v, (forall d, v <> Json.Obj d) -> broken_device runtime v)
  /\ (forall runtime d a,
         Json.lookup "isAvailable" d = Some a -> Json.truthy a = true ->
         Json.lookup "name" d = None ->
         broken_device runtime (Json.Obj d))
  /\ (forall runtime d a n,
         Json.lookup "isAvailable" d = Some a -> Json.truthy a = true ->
         Json.lookup "name" d = Some (Json.Str n) ->
         Str.contains "iPhone" n = true ->
         Json.lookup "udid" d = None ->
         broken_device runtime (Json.Obj d)).
Proof.
  split; [|split; [|split]].
  - intros loads run r data before runtime devices_before bad devices_after after
           Hrun Hloads Hdev Hios Hbad.
    unfold XcodeDetector.get_simulators, XcodeDetector.simulators_of.
    rewrite Hrun. destruct (negb (Subprocess.returncode r =? 0)); [reflexivity|].
    rewrite Hloads. cbn [Json.bind Json.get]. rewrite Hdev.
    cbn [Json.bind Json.items].
    destruct (scan_runtimes_broken before after runtime devices_before
                devices_after bad [] Hios Hbad) as [e ->].
    reflexivity.
  - intros runtime v Hv simulators. unfold XcodeDetector.scan_simulator.
    destruct v; cbn [Json.get Json.bind]; try (eexists; reflexivity).
    now destruct (Hv fields).
  - intros runtime d a Ha Ht Hn simulators. unfold XcodeDetector.scan_simulator.
    cbn [Json.get Json.subscript]. rewrite Ha. cbn [Json.bind].
    rewrite Ht, Hn. cbn [Json.bind]. eexists; reflexivity.
  - intros runtime d a n Ha Ht Hn Hi Hu simulators.
    unfold XcodeDetector.scan_simulator.
    cbn [Json.get Json.subscript]. rewrite Ha. cbn [Json.bind].
    rewrite Ht, Hn. cbn [Json.bind Json.text_in]. rewrite Hi, Hu.
    cbn [Json.bind]. eexists; reflexivity.
Qed.

Lemma get_simulators_all_or_nothing_witness :
  XcodeDetector.get_simulators (fun _ => Json.Return Sample2.sim_listing_broken)
    Sample2.simctl_run
  = [].
Proof.
  apply (proj1 get_simulators_all_or_nothing
           (fun _ => Json.Return Sample2.sim_listing_broken) Sample2.simctl_run
           {| Subprocess.returncode := 0; Subprocess.stdout := "{...}" |}
           [ ("devices",
              Json.Obj
                (("com.apple.CoreSimulator.SimRuntime.iOS-16-4",
                  Json.Arr [ Json.Obj [ ("name", Json.Str "iPhone 13");
                                        ("isAvailable", Json.Bool true) ] ])
                   :: Sample2.sim_runtimes)) ]
           [] "com.apple.CoreSimulator.SimRuntime.iOS-16-4" []
           (Json.Obj [ ("name", Json.Str "iPhone 13");
                       ("isAvailable", Json.Bool true) ])
           [] Sample2.sim_runtimes).
  - reflexivity.
  - reflexivity.
  - reflexivity.
  - reflexivity.
  - apply (proj2 (proj2 (proj2 get_simulators_all_or_nothing))
             _ _ (Json.Bool true) "iPhone 13"); reflexivity.
Defined.

(** X19: [get_simulators] returns the empty list, and raises nothing,
    whenever the listing cannot be had: the tool raises or exits with a
    status that is not zero, the output is not JSON, the value read is
    not an object, or its "devices" is not an object; a listing without
    "devices" gives the empty list too. *)
Theorem get_simulators_unavailable :
  forall loads run,
    (forall e,
        run XcodeDetector.simctl_command None = Raise e ->
        XcodeDetector.get_simulators loads run = [])
    /\ (forall r,
           run XcodeDetector.simctl_command None = Ok r ->
           Subprocess.returncode r <> 0
           \/ (exists e, loads (Subprocess.stdout r) = Json.Throw e)
           \/ (exists v, loads (Subprocess.stdout r) = Json.Return v
                         /\ forall d, v <> Json.Obj d)
           \/ (exists d, loads (Subprocess.stdout r) = Json.Return (Json.Obj d)
                         /\ (Json.lookup "devices" d = None
                             \/ exists v, Json.lookup "devices" d = Some v
                                          /\ forall x, v <> Json.Obj x)) ->
           XcodeDetector.get_simulators loads run = []).
Proof.
  intros loads run. unfold XcodeDetector.get_simulators, XcodeDetector.simulators_of.
  split.
  - intros e ->. reflexivity.
  - intros r -> H.
    destruct (Z.eqb_spec (Subprocess.returncode r) 0) as [E|E]; cbn [negb];
      [|reflexivity].
    destruct H as [H|[(e & ->)|[(v & -> & Hv)|(d & -> & H)]]].
    + congruence.
    + reflexivity.
    + destruct v; cbn [Json.bind Json.get]; try reflexivity.
      now destruct (Hv fields).
    + cbn [Json.bind Json.get]. destruct H as [->|(v & -> & Hv)].
      * reflexivity.
      * cbn [Json.bind]. destruct v; cbn [Json.items Json.bind]; try reflexivity.
        now destruct (Hv fields).
Qed.

Lemma get_simulators_unavailable_witness :
  XcodeDetector.get_simulators
    (fun _ => Json.Throw (Json.JSONDecodeError "Expecting value"))
    Sample2.simctl_run
  = [].
Proof.
  apply (proj2 (get_simulators_unavailable
                  (fun _ => Json.Throw (Json.JSONDecodeError "Expecting value"))
                  Sample2.simctl_run)
           {| Subprocess.returncode := 0; Subprocess.stdout := "{...}" |}).
  - reflexivity.
  - right. left. eexists. reflexivity.
Defined.

(* ================================================================= *)
(** * Properties of the window *)

Lemma read_lines_append_line (reads : list (result string)) (acc : list string)
  (cs : list App.call) :
  CommandRunner.read_lines (Some App.append_line) reads acc cs
  = (fst (CommandRunner.read_lines None reads acc tt),
     (cs ++ map App._append_build_log (lines_read reads))%list).
Proof.
  revert acc cs; induction reads as [|r reads IH]; intros acc cs;
    cbn [CommandRunner.read_lines lines_read map fst].
  - now rewrite app_nil_r.
  - destruct r as [l|e]; cbn [fst map]; [|now rewrite app_nil_r].
    destruct l as [|c l]; cbn [fst map]; [now rewrite app_nil_r|].
    unfold App.append_line at 1. rewrite IH. cbn [map].
    now rewrite <- app_assoc.
Qed.

Lemma run_append_line (w : App.World) (cmd : list string) (cwd : string)
  (cs : list App.call) :
  CommandRunner.run (App.popen w) cmd cwd (Some App.append_line) cs
  = (captured w cmd cwd,
     (cs ++ map App._append_build_log (lines_of w cmd cwd))%list).
Proof.
  unfold captured, lines_of, CommandRunner.run.
  destruct (App.popen w cmd cwd) as [process|e]; cbn [fst map].
  - rewrite read_lines_append_line.
    destruct (CommandRunner.read_lines None (CommandRunner.readline process) [] tt)
      as [[out|e] u]; cbn [fst]; [|reflexivity].
    now destruct (CommandRunner.wait process).
  - now rewrite app_nil_r.
Qed.

Lemma command_line_returns (w : App.World) (verb : list string) (st : App.State)
  (c : ProjectConfig) (target : Json.dict) (uuid : Json.value) :
  App.project_config st = Some c ->
  App.selected_target st = Some target ->
  Json.lookup "uuid" target = Some uuid ->
  App.command_line w verb st = Json.Return (xcodebuild w verb c uuid).
Proof.
  intros Hc Ht Hu. unfold App.command_line, xcodebuild.
  rewrite Hc, Ht. cbn [Json.subscript Json.bind]. rewrite Hu.
  cbv zeta. cbn [Json.bind].
  destruct (is_workspace c); now rewrite <- app_assoc.
Qed.

Lemma build_scan_records (output : string) :
  Forall build_record (DiagnosticsEngine.analyze_build_output output).
Proof.
  unfold DiagnosticsEngine.analyze_build_output. rewrite fold_scan_line.
  cbn [app]. apply Forall_forall. intros i H.
  apply in_flat_map in H. destruct H as (l & _ & H).
  unfold DiagnosticsEngine.scan_line in H.
  destruct (Str.contains "error:" (Str.lower l)).
  - destruct H as [<-|[]]. unfold build_record. cbn. tauto.
  - destruct (Str.contains "warning:" (Str.lower l)); [|destruct H].
    destruct H as [<-|[]]. unfold build_record. cbn. tauto.
Qed.

Lemma source_scan_quality (files : list DiagnosticsEngine.SwiftFile) :
  Forall quality_record (DiagnosticsEngine.analyze_source_code files).
Proof.
  unfold DiagnosticsEngine.analyze_source_code. rewrite fold_scan_step.
  cbn [app]. apply Forall_forall. intros i H.
  apply in_flat_map in H. destruct H as (f & _ & H).
  destruct (DiagnosticsEngine.read_text f) as [content|e] eqn:E.
  - rewrite (file_records_readable f content E) in H.
    destruct (heuristic_records_of f content i H) as (Hc & Hs & Hf & Hl).
    unfold quality_record. split; [assumption|]. split; [assumption|].
    split; [eexists; exact Hf | assumption].
  - unfold file_records, DiagnosticsEngine.scan_step, DiagnosticsEngine.scan_file in H.
    rewrite E in H. destruct H.
Qed.

Lemma scanned_build (output : string) :
  Forall scanned (DiagnosticsEngine.analyze_build_output output).
Proof.
  eapply Forall_impl; [|apply build_scan_records]. intros i H. now left.
Qed.

Lemma scanned_source (files : list DiagnosticsEngine.SwiftFile) :
  Forall scanned (DiagnosticsEngine.analyze_source_code files).
Proof.
  eapply Forall_impl; [|apply source_scan_quality]. intros i H. now right.
Qed.

Lemma build_thread_cases (w : App.World) (st : App.State) :
  (exists e, App.build_thread w st = App.Died e st)
  \/ exists c target uuid,
       App.project_config st = Some c
       /\ App.selected_target st = Some target
       /\ Json.lookup "uuid" target = Some uuid
       /\ exists made,
            let cmd := xcodebuild w ["xcodebuild"; "clean"; "build"] c uuid in
            let r := captured w cmd (path c) in
            let issues :=
              (App.diagnostic_issues st
                 ++ DiagnosticsEngine.analyze_build_output (output_of r))%list in
            App.build_thread w st
            = App.Done
                {| App.project_config := App.project_config st;
                   App.selected_target := App.selected_target st;
                   App.test_results := App.test_results st;
                   App.diagnostic_issues := issues;
                   App.build_success := succeeded r;
                   App.last_report_path := App.last_report_path st;
                   App.calls := (App.calls st ++ made)%list |}.
Proof.
  unfold App.build_thread.
  destruct (App.project_config st) as [c|] eqn:Hc;
    [|left; eexists; unfold App.command_line; now rewrite Hc].
  destruct (App.selected_target st) as [target|] eqn:Ht;
    [|left; eexists; unfold App.command_line; now rewrite Hc, Ht].
  destruct (Json.lookup "uuid" target) as [uuid|] eqn:Hu;
    [|left; eexists; unfold App.command_line; rewrite Hc, Ht;
      cbn [Json.subscript Json.bind]; now rewrite Hu].
  right. exists c, target, uuid. split; [reflexivity|].
  split; [reflexivity|]. split; [assumption|].
  rewrite (command_line_returns w _ st c target uuid Hc Ht Hu).
  unfold App.run_command. cbn [App.ui App.with_calls App.project_config App.calls].
  rewrite Hc, run_append_line.
  destruct (captured w _ (path c)) as [[success output] err] eqn:E.
  cbn [succeeded output_of fst snd].
  destruct success; eexists; unfold App._update_diagnostics_display, App.ui,
    App.with_diagnostic_issues, App.with_build_success, App.with_calls;
    cbn [App.project_config App.selected_target App.test_results
         App.diagnostic_issues App.build_success App.last_report_path App.calls];
    rewrite Hc, Ht; repeat rewrite <- app_assoc; reflexivity.
Qed.

Lemma test_thread_cases (w : App.World) (st : App.State) :
  (exists e, App.test_thread w st = App.Died e st)
  \/ exists c target uuid,
       App.project_config st = Some c
       /\ App.selected_target st = Some target
       /\ Json.lookup "uuid" target = Some uuid
       /\ exists made,
            let cmd := xcodebuild w ["xcodebuild"; "test"] c uuid in
            let r := captured w cmd (path c) in
            let kept tests :=
              {| App.project_config := App.project_config st;
                 App.selected_target := App.selected_target st;
                 App.test_results := tests;
                 App.diagnostic_issues := App.diagnostic_issues st;
                 App.build_success := App.build_success st;
                 App.last_report_path := App.last_report_path st;
                 App.calls := (App.calls st ++ made)%list |} in
            match TestParser.parse_results (output_of r) with
            | Ok (tests, _, _, _) => App.test_thread w st = App.Done (kept tests)
            | Raise e =>
                App.test_thread w st
                = App.Died (Json.Other e) (kept (App.test_results st))
            end.
Proof.
  unfold App.test_thread.
  destruct (App.project_config st) as [c|] eqn:Hc;
    [|left; eexists; unfold App.command_line; now rewrite Hc].
  destruct (App.selected_target st) as [target|] eqn:Ht;
    [|left; eexists; unfold App.command_line; now rewrite Hc, Ht].
  destruct (Json.lookup "uuid" target) as [uuid|] eqn:Hu;
    [|left; eexists; unfold App.command_line; rewrite Hc, Ht;
      cbn [Json.subscript Json.bind]; now rewrite Hu].
  right. exists c, target, uuid. split; [reflexivity|].
  split; [reflexivity|]. split; [assumption|].
  rewrite (command_line_returns w _ st c target uuid Hc Ht Hu).
  unfold App.run_command. cbn [App.ui App.with_calls App.project_config App.calls].
  rewrite Hc, run_append_line.
  destruct (captured w _ (path c)) as [[success output] err] eqn:E.
  cbn [succeeded output_of fst snd].
  destruct (TestParser.parse_results output) as [[[[tests total] passed] failed]|e].
  - eexists. cbv zeta.
    unfold App._update_test_display, App.ui, App.with_test_results, App.with_calls;
      cbn [App.project_config App.selected_target App.test_results
           App.diagnostic_issues App.build_success App.last_report_path App.calls];
      rewrite Hc, Ht; repeat rewrite <- app_assoc; reflexivity.
  - eexists. cbv zeta.
    unfold App.ui, App.with_calls;
      cbn [App.project_config App.selected_target App.test_results
           App.diagnostic_issues App.build_success App.last_report_path App.calls];
      rewrite Hc, Ht; repeat rewrite <- app_assoc; reflexivity.
Qed.

Lemma diagnostics_thread_cases (w : App.World) (st : App.State) :
  match App.project_config st with
  | None => exists e made, App.diagnostics_thread w st
                           = App.Died e (App.ui made st)
  | Some c =>
      exists made,
        App.diagnostics_thread w st
        = App.Done
            {| App.project_config := App.project_config st;
               App.selected_target := App.selected_target st;
               App.test_results := App.test_results st;
               App.diagnostic_issues :=
                 (App.diagnostic_issues st
                    ++ DiagnosticsEngine.analyze_source_code
                         (App.rglob w (path c)))%list;
               App.build_success := App.build_success st;
               App.last_report_path := App.last_report_path st;
               App.calls := (App.calls st ++ made)%list |}
  end.
Proof.
  unfold App.diagnostics_thread.
  cbn [App.ui App.with_calls App.project_config].
  destruct (App.project_config st) as [c|] eqn:Hc.
  - eexists.
    unfold App._update_diagnostics_display, App.ui, App.with_diagnostic_issues,
      App.with_calls;
      cbn [App.project_config App.selected_target App.test_results
           App.diagnostic_issues App.build_success App.last_report_path App.calls];
      rewrite Hc; repeat rewrite <- app_assoc; reflexivity.
  - eexists. eexists. unfold App.ui, App.with_calls. rewrite Hc. reflexivity.
Qed.

Lemma report_thread_cases (w : App.World) (st : App.State) :
  match App.project_config st with
  | None => exists e, App.report_thread w st = App.Died e st
  | Some c =>
      exists html,
        ReportGenerator.generate_html (App.clock w) c (App.test_results st)
                                      (App.diagnostic_issues st)
                                      (App.build_success st) = Ok html
        /\ match App.save_report w html (path c) with
           | Raise e => App.report_thread w st = App.Died (Json.Other e) st
           | Ok report_path =>
               exists made,
                 App.report_thread w st
                 = App.Done
                     {| App.project_config := App.project_config st;
                        App.selected_target := App.selected_target st;
                        App.test_results := App.test_results st;
                        App.diagnostic_issues := App.diagnostic_issues st;
                        App.build_success := App.build_success st;
                        App.last_report_path := Some report_path;
                        App.calls := (App.calls st ++ made)%list |}
           end
  end.
Proof.
  unfold App.report_thread.
  destruct (App.project_config st) as [c|] eqn:Hc; [|now eexists].
  rewrite generate_html_layout. eexists. split; [reflexivity|].
  destruct (App.save_report w _ (path c)) as [report_path|e]; [|reflexivity].
  destruct (App.answer w); eexists;
    unfold App.ui, App.with_last_report_path, App.with_calls;
    cbn [App.project_config App.selected_target App.test_results
         App.diagnostic_issues App.build_success App.last_report_path App.calls];
    rewrite Hc; repeat rewrite <- app_assoc; reflexivity.
Qed.


Ltac fields :=
  cbn [App.state_of App.ui App.with_calls App.with_project_config
       App.with_selected_target App.with_test_results
       App.with_diagnostic_issues App.with_build_success
       App.with_last_report_path App._update_project_display
       App.project_config App.selected_target App.test_results
       App.diagnostic_issues App.build_success App.last_report_path App.calls].

Ltac grows_goal :=
  split;
  [ fields;
    first [ exists []; split; [now rewrite app_nil_r | constructor]
          | eexists; split;
            [reflexivity | first [apply scanned_build | apply scanned_source]] ]
  | fields; repeat rewrite <- app_assoc;
    first [ exists []; now rewrite app_nil_r | eexists; reflexivity ] ].

Ltac frame_goal :=
  unfold frame;
  split; [grows_goal|];
  repeat match goal with
         | |- _ /\ _ => split
         end;
  intros; try congruence; fields; try reflexivity; try congruence.

Lemma exec_frame (w : App.World) (c : command) (st : App.State) :
  frame c st (exec w c st).
Proof.
  destruct c; unfold exec.
  - unfold App._auto_detect_project.
    destruct (XcodeDetector.find_project _ _ _ _); frame_goal.
  - unfold App._select_project.
    destruct (String.eqb (App.askdirectory w) ""); [frame_goal|].
    destruct (XcodeDetector.find_project _ _ _ _); frame_goal.
  - unfold App._select_target.
    destruct (App.no_project st); [frame_goal|].
    destruct (App._update_target_list w "simulator") as [listbox|e];
      [|frame_goal].
    unfold App.on_select.
    destruct (App.curselection w) as [|idx sel]; [frame_goal|].
    destruct (nth_error _ idx) as [target|]; [|frame_goal].
    destruct (Json.subscript _ "name"); frame_goal.
  - unfold App._build_project.
    destruct (App.no_project st); [frame_goal|].
    destruct (App.no_target st); [frame_goal|].
    destruct (build_thread_cases w
                (App.ui [App._clear_build_log; App._set_status "🔨 Building...";
                         App.progress_bar_set 0] st))
      as [[e H]|(c & target & uuid & _ & _ & _ & made & H)];
      cbv zeta in H; rewrite H; frame_goal.
  - unfold App._run_tests.
    destruct (App.no_project st); [frame_goal|].
    destruct (App.no_target st); [frame_goal|].
    destruct (test_thread_cases w
                (App.ui [App._clear_build_log; App._set_status "🧪 Running tests...";
                         App.progress_bar_set 0] st))
      as [[e H]|(c & target & uuid & _ & _ & _ & made & H)];
      [rewrite H; frame_goal|].
    cbv zeta in H.
    destruct (TestParser.parse_results _) as [[[[tests total] passed] failed]|e];
      rewrite H; frame_goal.
  - unfold App._run_diagnostics.
    destruct (App.no_project st); [frame_goal|].
    pose proof (diagnostics_thread_cases w
                  (App.ui [App._set_status "🔍 Running diagnostics...";
                           App.progress_bar_set 0] st)) as H.
    cbn [App.ui App.with_calls App.project_config] in H.
    destruct (App.project_config st) as [c|] eqn:Hc.
    + destruct H as [made H]. rewrite H. frame_goal.
    + destruct H as (e & made & H). rewrite H. frame_goal.
  - unfold App._generate_report.
    destruct (App.no_project st); [frame_goal|].
    pose proof (report_thread_cases w
                  (App.ui [App._set_status "📊 Generating report..."] st)) as H.
    cbn [App.ui App.with_calls App.project_config] in H.
    destruct (App.project_config st) as [c|] eqn:Hc.
    + destruct H as (html & _ & H).
      destruct (App.save_report w html (path c)) as [report_path|e].
      * destruct H as [made H]. rewrite H. frame_goal.
      * rewrite H. frame_goal.
    + destruct H as [e H]. rewrite H. frame_goal.
  - unfold App._open_latest_report.
    destruct (App.last_report_path st) as [p|]; [|frame_goal].
    destruct (negb (String.eqb p "") && App.path_exists w p); frame_goal.
Qed.

Lemma session_cons (s : App.World * command) (steps : list (App.World * command))
  (st : App.State) :
  session (s :: steps) st = session steps (exec (fst s) (snd s) st).
Proof. reflexivity. Qed.

(** X20: nothing in the window removes a diagnostic record or a call
    from the log of the calls: whatever the commands given and the worlds
    they are given in, the records held before are still there, in
    place, and what is new comes after them.  The test results only
    change by a test command, the build flag by a build, the path of the
    last report by a report, the project by detection or by opening one,
    the target by the dialog. *)
Theorem session_keeps_records :
  forall steps st,
    (exists added,
        App.diagnostic_issues (session steps st)
        = (App.diagnostic_issues st ++ added)%list)
    /\ (exists made,
           App.calls (session steps st) = (App.calls st ++ made)%list)
    /\ (Forall (fun s => snd s <> Test) steps ->
        App.test_results (session steps st) = App.test_results st)
    /\ (Forall (fun s => snd s <> Build) steps ->
        App.build_success (session steps st) = App.build_success st)
    /\ (Forall (fun s => snd s <> Report) steps ->
        App.last_report_path (session steps st) = App.last_report_path st)
    /\ (Forall (fun s => snd s <> Detect /\ snd s <> OpenProject) steps ->
        App.project_config (session steps st) = App.project_config st)
    /\ (Forall (fun s => snd s <> SelectTarget) steps ->
        App.selected_target (session steps st) = App.selected_target st).
Proof.
  induction steps as [|[w c] steps IH]; intros st.
  - cbn [session fold_left].
    split; [exists []; now rewrite app_nil_r|].
    split; [exists []; now rewrite app_nil_r|].
    repeat split; reflexivity.
  - rewrite session_cons. cbn [fst snd].
    destruct (IH (exec w c st))
      as ([added Ha] & [made Hm] & Ht & Hb & Hr & Hp & Hs).
    destruct (exec_frame w c st)
      as (([added0 [Ha0 _]] & [made0 Hm0]) & Ht0 & Hb0 & Hr0 & Hp0 & Hs0).
    split; [exists (added0 ++ added)%list; now rewrite Ha, Ha0, app_assoc|].
    split; [exists (made0 ++ made)%list; now rewrite Hm, Hm0, app_assoc|].
    split; [intros H; inversion H; subst; rewrite Ht by assumption; auto|].
    split; [intros H; inversion H; subst; rewrite Hb by assumption; auto|].
    split; [intros H; inversion H; subst; rewrite Hr by assumption; auto|].
    split; [intros H; inversion H as [|? ? [? ?] ?]; subst;
            rewrite Hp by assumption; auto|].
    intros H; inversion H; subst; rewrite Hs by assumption; auto.
Qed.

Lemma session_keeps_records_witness :
  App.test_results
    (session [(Sample3.world, Build); (Sample3.world, Diagnose);
              (Sample3.bare_world, OpenProject); (Sample3.world, Report)]
             Sample3.ready)
  = Sample.tests_3_of_4.
Proof.
  apply (proj1 (proj2 (proj2 (session_keeps_records _ Sample3.ready)))).
  repeat constructor; discriminate.
Defined.

Ltac idle_goal :=
  unfold idle; fields;
  split; [assumption || reflexivity|];
  split; [reflexivity|]; split; [reflexivity|]; split; [reflexivity|];
  split; [reflexivity|]; split; [assumption || reflexivity|];
  first [ exists []; split; [now rewrite app_nil_r | constructor]
        | eexists; split; [reflexivity | repeat constructor] ].

Lemma exec_without_project (w : App.World) (c : command) (st : App.State) :
  App.project_config st = None ->
  finds_no_project (w, c) ->
  idle st (exec w c st).
Proof.
  intros Hp Hf. destruct c; unfold exec, finds_no_project in *; cbn [fst snd] in Hf.
  - unfold App._auto_detect_project. fold (project_in w (App.getcwd w)).
    rewrite Hf. idle_goal.
  - unfold App._select_project.
    destruct (String.eqb (App.askdirectory w) "") eqn:E; [idle_goal|].
    destruct Hf as [Hf|Hf]; [rewrite Hf in E; discriminate|].
    fold (project_in w (App.askdirectory w)). rewrite Hf. idle_goal.
  - unfold App._select_target, App.no_project. rewrite Hp. idle_goal.
  - unfold App._build_project, App.no_project. rewrite Hp. idle_goal.
  - unfold App._run_tests, App.no_project. rewrite Hp. idle_goal.
  - unfold App._run_diagnostics, App.no_project. rewrite Hp. idle_goal.
  - unfold App._generate_report, App.no_project. rewrite Hp. idle_goal.
  - unfold App._open_latest_report.
    destruct (App.last_report_path st) as [p|] eqn:E; [|idle_goal].
    destruct (negb (String.eqb p "") && App.path_exists w p); idle_goal.
Qed.

(** X21: as long as no project is found, no command does anything but
    tell the user so: the dialog of the targets is not opened, the
    build, the tests, the diagnostics and the report are not run,
    whatever the world.  There is still no project, the target, the
    test results, the records, the build flag and the path of the last
    report stay what they were (those [__init__] set, in a session from
    the start), and every call made is a message box, a line of the
    log, the status line or the last report opened in the browser. *)
Theorem nothing_runs_without_project :
  forall steps st,
    App.project_config st = None ->
    Forall finds_no_project steps ->
    App.project_config (session steps st) = None
    /\ App.selected_target (session steps st) = App.selected_target st
    /\ App.test_results (session steps st) = App.test_results st
    /\ App.diagnostic_issues (session steps st) = App.diagnostic_issues st
    /\ App.build_success (session steps st) = App.build_success st
    /\ App.last_report_path (session steps st) = App.last_report_path st
    /\ exists made,
         App.calls (session steps st) = (App.calls st ++ made)%list
         /\ Forall notice made.
Proof.
  induction steps as [|[w c] steps IH]; intros st Hp Hf.
  - cbn [session fold_left]. repeat (split; [reflexivity || assumption|]).
    exists []. split; [now rewrite app_nil_r | constructor].
  - inversion Hf as [|? ? H1 H2]; subst.
    rewrite session_cons. cbn [fst snd].
    destruct (exec_without_project w c st Hp H1)
      as (Ep & Es & Et & Ei & Eb & Er & made & Ec & Hm).
    destruct (IH _ Ep H2) as (Fp & Fs & Ft & Fi & Fb & Fr & made' & Fc & Hm').
    rewrite Fp, Fs, Ft, Fi, Fb, Fr, Es, Et, Ei, Eb, Er.
    repeat (split; [reflexivity|]).
    exists (made ++ made')%list. split.
    + now rewrite Fc, Ec, app_assoc.
    + apply Forall_app. now split.
Qed.

Lemma nothing_runs_without_project_witness :
  App.selected_target
    (session [(Sample3.bare_world, Detect); (Sample3.world, SelectTarget);
              (Sample3.world, Build); (Sample3.world, Test);
              (Sample3.world, Diagnose); (Sample3.bare_world, OpenProject);
              (Sample3.world, Report)]
             App.init)
  = None.
Proof.
  refine (proj1 (proj2 (nothing_runs_without_project _ App.init _ _))).
  - reflexivity.
  - constructor; [reflexivity|].
    constructor; [exact I|]. constructor; [exact I|]. constructor; [exact I|].
    constructor; [exact I|].
    constructor; [right; reflexivity|]. constructor; [exact I|]. constructor.
Defined.

Lemma lookup_no_target (st : App.State) (target : Json.dict) (uuid : Json.value) :
  App.selected_target st = Some target ->
  Json.lookup "uuid" target = Some uuid ->
  App.no_target st = false.
Proof.
  intros Ht Hu. unfold App.no_target. rewrite Ht.
  destruct target; [discriminate|reflexivity].
Qed.

Lemma no_project_false (st : App.State) (c : ProjectConfig) :
  App.project_config st = Some c -> App.no_project st = false.
Proof. intros H. unfold App.no_project. now rewrite H. Qed.

Lemma exec_diagnose (w : App.World) (st : App.State) (c : ProjectConfig) :
  App.project_config st = Some c ->
  exists made,
    exec w Diagnose st
    = App.with_calls (App.calls st ++ made)
        (App.with_diagnostic_issues
           (App.diagnostic_issues st
              ++ DiagnosticsEngine.analyze_source_code (App.rglob w (path c))) st).
Proof.
  intros Hc. unfold exec, App._run_diagnostics.
  rewrite (no_project_false st c Hc).
  pose proof (diagnostics_thread_cases w
                (App.ui [App._set_status "🔍 Running diagnostics...";
                         App.progress_bar_set 0] st)) as H.
  cbn [App.ui App.with_calls App.project_config] in H. rewrite Hc in H.
  destruct H as [made H]. rewrite H. eexists.
  unfold App.with_calls, App.with_diagnostic_issues. fields.
  rewrite Hc, <- app_assoc. reflexivity.
Qed.

Lemma exec_build (w : App.World) (st : App.State) (c : ProjectConfig)
  (target : Json.dict) (uuid : Json.value) :
  App.project_config st = Some c ->
  App.selected_target st = Some target ->
  Json.lookup "uuid" target = Some uuid ->
  exists made,
    let r := captured w (xcodebuild w ["xcodebuild"; "clean"; "build"] c uuid)
                      (path c) in
    exec w Build st
    = App.with_calls (App.calls st ++ made)
        (App.with_build_success (succeeded r)
           (App.with_diagnostic_issues
              (App.diagnostic_issues st
                 ++ DiagnosticsEngine.analyze_build_output (output_of r)) st)).
Proof.
  intros Hc Ht Hu. unfold exec, App._build_project.
  rewrite (no_project_false st c Hc), (lookup_no_target st target uuid Ht Hu).
  set (st0 := App.ui _ st).
  assert (Hc0 : App.project_config st0 = Some c) by exact Hc.
  assert (Ht0 : App.selected_target st0 = Some target) by exact Ht.
  destruct (build_thread_cases w st0)
    as [[e H]|(c' & target' & uuid' & Hc' & Ht' & Hu' & made & H)].
  - exfalso. unfold App.build_thread in H.
    rewrite (command_line_returns w _ st0 c target uuid Hc0 Ht0 Hu) in H.
    unfold App.run_command in H. cbn [App.ui App.with_calls App.project_config] in H.
    rewrite Hc0 in H.
    destruct (CommandRunner.run _ _ _ _ _) as [[[success output] err] cs].
    discriminate.
  - assert (c' = c) by congruence. assert (target' = target) by congruence.
    subst c' target'. assert (uuid' = uuid) by congruence. subst uuid'.
    cbv zeta in H. rewrite H. eexists. cbv zeta.
    unfold App.with_calls, App.with_diagnostic_issues, App.with_build_success.
    subst st0. fields. rewrite <- app_assoc. reflexivity.
Qed.

Ltac in_list := cbn [In]; solve [repeat first [left; reflexivity | right]].

Ltac in_calls :=
  solve [ in_list
        | apply in_or_app; left; in_calls
        | apply in_or_app; right; in_calls ].

Ltac not_in_calls H :=
  repeat (apply in_app_or in H; destruct H as [H|H]);
  try (apply in_map_iff in H; destruct H as (? & H & _); discriminate);
  cbn [In] in H;
  repeat (destruct H as [H|H]; try discriminate);
  try contradiction.

Lemma exec_test (w : App.World) (st : App.State) (c : ProjectConfig)
  (target : Json.dict) (uuid : Json.value) :
  App.project_config st = Some c ->
  App.selected_target st = Some target ->
  Json.lookup "uuid" target = Some uuid ->
  let r := captured w (xcodebuild w ["xcodebuild"; "test"] c uuid) (path c) in
  match TestParser.parse_results (output_of r) with
  | Ok (tests, total, passed, failed) =>
      exists made,
        App._run_tests w st
        = App.Done (App.with_calls (App.calls st ++ made)
                                   (App.with_test_results tests st))
        /\ In (App.configure "test_stat"
                 [("text", Str.str_of_Z passed ++ " / " ++ Str.str_of_Z total)])
              made
        /\ In (App.fill_test_tree tests) made
  | Raise e =>
      exists made,
        App._run_tests w st
        = App.Died (Json.Other e) (App.with_calls (App.calls st ++ made) st)
        /\ ~ In (App.progress_bar_set 1) made
        /\ forall tests, ~ In (App.fill_test_tree tests) made
  end.
Proof.
  intros Hc Ht Hu r. unfold App._run_tests.
  rewrite (no_project_false st c Hc), (lookup_no_target st target uuid Ht Hu).
  unfold App.test_thread.
  set (st0 := App.ui _ st).
  assert (Hc0 : App.project_config st0 = Some c) by exact Hc.
  assert (Ht0 : App.selected_target st0 = Some target) by exact Ht.
  rewrite (command_line_returns w _ st0 c target uuid Hc0 Ht0 Hu).
  unfold App.run_command. cbn [App.ui App.with_calls App.project_config App.calls].
  rewrite Hc0, run_append_line. fold r. subst st0.
  destruct r as [[success output] err]. cbn [output_of fst snd].
  destruct (TestParser.parse_results output) as [[[[tests total] passed] failed]|e].
  - eexists. split; [|split].
    + unfold App._update_test_display, App.ui, App.with_test_results, App.with_calls.
      fields. repeat rewrite <- app_assoc. reflexivity.
    + in_calls.
    + in_calls.
  - eexists. split; [|split].
    + unfold App.ui, App.with_calls. fields. repeat rewrite <- app_assoc.
      reflexivity.
    + intros H. not_in_calls H.
    + intros tests H. not_in_calls H.
Qed.

Lemma exec_report (w : App.World) (st : App.State) (c : ProjectConfig) :
  App.project_config st = Some c ->
  exists html,
    ReportGenerator.generate_html (App.clock w) c (App.test_results st)
                                  (App.diagnostic_issues st)
                                  (App.build_success st) = Ok html
    /\ match App.save_report w html (path c) with
       | Ok report_path =>
           exists made,
             exec w Report st
             = App.with_calls (App.calls st ++ made)
                 (App.with_last_report_path (Some report_path) st)
       | Raise e =>
           exists made,
             App._generate_report w st
             = App.Died (Json.Other e) (App.with_calls (App.calls st ++ made) st)
       end.
Proof.
  intros Hc. unfold exec, App._generate_report.
  rewrite (no_project_false st c Hc).
  pose proof (report_thread_cases w
                (App.ui [App._set_status "📊 Generating report..."] st)) as H.
  cbn [App.ui App.with_calls App.project_config App.test_results
       App.diagnostic_issues App.build_success] in H.
  rewrite Hc in H. destruct H as (html & Hh & H).
  exists html. split; [assumption|].
  destruct (App.save_report w html (path c)) as [report_path|e].
  - destruct H as [made H]. rewrite H. eexists.
    unfold App.with_calls, App.with_last_report_path. fields.
    rewrite Hc, <- app_assoc. reflexivity.
  - rewrite H. eexists. unfold App.with_calls. fields. reflexivity.
Qed.

(** X22: a stage that is run again adds its records again: the
    diagnostics run twice over the same tree list every record of the
    tree twice, and a build run twice with the same output lists every
    error and warning of the output twice; the records held before stay
    in front. *)
Theorem rerun_duplicates :
  forall w st c,
    App.project_config st = Some c ->
    (let found := DiagnosticsEngine.analyze_source_code (App.rglob w (path c)) in
     App.diagnostic_issues (exec w Diagnose (exec w Diagnose st))
     = (App.diagnostic_issues st ++ found ++ found)%list)
    /\ (forall target uuid,
           App.selected_target st = Some target ->
           Json.lookup "uuid" target = Some uuid ->
           let r :=
             captured w (xcodebuild w ["xcodebuild"; "clean"; "build"] c uuid)
                      (path c) in
           let found := DiagnosticsEngine.analyze_build_output (output_of r) in
           App.diagnostic_issues (exec w Build (exec w Build st))
           = (App.diagnostic_issues st ++ found ++ found)%list).
Proof.
  intros w st c Hc. split.
  - destruct (exec_diagnose w st c Hc) as [made E]. rewrite E.
    destruct (exec_diagnose w
                (App.with_calls (App.calls st ++ made)
                   (App.with_diagnostic_issues
                      (App.diagnostic_issues st
                         ++ DiagnosticsEngine.analyze_source_code
                              (App.rglob w (path c))) st)) c Hc)
      as [made' E'].
    rewrite E'. fields. now rewrite <- app_assoc.
  - intros target uuid Ht Hu.
    destruct (exec_build w st c target uuid Hc Ht Hu) as [made E].
    cbv zeta in E. rewrite E.
    match goal with
    | |- context [exec w Build ?s] =>
        destruct (exec_build w s c target uuid Hc Ht Hu) as [made' E']
    end.
    cbv zeta in E'. rewrite E'. fields. now rewrite <- app_assoc.
Qed.

Lemma rerun_duplicates_witness :
  List.length
    (App.diagnostic_issues
       (exec Sample3.world Diagnose (exec Sample3.world Diagnose Sample3.ready)))
  = 5%nat.
Proof.
  rewrite (proj1 (rerun_duplicates Sample3.world Sample3.ready Sample.project
                                   eq_refl)).
  reflexivity.
Defined.

(** X23: a test run that ends replaces the test results by the records
    of its own output, and the counts the window shows are the parser's
    totals.  When the parser raises (C2), the thread dies: the results of
    the run before stay, the tests are not shown again and the progress
    bar is not set to its end.  When the tool cannot be started the run
    ends all the same, with no result at all: the results held before
    are dropped and the window shows "0 / 0". *)
Theorem test_run_replaces_results :
  forall w st c target uuid,
    App.project_config st = Some c ->
    App.selected_target st = Some target ->
    Json.lookup "uuid" target = Some uuid ->
    let cmd := xcodebuild w ["xcodebuild"; "test"] c uuid in
    let r := captured w cmd (path c) in
    (forall tests total passed failed,
        TestParser.parse_results (output_of r) = Ok (tests, total, passed, failed) ->
        exists made,
          App._run_tests w st
          = App.Done (App.with_calls (App.calls st ++ made)
                                     (App.with_test_results tests st))
          /\ In (App.configure "test_stat"
                   [("text", Str.str_of_Z passed ++ " / " ++ Str.str_of_Z total)])
                made
          /\ In (App.fill_test_tree tests) made)
    /\ (forall e,
           TestParser.parse_results (output_of r) = Raise e ->
           exists made,
             App._run_tests w st
             = App.Died (Json.Other e) (App.with_calls (App.calls st ++ made) st)
             /\ ~ In (App.progress_bar_set 1) made
             /\ forall tests, ~ In (App.fill_test_tree tests) made)
    /\ (forall e,
           App.popen w cmd (path c) = Raise e ->
           exists made,
             App._run_tests w st
             = App.Done (App.with_calls (App.calls st ++ made)
                                        (App.with_test_results [] st))
             /\ In (App.configure "test_stat" [("text", "0 / 0")]) made).
Proof.
  intros w st c target uuid Hc Ht Hu cmd r.
  pose proof (exec_test w st c target uuid Hc Ht Hu) as H.
  cbv zeta in H. fold cmd in H. fold r in H.
  split; [|split].
  - intros tests total passed failed E. rewrite E in H. exact H.
  - intros e E. rewrite E in H. exact H.
  - intros e E.
    assert (Hr : output_of r = "").
    { unfold r, captured, CommandRunner.run. now rewrite E. }
    rewrite Hr in H.
    change (TestParser.parse_results "") with (Ok ([] : list TestResult, 0, 0, 0)) in H.
    destruct H as (made & H1 & H2 & _). exists made. now split.
Qed.

Lemma test_run_replaces_results_witness :
  exists made,
    App._run_tests Sample3.world Sample3.ready
    = App.Done (App.with_calls (App.calls Sample3.ready ++ made)
                               (App.with_test_results [] Sample3.ready))
    /\ In (App.configure "test_stat" [("text", "0 / 0")]) made
    /\ In (App.fill_test_tree []) made.
Proof.
  refine (proj1 (test_run_replaces_results
                   Sample3.world Sample3.ready Sample.project Sample3.target
                   (Json.Str "00008030-001C2D3E4F5A6B7C") eq_refl eq_refl eq_refl)
                [] 0 0 0 _).
  reflexivity.
Defined.

(** X24: build, tests, diagnostics and report, one after the other: the
    report that is saved is the document of the project, of the records
    parsed from the output of the test run, of the records held before
    followed by those of the build output and then those of the source
    tree, and of the outcome of the build; its path becomes the path of
    the last report. *)
Theorem pipeline_report :
  forall w st c target uuid tests total passed failed,
    App.project_config st = Some c ->
    App.selected_target st = Some target ->
    Json.lookup "uuid" target = Some uuid ->
    let built :=
      captured w (xcodebuild w ["xcodebuild"; "clean"; "build"] c uuid) (path c) in
    let tested :=
      captured w (xcodebuild w ["xcodebuild"; "test"] c uuid) (path c) in
    TestParser.parse_results (output_of tested) = Ok (tests, total, passed, failed) ->
    exists html,
      ReportGenerator.generate_html
        (App.clock w) c tests
        (App.diagnostic_issues st
           ++ DiagnosticsEngine.analyze_build_output (output_of built)
           ++ DiagnosticsEngine.analyze_source_code (App.rglob w (path c)))%list
        (succeeded built)
      = Ok html
      /\ forall report_path,
           App.save_report w html (path c) = Ok report_path ->
           App.last_report_path
             (session [(w, Build); (w, Test); (w, Diagnose); (w, Report)] st)
           = Some report_path.
Proof.
  intros w st c target uuid tests total passed failed Hc Ht Hu built tested Hp.
  cbn [session fold_left fst snd].
  destruct (exec_build w st c target uuid Hc Ht Hu) as [made1 E1].
  cbv zeta in E1. fold built in E1. rewrite E1.
  set (st1 := App.with_calls _ _).
  assert (Hc1 : App.project_config st1 = Some c) by exact Hc.
  assert (Ht1 : App.selected_target st1 = Some target) by exact Ht.
  pose proof (exec_test w st1 c target uuid Hc1 Ht1 Hu) as E2.
  cbv zeta in E2. fold tested in E2. rewrite Hp in E2.
  destruct E2 as (made2 & E2 & _).
  unfold exec at 3. rewrite E2. cbn [App.state_of].
  set (st2 := App.with_calls _ _).
  assert (Hc2 : App.project_config st2 = Some c) by exact Hc.
  destruct (exec_diagnose w st2 c Hc2) as [made3 E3]. rewrite E3.
  set (st3 := App.with_calls _ _).
  assert (Hc3 : App.project_config st3 = Some c) by exact Hc.
  destruct (exec_report w st3 c Hc3) as (html & Hh & E4).
  exists html. split.
  - rewrite <- Hh. subst st3 st2 st1. fields. now rewrite <- app_assoc.
  - intros report_path Hs. rewrite Hs in E4. destruct E4 as [made4 E4].
    rewrite E4. reflexivity.
Qed.

Lemma pipeline_report_witness :
  exists html,
    ReportGenerator.generate_html
      Sample.clock Sample.project []
      ([Sample.issue "warning"]
         ++ DiagnosticsEngine.analyze_build_output
              (output_of (captured Sample3.world
                            (xcodebuild Sample3.world ["xcodebuild"; "clean"; "build"]
                                        Sample.project
                                        (Json.Str "00008030-001C2D3E4F5A6B7C"))
                            "/p"))
         ++ DiagnosticsEngine.analyze_source_code
              [Sample.a_swift; Sample.b_swift; Sample.c_swift])%list
      false
    = Ok html
    /\ forall report_path,
         App.save_report Sample3.world html "/p" = Ok report_path ->
         App.last_report_path
           (session [(Sample3.world, Build); (Sample3.world, Test);
                     (Sample3.world, Diagnose); (Sample3.world, Report)]
                    Sample3.ready)
         = Some report_path.
Proof.
  exact (pipeline_report Sample3.world Sample3.ready Sample.project Sample3.target
                         (Json.Str "00008030-001C2D3E4F5A6B7C") [] 0 0 0
                         eq_refl eq_refl eq_refl eq_refl).
Defined.

(** X25: opening a directory replaces the project by what the directory
    holds, and by nothing when it holds no project: the project that was
    open is forgotten and the next build only asks for one.  Nothing
    else is reset: the report generated next for the new project is the
    document of the test results, the records and the build outcome held
    before the project was opened. *)
Theorem open_project_keeps_results :
  forall w st,
    App.askdirectory w <> "" ->
    let st' := exec w OpenProject st in
    App.project_config st' = project_in w (App.askdirectory w)
    /\ (project_in w (App.askdirectory w) = None ->
        forall w2,
          App._build_project w2 st'
          = App.Done (App.ui [App.showwarning "Warning" "Please open a project first"]
                             st'))
    /\ (forall c w2,
           project_in w (App.askdirectory w) = Some c ->
           exists html,
             ReportGenerator.generate_html
               (App.clock w2) c (App.test_results st) (App.diagnostic_issues st)
               (App.build_success st)
             = Ok html
             /\ forall report_path,
                  App.save_report w2 html (path c) = Ok report_path ->
                  App.last_report_path (exec w2 Report st') = Some report_path).
Proof.
  intros w st Hd st'.
  assert (E : App.project_config st' = project_in w (App.askdirectory w)
              /\ App.test_results st' = App.test_results st
              /\ App.diagnostic_issues st' = App.diagnostic_issues st
              /\ App.build_success st' = App.build_success st).
  { subst st'. unfold exec, App._select_project.
    destruct (String.eqb (App.askdirectory w) "") eqn:E.
    - apply String.eqb_eq in E. contradiction.
    - fold (project_in w (App.askdirectory w)).
      destruct (project_in w (App.askdirectory w)); fields; now repeat split. }
  destruct E as (Ep & Et & Ei & Eb).
  split; [assumption|]. split.
  - intros Hn w2. unfold App._build_project, App.no_project.
    now rewrite Ep, Hn.
  - intros c w2 Hs. rewrite Hs in Ep.
    destruct (exec_report w2 st' c Ep) as (html & Hh & H).
    rewrite Et, Ei, Eb in Hh. exists html. split; [assumption|].
    intros report_path Hr. rewrite Hr in H. destruct H as [made H].
    rewrite H. reflexivity.
Qed.

Lemma open_project_keeps_results_witness :
  App.project_config (exec Sample3.bare_world OpenProject Sample3.ready) = None.
Proof.
  refine (proj1 (open_project_keeps_results Sample3.bare_world Sample3.ready _)).
  discriminate.
Defined.

(* ----------------------------------------------------------------- *)
(** ** Targets *)

Lemma simulator_is_target (d : Json.dict) : simulator_entry d -> target_entry d.
Proof.
  intros (n & u & s & r & ->). unfold XcodeDetector.simulator.
  now repeat eexists.
Qed.

Lemma device_is_target (d : Json.dict) : well_formed_device d -> target_entry d.
Proof.
  intros (n & u & -> & _). unfold XcodeDetector.device. now repeat eexists.
Qed.

Lemma scan_simulator_entries (runtime : string) (simulators simulators' : list Json.dict)
  (v : Json.value) :
  XcodeDetector.scan_simulator runtime simulators v = Json.Return simulators' ->
  Forall simulator_entry simulators ->
  Forall simulator_entry simulators'.
Proof.
  unfold XcodeDetector.scan_simulator.
  destruct (Json.get v "isAvailable" _) as [a|e]; cbn [Json.bind]; [|discriminate].
  destruct (Json.truthy a); [|now intros [= <-]].
  destruct (Json.subscript v "name") as [n|e]; cbn [Json.bind]; [|discriminate].
  destruct (Json.text_in "iPhone" n) as [[]|e]; cbn [Json.bind];
    [|now intros [= <-]|discriminate].
  destruct (Json.subscript v "udid") as [u|e]; cbn [Json.bind]; [|discriminate].
  destruct (Json.get v "state" _) as [s|e]; cbn [Json.bind]; [|discriminate].
  intros [= <-] H. apply Forall_app. split; [assumption|].
  constructor; [|constructor]. now exists n, u, s, runtime.
Qed.

Lemma scan_simulators_entries (runtime : string) (devices : list Json.value)
  (simulators simulators' : list Json.dict) :
  XcodeDetector.scan_simulators runtime devices simulators = Json.Return simulators' ->
  Forall simulator_entry simulators ->
  Forall simulator_entry simulators'.
Proof.
  revert simulators; induction devices as [|v devices IH]; intros simulators;
    cbn [XcodeDetector.scan_simulators].
  - now intros [= <-].
  - destruct (XcodeDetector.scan_simulator runtime simulators v) as [s1|e] eqn:E;
      cbn [Json.bind]; [|discriminate].
    intros H1 H2. apply (IH _ H1). exact (scan_simulator_entries _ _ _ _ E H2).
Qed.

Lemma scan_runtimes_entries (runtimes : list (string * Json.value))
  (simulators simulators' : list Json.dict) :
  XcodeDetector.scan_runtimes runtimes simulators = Json.Return simulators' ->
  Forall simulator_entry simulators ->
  Forall simulator_entry simulators'.
Proof.
  revert simulators; induction runtimes as [|[runtime v] runtimes IH];
    intros simulators; cbn [XcodeDetector.scan_runtimes].
  - now intros [= <-].
  - destruct (Str.contains "iOS" runtime); [|apply IH].
    destruct (Json.iterate v) as [devices|e]; cbn [Json.bind]; [|discriminate].
    destruct (XcodeDetector.scan_simulators runtime devices simulators)
      as [s1|e] eqn:E; cbn [Json.bind]; [|discriminate].
    intros H1 H2. apply (IH _ H1). exact (scan_simulators_entries _ _ _ _ E H2).
Qed.

Lemma get_simulators_are_entries (loads : string -> Json.res Json.value)
  (run : Subprocess.run_fn) :
  Forall simulator_entry (XcodeDetector.get_simulators loads run).
Proof.
  unfold XcodeDetector.get_simulators.
  destruct (XcodeDetector.simulators_of loads run) as [sims|e] eqn:E;
    [|constructor].
  unfold XcodeDetector.simulators_of in E.
  destruct (run XcodeDetector.simctl_command None) as [r|e]; [|discriminate].
  destruct (negb (Subprocess.returncode r =? 0)).
  - injection E as <-. constructor.
  - destruct (loads (Subprocess.stdout r)) as [data|e]; cbn [Json.bind] in E;
      [|discriminate].
    destruct (Json.get data "devices" _) as [devices|e]; cbn [Json.bind] in E;
      [|discriminate].
    destruct (Json.items devices) as [runtimes|e]; cbn [Json.bind] in E;
      [|discriminate].
    apply (scan_runtimes_entries _ _ _ E). constructor.
Qed.

Lemma get_devices_are_well_formed (run : Subprocess.run_fn) :
  Forall well_formed_device (XcodeDetector.get_devices run).
Proof.
  unfold XcodeDetector.get_devices.
  destruct (run XcodeDetector.xctrace_command None) as [r|e]; [|constructor].
  destruct (negb (Subprocess.returncode r =? 0)); [constructor|].
  apply (scan_device_lines_invariant _ ([], false)). constructor.
Qed.

Lemma targets_are_entries (w : App.World) (kind : string) :
  Forall target_entry (targets_of w kind).
Proof.
  unfold targets_of. destruct (String.eqb kind "simulator").
  - eapply Forall_impl; [|apply get_simulators_are_entries].
    exact simulator_is_target.
  - eapply Forall_impl; [|apply get_devices_are_well_formed].
    exact device_is_target.
Qed.

(** X26: the button "Select" takes the row selected out of a fresh
    listing of the targets.  When that listing has such a row the
    command returns; the target is the entry of the row with the kind
    added as "type", it has a "uuid", and whatever project is open the
    command lines of the build and of the tests are defined and end
    with the destination made of that identifier. *)
Theorem selected_target_has_destination :
  forall w st idx rest target,
    App.curselection w = idx :: rest ->
    nth_error (targets_of w (App.target_type w)) idx = Some target ->
    exists st' uuid,
      App.on_select w st = App.Done st'
      /\ App.selected_target st'
         = Some (Json.set "type" (Json.Str (App.target_type w)) target)
      /\ Json.lookup "uuid" target = Some uuid
      /\ App.project_config st' = App.project_config st
      /\ App.no_target st' = false
      /\ forall w2 verb c,
           App.project_config st = Some c ->
           App.command_line w2 verb st' = Json.Return (xcodebuild w2 verb c uuid).
Proof.
  intros w st idx rest target Hs Hn.
  assert (He : target_entry target).
  { pose proof (targets_are_entries w (App.target_type w)) as H.
    rewrite Forall_forall in H. apply H. eapply nth_error_In. exact Hn. }
  destruct He as (n & u & s & more & ->).
  unfold App.on_select. rewrite Hs. fold (targets_of w (App.target_type w)).
  rewrite Hn.
  cbn [Json.set String.eqb Ascii.eqb Bool.eqb Json.subscript Json.lookup].
  eexists. exists u. split; [reflexivity|].
  cbn [App.ui App.with_calls App.with_selected_target App.selected_target
       App.project_config App.no_target Json.lookup String.eqb Ascii.eqb Bool.eqb].
  split; [reflexivity|]. split; [reflexivity|]. split; [reflexivity|].
  split; [reflexivity|].
  intros w2 verb c Hc.
  eapply (command_line_returns w2 verb _ c _ u);
    [exact Hc | reflexivity | reflexivity].
Qed.

Lemma selected_target_has_destination_witness :
  exists st' uuid,
    App.on_select Sample3.world Sample3.ready = App.Done st'
    /\ App.selected_target st'
       = Some (Json.set "type" (Json.Str "simulator")
                 (XcodeDetector.simulator
                    (Json.Str "iPhone 15") (Json.Str "AAAA-1") (Json.Str "Booted")
                    "com.apple.CoreSimulator.SimRuntime.iOS-17-0"))
    /\ Json.lookup "uuid"
         (XcodeDetector.simulator
            (Json.Str "iPhone 15") (Json.Str "AAAA-1") (Json.Str "Booted")
            "com.apple.CoreSimulator.SimRuntime.iOS-17-0") = Some uuid
    /\ App.project_config st' = Some Sample.project
    /\ App.no_target st' = false
    /\ forall w2 verb c,
         Some Sample.project = Some c ->
         App.command_line w2 verb st' = Json.Return (xcodebuild w2 verb c uuid).
Proof.
  exact (selected_target_has_destination
           Sample3.world Sample3.ready 0%nat [] _ eq_refl eq_refl).
Defined.

Lemma labels_total (label : Json.dict -> Json.res string) (f : Json.dict -> string)
  (targets : list Json.dict) (listbox : list string) :
  Forall (fun t => label t = Json.Return (f t)) targets ->
  App.labels label targets listbox = Json.Return (listbox ++ map f targets)%list.
Proof.
  intros H; revert listbox; induction H as [|t targets Ht _ IH]; intros listbox;
    cbn [App.labels map].
  - now rewrite app_nil_r.
  - rewrite Ht. cbn [Json.bind]. rewrite IH. now rewrite <- app_assoc.
Qed.

Lemma labels_returns (label : Json.dict -> Json.res string)
  (targets : list Json.dict) (listbox : list string) :
  Forall (fun t => exists l, label t = Json.Return l) targets ->
  exists added,
    App.labels label targets listbox = Json.Return (listbox ++ added)%list
    /\ List.length added = List.length targets.
Proof.
  intros H; revert listbox; induction H as [|t targets [l Ht] _ IH]; intros listbox;
    cbn [App.labels].
  - exists []. now rewrite app_nil_r.
  - rewrite Ht. cbn [Json.bind]. destruct (IH (listbox ++ [l])%list) as (added & E & L).
    exists (l :: added). rewrite E, <- app_assoc. cbn [List.length]. now rewrite L.
Qed.

Lemma device_label_connected (repr : Json.value -> string) (d : Json.dict) :
  well_formed_device d ->
  App.device_label repr d = Json.Return ("🟢 " ++ device_name_of d).
Proof. intros (n & u & -> & _). reflexivity. Qed.

Lemma simulator_label_returns (repr : Json.value -> string) (d : Json.dict) :
  simulator_entry d -> exists l, App.simulator_label repr d = Json.Return l.
Proof. intros (n & u & s & r & ->). eexists. reflexivity. Qed.

(** X27: filling the list of targets never raises and gives one label
    for each target of the listing; a device is always shown as
    connected, named by its name: the marker of a device that is not
    connected is never used. *)
Theorem target_list_labels :
  forall w kind,
    exists listbox,
      App._update_target_list w kind = Json.Return listbox
      /\ List.length listbox = List.length (targets_of w kind)
      /\ (kind <> "simulator" ->
          listbox = map (fun d => "🟢 " ++ device_name_of d) (targets_of w kind)).
Proof.
  intros w kind. unfold App._update_target_list, targets_of.
  destruct (String.eqb kind "simulator") eqn:E.
  - destruct (labels_returns (App.simulator_label (App.repr w))
                (XcodeDetector.get_simulators (App.loads w) (App.subprocess_run w)) [])
      as (added & H & L).
    + eapply Forall_impl; [|apply get_simulators_are_entries].
      intros d. apply simulator_label_returns.
    + exists added. split; [exact H|]. split; [exact L|].
      intros Hk. apply String.eqb_eq in E. contradiction.
  - rewrite (labels_total _ (fun d => "🟢 " ++ device_name_of d)).
    + eexists. split; [reflexivity|]. split; [apply length_map|reflexivity].
    + eapply Forall_impl; [|apply get_devices_are_well_formed].
      intros d. apply device_label_connected.
Qed.

Lemma target_list_labels_witness :
  exists listbox,
    App._update_target_list Sample3.world "device" = Json.Return listbox
    /\ List.length listbox = List.length (targets_of Sample3.world "device")
    /\ listbox = map (fun d => "🟢 " ++ device_name_of d)
                     (targets_of Sample3.world "device").
Proof.
  destruct (target_list_labels Sample3.world "device") as (listbox & H & L & E).
  exists listbox. split; [exact H|]. split; [exact L|].
  apply E. discriminate.
Defined.

(* ----------------------------------------------------------------- *)
(** ** Rows *)

Lemma take_prefix (n : nat) (s : string) :
  exists rest,
    s = Text.take n s ++ rest
    /\ String.length (Text.take n s) = Nat.min n (String.length s).
Proof.
  revert s; induction n as [|n IH]; intros s.
  - exists s. split; [reflexivity|]. now destruct s.
  - destruct s as [|a s]; [exists ""; now split|].
    destruct (IH s) as (rest & E & L). exists rest.
    cbn [Text.take append String.length]. rewrite <- E, L. now split.
Qed.

Lemma basename_free (p : string) : free_of "/" (Text.basename p).
Proof.
  unfold Text.basename.
  pose proof (split_pieces_free "/" p) as H. rewrite Forall_forall in H.
  apply H. apply last_in. apply split_not_nil.
Qed.

Lemma basename_plain (f : string) : free_of "/" f -> Text.basename f = f.
Proof.
  intros H. unfold Text.basename. now rewrite (split_free "/" f H).
Qed.

Lemma basename_after_slash (directory file_name : string) :
  free_of "/" file_name ->
  Text.basename (directory ++ "/" ++ file_name) = file_name.
Proof.
  intros H. unfold Text.basename.
  change (directory ++ "/" ++ file_name) with (directory ++ String "/" file_name).
  rewrite (split_append_sep "/" directory file_name), (split_free "/" _ H).
  apply last_last.
Qed.

(** X28: the row of a record shows the first hundred characters of the
    message, all of it when it is not longer; its values are the
    category, the severity and the name of the file.  The severity is
    shown in capitals after its marker (for a severity written with the
    code points whose upper case the model holds).  The name of the file
    is the path itself when it holds no slash and what follows its last
    slash otherwise (nothing, when the path ends with a slash); it is
    "N/A" for a record without a file or with an empty one. *)
Theorem diagnostic_row_shape :
  forall issue,
    (exists rest,
        message issue = App.row_text (App.diagnostic_row issue) ++ rest
        /\ String.length (App.row_text (App.diagnostic_row issue))
           = Nat.min 100 (String.length (message issue)))
    /\ exists severity_text file_name,
         App.row_values (App.diagnostic_row issue)
         = [category issue; severity_text; file_name]
         /\ (Str.all_chars upper_in_range (severity issue) = true ->
             severity_text
             = App.severity_emoji (severity issue) ++ " "
                 ++ Str.upper (severity issue))
         /\ (file issue = None \/ file issue = Some "" -> file_name = "N/A")
         /\ (forall f,
                file issue = Some f -> f <> "" -> free_of "/" f ->
                file_name = f)
         /\ (forall directory name,
                file issue = Some (directory ++ "/" ++ name) ->
                free_of "/" name ->
                file_name = name).
Proof.
  intros issue. split.
  - exact (take_prefix 100 (message issue)).
  - unfold App.diagnostic_row. cbn [App.row_values].
    eexists. eexists. split; [reflexivity|]. split; [reflexivity|].
    destruct (file issue) as [f|].
    + destruct (String.eqb f "") eqn:E.
      * apply String.eqb_eq in E. subst f.
        split; [reflexivity|]. split.
        -- intros f [= <-] H. congruence.
        -- intros directory name [= H]. destruct directory; discriminate.
      * split; [intros [H|[= ->]]; discriminate|]. split.
        -- intros f' [= <-] _ H. now apply basename_plain.
        -- intros directory name [= ->] H. now apply basename_after_slash.
    + split; [reflexivity|]. split; intros; discriminate.
Qed.

Lemma diagnostic_row_shape_witness :
  App.row_values
    (App.diagnostic_row
       (DiagnosticsEngine.quality "info" "note"
          {| DiagnosticsEngine.file_name := "A.swift";
             DiagnosticsEngine.file_path := "/p/Sources/A.swift";
             DiagnosticsEngine.read_text := Ok "" |}))
  = ["Code Quality"; App.severity_emoji "info" ++ " " ++ Str.upper "info"; "A.swift"].
Proof.
  destruct (diagnostic_row_shape
              (DiagnosticsEngine.quality "info" "note"
                 {| DiagnosticsEngine.file_name := "A.swift";
                    DiagnosticsEngine.file_path := "/p/Sources/A.swift";
                    DiagnosticsEngine.read_text := Ok "" |}))
    as (_ & severity_text & file_name & E & Hs & _ & _ & Hf).
  rewrite E. rewrite (Hs eq_refl).
  rewrite (Hf "/p/Sources" "A.swift" eq_refl eq_refl). reflexivity.
Defined.

Lemma scanned_row (i : DiagnosticIssue) :
  scanned i ->
  In (nth 1 (App.row_values (App.diagnostic_row i)) "") severity_texts
  /\ (build_record i -> nth 2 (App.row_values (App.diagnostic_row i)) "" = "N/A").
Proof.
  intros H. unfold App.diagnostic_row. cbn [App.row_values nth]. split.
  - destruct H as [(_ & _ & [[_ E]|[_ E]])|(_ & [E|E] & _)]; rewrite E;
      unfold severity_texts; cbn; tauto.
  - intros (E & _). now rewrite E.
Qed.

(** X29: the records the window holds all come from the two scans, in
    every session that starts with such records (none, at the start):
    an error or a warning of a build output, without a file, or a remark
    on a source file.  So the severity shown in a row is one of
    "CRITICAL", "WARNING" and "INFO" after its marker - the marker of an
    unknown severity is never shown - and the row of a record of a build
    shows no file. *)
Theorem session_records_scanned :
  forall steps st,
    Forall scanned (App.diagnostic_issues st) ->
    Forall (fun i =>
              scanned i
              /\ In (nth 1 (App.row_values (App.diagnostic_row i)) "") severity_texts
              /\ (build_record i ->
                  nth 2 (App.row_values (App.diagnostic_row i)) "" = "N/A"))
           (App.diagnostic_issues (session steps st)).
Proof.
  intros steps st H.
  assert (S : Forall scanned (App.diagnostic_issues (session steps st))).
  { revert st H; induction steps as [|[w c] steps IH]; intros st H;
      [exact H|].
    rewrite session_cons. cbn [fst snd]. apply IH.
    destruct (exec_frame w c st) as (((added & E & Ha) & _) & _).
    rewrite E. apply Forall_app. now split. }
  eapply Forall_impl; [|exact S].
  intros i Hi. split; [exact Hi|]. now apply scanned_row.
Qed.

Lemma session_records_scanned_witness :
  Forall (fun i =>
            scanned i
            /\ In (nth 1 (App.row_values (App.diagnostic_row i)) "") severity_texts
            /\ (build_record i ->
                nth 2 (App.row_values (App.diagnostic_row i)) "" = "N/A"))
         (App.diagnostic_issues
            (session [(Sample3.world, Detect); (Sample3.world, SelectTarget);
                      (Sample3.world, Build); (Sample3.world, Diagnose)]
                     App.init)).
Proof.
  apply (session_records_scanned _ App.init). constructor.
Defined.
